(** * gcloud command handlers: flag-to-request marshalling

    A shallow embedding of three command handlers of the SDK,

    - [surface/compute/firewall_policies/rules/update.py],
    - [surface/policy_intelligence/simulate/orgpolicy.py],
    - [surface/container/clusters/create.py],

    together with the properties of the request-building and
    operation-handling code that the design document states. *)

From Stdlib Require Import ZArith Ascii String.
From stdpp Require Import gmap strings list fin_maps pretty.

Local Open Scope string_scope.
Local Open Scope Z_scope.

Set Warnings "-register-all".

(** ** Python values, exceptions and the error monad *)

(** The dynamically typed values that travel through the handlers: flag
    values of the argparse namespace, keyword arguments of API messages
    and attributes of option objects.  [VMsg cls kw] is an API message
    built as [cls(k1=v1, ..., kn=vn)]; the keyword list is kept in source
    order. *)
Inductive value : Type :=
| VNone
| VBool (b : bool)
| VInt (z : Z)
| VStr (s : string)
| VList (l : list string)
| VDict (d : list (string * string))
| VEnum (e : string)
| VSeq (l : list value)
| VMsg (cls : string) (kw : list (string * value)).

(** Python truthiness, as used by [if x:] and [not x]. *)
Definition truthy (v : value) : bool :=
  match v with
  | VNone => false
  | VBool b => b
  | VInt z => negb (z =? 0)
  | VStr s => negb (String.eqb s "")
  | VList l => negb (bool_decide (l = []))
  | VDict d => match d with [] => false | _ => true end
  | VEnum _ => true
  | VSeq l => match l with [] => false | _ => true end
  | VMsg _ _ => true
  end.

(** [v == s] for a string literal [s]. *)
Definition eq_str (v : value) (s : string) : bool :=
  match v with
  | VStr s' => String.eqb s' s
  | _ => false
  end.

(** Keyword lookup in a message. *)
Fixpoint assoc {A : Type} (k : string) (kw : list (string * A)) : option A :=
  match kw with
  | [] => None
  | (k', v) :: kw' => if String.eqb k k' then Some v else assoc k kw'
  end.

Definition field (k : string) (m : value) : option value :=
  match m with
  | VMsg _ kw => assoc k kw
  | _ => None
  end.

Definition field_names (m : value) : list string :=
  match m with
  | VMsg _ kw => kw.*1
  | _ => []
  end.

(** The exceptions the handlers raise or let through. *)
Inductive exn : Type :=
| AttributeError (name : string)
| TypeError (msg : string)
| IndexError (msg : string)
| UnknownDestinationException (dest : string)
| ConflictingArgumentsException (msg : string)
| InvalidArgumentException (param msg : string)
| ConflictingOptionsError (a b : string)
| UnsupportedOptionError (dest : string)
| HttpError (payload : string)
| HttpException (payload : string) (fmt : string)
| UtilError (msg : string)
| MissingEnvVarError (msg : string)
| OperationCancelledError (msg : string)
| OtherError (msg : string).

Definition result (A : Type) : Type := exn + A.

Definition ok {A : Type} (a : A) : result A := inr a.
Definition raise {A : Type} (e : exn) : result A := inl e.

Definition rbind {A B : Type} (m : result A) (f : A → result B) : result B :=
  match m with
  | inl e => inl e
  | inr a => f a
  end.

Notation "'let*' x ':=' m 'in' k" := (rbind m (fun x => k))
  (at level 10, x name, m at level 100, k at level 200, only parsing).
Notation "'let*' ' pat ':=' m 'in' k" :=
  (rbind m (fun x => match x with pat => k end))
  (at level 10, pat pattern, m at level 100, k at level 200, only parsing).

Module Calliope.

(** *** The argparse namespace *)

(** [attrs] holds one attribute per registered destination (its parsed
    value, or the default when the flag was not given); [specified] is
    the set of destinations given on the command line. *)
Record Namespace : Type := {
  attrs : gmap string value;
  specified : gset string
}.

(** [hasattr(args, name)] *)
Definition hasattr (args : Namespace) (name : string) : bool :=
  match attrs args !! name with
  | Some _ => true
  | None => false
  end.

(** [getattr(args, name, default)] *)
Definition getattr (args : Namespace) (name : string) (default : value) : value :=
  match attrs args !! name with
  | Some v => v
  | None => default
  end.

(** [args.name] *)
Definition attr (args : Namespace) (name : string) : result value :=
  match attrs args !! name with
  | Some v => ok v
  | None => raise (AttributeError name)
  end.

(** [args.IsSpecified(name)].  It throws on a destination the parser
    does not know, as the comment in [_GetEnableStackdriver] records:
    "hasattr checks if field exists, if not isSpecified would throw
    exception". *)
Definition IsSpecified (args : Namespace) (name : string) : result bool :=
  match attrs args !! name with
  | Some _ => ok (bool_decide (name ∈ specified args))
  | None => raise (UnknownDestinationException name)
  end.

(** [args.name = v] *)
Definition setattr (args : Namespace) (name : string) (v : value) : Namespace :=
  {| attrs := <[name := v]> (attrs args); specified := specified args |}.

(** *** The argument parser *)

(** A parser is the list of registered arguments together with its
    mutually exclusive groups; a group lists the destinations of its
    members.  An argument added to a group is registered on the parser as
    well. *)
Record Argument : Type := {
  dest : string;
  default_value : value
}.

Record Parser : Type := {
  arguments : list Argument;
  mutex_groups : list (list string)
}.

(** What an [Add...] helper receives as its [parser] argument: the
    parser itself or one of its groups. *)
Inductive Container : Type :=
| TopLevel
| MutexGroup (i : nat).

Definition empty_parser : Parser :=
  {| arguments := []; mutex_groups := [] |}.

(** argparse derives the destination from the option string: leading
    dashes are dropped and inner dashes become underscores. *)
Fixpoint dashes_to_underscores (s : string) : string :=
  match s with
  | EmptyString => EmptyString
  | String c s' =>
      String (if Ascii.eqb c "-"%char then "_"%char else c)
             (dashes_to_underscores s')
  end.

Fixpoint strip_dashes (s : string) : string :=
  match s with
  | String c s' => if Ascii.eqb c "-"%char then strip_dashes s' else s
  | EmptyString => EmptyString
  end.

Definition dest_of (flag : string) : string :=
  dashes_to_underscores (strip_dashes flag).

(** Registration of one argument on the parser or on one of its
    groups. *)
Definition register (c : Container) (a : Argument) (p : Parser) : Parser :=
  {| arguments := (arguments p ++ [a])%list;
     mutex_groups :=
       match c with
       | TopLevel => mutex_groups p
       | MutexGroup i =>
           alter (λ g : list string, (g ++ [dest a])%list) i (mutex_groups p)
       end |}.

(** [parser.add_argument(flag, default=dflt)] *)
Definition add_argument (c : Container) (flag : string) (dflt : value)
    (p : Parser) : Parser :=
  register c {| dest := dest_of flag; default_value := dflt |} p.

(** [parser.add_mutually_exclusive_group()] *)
Definition add_mutually_exclusive_group (p : Parser) : Container * Parser :=
  (MutexGroup (length (mutex_groups p)),
   {| arguments := arguments p; mutex_groups := (mutex_groups p ++ [[]])%list |}).

Definition dests (p : Parser) : list string := dest <$> arguments p.

(** *** Parsing a command line *)

(** A command line after tokenising: the flags given, each with its
    parsed value, in the order given. *)
Definition Invocation : Type := list (string * value).

Definition given (inv : Invocation) : list string := inv.*1.

Definition conflict_in (inv : Invocation) (g : list string)
    : option (string * string) :=
  match filter (λ d, d ∈ given inv) g with
  | a :: b :: _ => Some (a, b)
  | _ => None
  end.

Definition namespace_of (p : Parser) (inv : Invocation) : Namespace :=
  {| attrs := list_to_map (reverse inv)
              ∪ list_to_map ((λ a, (dest a, default_value a)) <$> arguments p);
     specified := list_to_set (given inv) |}.

(** Modelled from the spec: the argument parsing framework ([calliope])
    is not among the sources.  Following sections 4.1 and 7 of the design,
    two given flags of one mutually exclusive group are refused with
    [ConflictingOptionsError] whatever their values, a flag that the
    active channel did not register is refused with
    [UnsupportedOptionError], and otherwise the namespace holds every
    registered destination, with the given value or the default. *)
Definition parse_args (p : Parser) (inv : Invocation) : result Namespace :=
  match omap (conflict_in inv) (mutex_groups p) with
  | (a, b) :: _ => raise (ConflictingOptionsError a b)
  | [] =>
      match filter (λ d, d ∉ dests p) (given inv) with
      | d :: _ => raise (UnsupportedOptionError d)
      | [] => ok (namespace_of p inv)
      end
  end.

End Calliope.

(** ** Release tracks *)

Inductive ReleaseTrack : Type := GA | BETA | ALPHA.

#[global] Instance ReleaseTrack_eq_dec : EqDecision ReleaseTrack.
Proof. solve_decision. Defined.

(** [six.text_type(self.ReleaseTrack()).lower()] *)
Definition text_type_lower (t : ReleaseTrack) : string :=
  match t with
  | GA => "ga"
  | BETA => "beta"
  | ALPHA => "alpha"
  end.

(** ** [compute firewall-policies rules update] *)

Module FirewallPolicyRulesUpdate.
Import Calliope.

(** The resource reference resolved from the positional argument;
    [Name] is [ref.Name()]. *)
Record Ref : Type := { Name : string }.

(** [client.OrgFirewallPolicy(ref=..., version=...)] and
    [client.OrgFirewallPolicyRule(ref=..., version=...)]: the handles are
    only passed on to helpers. *)
Record OrgFirewallPolicy : Type := {
  policy_ref : Ref;
  policy_version : string
}.

Record OrgFirewallPolicyRule : Type := {
  rule_ref : Ref;
  rule_version : string
}.

(** [api_lib.compute.firewall_policy_rule_utils], not among the sources.
    [ParseLayer4Configs] receives [holder.client.messages], which is
    fixed by the release track. *)
Class RuleUtils : Type := {
  ConvertPriorityToInt : value → result Z;
  ParseLayer4Configs : value → ReleaseTrack → result value
}.

(** [command_lib.compute.firewall_policies.firewall_policies_utils], not
    among the sources. *)
Class FirewallPoliciesUtils : Type := {
  BuildSecurityProfileGroupUrl :
    value → value → OrgFirewallPolicy → value → result value;
  GetFirewallPolicyId : OrgFirewallPolicyRule → value → value → result value
}.

(** *** [Update.Args] *)

(** The helpers of [command_lib.compute.firewall_policies.flags] are not
    among the sources.  Each registers one flag on the parser; the
    destination is the one under which [Run] reads the flag, and the
    positional argument of [FirewallPolicyRuleArgument] is the rule
    priority of the usage example ([$ {command} 10 ...]).  No default
    is known for them; [Run] reads [action], [description],
    [firewall_policy] and [organization] without asking whether they were
    specified, and for these the argparse default [None] is taken. *)
Definition FirewallPolicyRuleArgument_AddArgument (p : Parser) : Parser :=
  add_argument TopLevel "priority" VNone p.

Definition AddAction (support_ips : bool) (p : Parser) : Parser :=
  add_argument TopLevel "--action" VNone p.
Definition AddFirewallPolicyId (p : Parser) : Parser :=
  add_argument TopLevel "--firewall-policy" VNone p.
Definition AddSrcIpRanges (p : Parser) : Parser :=
  add_argument TopLevel "--src-ip-ranges" VNone p.
Definition AddDestIpRanges (p : Parser) : Parser :=
  add_argument TopLevel "--dest-ip-ranges" VNone p.
Definition AddLayer4Configs (p : Parser) : Parser :=
  add_argument TopLevel "--layer4-configs" VNone p.
Definition AddDirection (p : Parser) : Parser :=
  add_argument TopLevel "--direction" VNone p.
Definition AddEnableLogging (p : Parser) : Parser :=
  add_argument TopLevel "--enable-logging" VNone p.
Definition AddDisabled (p : Parser) : Parser :=
  add_argument TopLevel "--disabled" VNone p.
Definition AddTargetResources (p : Parser) : Parser :=
  add_argument TopLevel "--target-resources" VNone p.
Definition AddTargetServiceAccounts (p : Parser) : Parser :=
  add_argument TopLevel "--target-service-accounts" VNone p.
Definition AddSrcFqdns (p : Parser) : Parser :=
  add_argument TopLevel "--src-fqdns" VNone p.
Definition AddDestFqdns (p : Parser) : Parser :=
  add_argument TopLevel "--dest-fqdns" VNone p.
Definition AddSecurityProfileGroup (p : Parser) : Parser :=
  add_argument TopLevel "--security-profile-group" VNone p.
Definition AddSrcThreatIntelligence (p : Parser) : Parser :=
  add_argument TopLevel "--src-threat-intelligence" VNone p.
Definition AddDestThreatIntelligence (p : Parser) : Parser :=
  add_argument TopLevel "--dest-threat-intelligence" VNone p.
Definition AddSrcRegionCodes (p : Parser) : Parser :=
  add_argument TopLevel "--src-region-codes" VNone p.
Definition AddDestRegionCodes (p : Parser) : Parser :=
  add_argument TopLevel "--dest-region-codes" VNone p.
Definition AddDescription (p : Parser) : Parser :=
  add_argument TopLevel "--description" VNone p.
Definition AddNewPriority (p : Parser) : Parser :=
  add_argument TopLevel "--new-priority" VNone p.
Definition AddOrganization (p : Parser) : Parser :=
  add_argument TopLevel "--organization" VNone p.

Definition when (b : bool) (f : Parser → Parser) (p : Parser) : Parser :=
  if b then f p else p.

(** [Update.Args(cls, parser)], statement by statement. *)
Definition Args (track : ReleaseTrack) (parser : Parser) : Parser :=
  let parser := FirewallPolicyRuleArgument_AddArgument parser in
  let is_alpha := bool_decide (track = ALPHA) in
  let parser := AddAction is_alpha parser in
  let parser := AddFirewallPolicyId parser in
  let parser := AddSrcIpRanges parser in
  let parser := AddDestIpRanges parser in
  let parser := AddLayer4Configs parser in
  let parser := AddDirection parser in
  let parser := AddEnableLogging parser in
  let parser := AddDisabled parser in
  let parser := AddTargetResources parser in
  let parser := AddTargetServiceAccounts parser in
  let parser :=
    when is_alpha
      (λ parser,
         let parser := AddSrcFqdns parser in
         let parser := AddDestFqdns parser in
         AddSecurityProfileGroup parser) parser in
  let parser :=
    when (bool_decide (track ∈ [ALPHA; BETA]))
      (λ parser,
         let parser := AddSrcThreatIntelligence parser in
         let parser := AddDestThreatIntelligence parser in
         let parser := AddSrcRegionCodes parser in
         AddDestRegionCodes parser) parser in
  let parser := AddDescription parser in
  let parser := AddNewPriority parser in
  AddOrganization parser.

(** *** [Update.Run] *)

(** [self.FIREWALL_POLICY_ARG.ResolveAsResource(args, holder.resources,
    with_project=False)]: the reference named by the positional
    argument. *)
Definition ResolveAsResource (args : Namespace) : result Ref :=
  let* v := attr args "priority" in
  match v with
  | VStr s => ok {| Name := s |}
  | _ => raise (InvalidArgumentException "priority" "not a rule name")
  end.

(** The local variables of [Run] that the [IsSpecified] blocks assign. *)
Record Locals : Type := {
  src_ip_ranges : value;
  dest_ip_ranges : value;
  layer4_config_list : value;
  target_resources : value;
  target_service_accounts : value;
  src_fqdns : value;
  dest_fqdns : value;
  src_region_codes : value;
  dest_region_codes : value;
  src_threat_intelligence : value;
  dest_threat_intelligence : value;
  enable_logging : value;
  disabled : value;
  should_setup_match : bool;
  traffic_direct : value;
  matcher : value;
  security_profile_group : value
}.

(** Lines 82 to 98: the initial values. *)
Definition init_locals : Locals :=
  {| src_ip_ranges := VList [];
     dest_ip_ranges := VList [];
     layer4_config_list := VSeq [];
     target_resources := VList [];
     target_service_accounts := VList [];
     src_fqdns := VList [];
     dest_fqdns := VList [];
     src_region_codes := VList [];
     dest_region_codes := VList [];
     src_threat_intelligence := VList [];
     dest_threat_intelligence := VList [];
     enable_logging := VBool false;
     disabled := VBool false;
     should_setup_match := false;
     traffic_direct := VNone;
     matcher := VNone;
     security_profile_group := VNone |}.

(** Assignment to one local variable. *)
Definition set_src_ip_ranges (x : value) (l : Locals) : Locals :=
  {| src_ip_ranges := x;
     dest_ip_ranges := dest_ip_ranges l;
     layer4_config_list := layer4_config_list l;
     target_resources := target_resources l;
     target_service_accounts := target_service_accounts l;
     src_fqdns := src_fqdns l;
     dest_fqdns := dest_fqdns l;
     src_region_codes := src_region_codes l;
     dest_region_codes := dest_region_codes l;
     src_threat_intelligence := src_threat_intelligence l;
     dest_threat_intelligence := dest_threat_intelligence l;
     enable_logging := enable_logging l;
     disabled := disabled l;
     should_setup_match := should_setup_match l;
     traffic_direct := traffic_direct l;
     matcher := matcher l;
     security_profile_group := security_profile_group l |}.
Definition set_dest_ip_ranges (x : value) (l : Locals) : Locals :=
  {| src_ip_ranges := src_ip_ranges l;
     dest_ip_ranges := x;
     layer4_config_list := layer4_config_list l;
     target_resources := target_resources l;
     target_service_accounts := target_service_accounts l;
     src_fqdns := src_fqdns l;
     dest_fqdns := dest_fqdns l;
     src_region_codes := src_region_codes l;
     dest_region_codes := dest_region_codes l;
     src_threat_intelligence := src_threat_intelligence l;
     dest_threat_intelligence := dest_threat_intelligence l;
     enable_logging := enable_logging l;
     disabled := disabled l;
     should_setup_match := should_setup_match l;
     traffic_direct := traffic_direct l;
     matcher := matcher l;
     security_profile_group := security_profile_group l |}.
Definition set_layer4_config_list (x : value) (l : Locals) : Locals :=
  {| src_ip_ranges := src_ip_ranges l;
     dest_ip_ranges := dest_ip_ranges l;
     layer4_config_list := x;
     target_resources := target_resources l;
     target_service_accounts := target_service_accounts l;
     src_fqdns := src_fqdns l;
     dest_fqdns := dest_fqdns l;
     src_region_codes := src_region_codes l;
     dest_region_codes := dest_region_codes l;
     src_threat_intelligence := src_threat_intelligence l;
     dest_threat_intelligence := dest_threat_intelligence l;
     enable_logging := enable_logging l;
     disabled := disabled l;
     should_setup_match := should_setup_match l;
     traffic_direct := traffic_direct l;
     matcher := matcher l;
     security_profile_group := security_profile_group l |}.
Definition set_target_resources (x : value) (l : Locals) : Locals :=
  {| src_ip_ranges := src_ip_ranges l;
     dest_ip_ranges := dest_ip_ranges l;
     layer4_config_list := layer4_config_list l;
     target_resources := x;
     target_service_accounts := target_service_accounts l;
     src_fqdns := src_fqdns l;
     dest_fqdns := dest_fqdns l;
     src_region_codes := src_region_codes l;
     dest_region_codes := dest_region_codes l;
     src_threat_intelligence := src_threat_intelligence l;
     dest_threat_intelligence := dest_threat_intelligence l;
     enable_logging := enable_logging l;
     disabled := disabled l;
     should_setup_match := should_setup_match l;
     traffic_direct := traffic_direct l;
     matcher := matcher l;
     security_profile_group := security_profile_group l |}.
Definition set_target_service_accounts (x : value) (l : Locals) : Locals :=
  {| src_ip_ranges := src_ip_ranges l;
     dest_ip_ranges := dest_ip_ranges l;
     layer4_config_list := layer4_config_list l;
     target_resources := target_resources l;
     target_service_accounts := x;
     src_fqdns := src_fqdns l;
     dest_fqdns := dest_fqdns l;
     src_region_codes := src_region_codes l;
     dest_region_codes := dest_region_codes l;
     src_threat_intelligence := src_threat_intelligence l;
     dest_threat_intelligence := dest_threat_intelligence l;
     enable_logging := enable_logging l;
     disabled := disabled l;
     should_setup_match := should_setup_match l;
     traffic_direct := traffic_direct l;
     matcher := matcher l;
     security_profile_group := security_profile_group l |}.
Definition set_src_fqdns (x : value) (l : Locals) : Locals :=
  {| src_ip_ranges := src_ip_ranges l;
     dest_ip_ranges := dest_ip_ranges l;
     layer4_config_list := layer4_config_list l;
     target_resources := target_resources l;
     target_service_accounts := target_service_accounts l;
     src_fqdns := x;
     dest_fqdns := dest_fqdns l;
     src_region_codes := src_region_codes l;
     dest_region_codes := dest_region_codes l;
     src_threat_intelligence := src_threat_intelligence l;
     dest_threat_intelligence := dest_threat_intelligence l;
     enable_logging := enable_logging l;
     disabled := disabled l;
     should_setup_match := should_setup_match l;
     traffic_direct := traffic_direct l;
     matcher := matcher l;
     security_profile_group := security_profile_group l |}.
Definition set_dest_fqdns (x : value) (l : Locals) : Locals :=
  {| src_ip_ranges := src_ip_ranges l;
     dest_ip_ranges := dest_ip_ranges l;
     layer4_config_list := layer4_config_list l;
     target_resources := target_resources l;
     target_service_accounts := target_service_accounts l;
     src_fqdns := src_fqdns l;
     dest_fqdns := x;
     src_region_codes := src_region_codes l;
     dest_region_codes := dest_region_codes l;
     src_threat_intelligence := src_threat_intelligence l;
     dest_threat_intelligence := dest_threat_intelligence l;
     enable_logging := enable_logging l;
     disabled := disabled l;
     should_setup_match := should_setup_match l;
     traffic_direct := traffic_direct l;
     matcher := matcher l;
     security_profile_group := security_profile_group l |}.
Definition set_src_region_codes (x : value) (l : Locals) : Locals :=
  {| src_ip_ranges := src_ip_ranges l;
     dest_ip_ranges := dest_ip_ranges l;
     layer4_config_list := layer4_config_list l;
     target_resources := target_resources l;
     target_service_accounts := target_service_accounts l;
     src_fqdns := src_fqdns l;
     dest_fqdns := dest_fqdns l;
     src_region_codes := x;
     dest_region_codes := dest_region_codes l;
     src_threat_intelligence := src_threat_intelligence l;
     dest_threat_intelligence := dest_threat_intelligence l;
     enable_logging := enable_logging l;
     disabled := disabled l;
     should_setup_match := should_setup_match l;
     traffic_direct := traffic_direct l;
     matcher := matcher l;
     security_profile_group := security_profile_group l |}.
Definition set_dest_region_codes (x : value) (l : Locals) : Locals :=
  {| src_ip_ranges := src_ip_ranges l;
     dest_ip_ranges := dest_ip_ranges l;
     layer4_config_list := layer4_config_list l;
     target_resources := target_resources l;
     target_service_accounts := target_service_accounts l;
     src_fqdns := src_fqdns l;
     dest_fqdns := dest_fqdns l;
     src_region_codes := src_region_codes l;
     dest_region_codes := x;
     src_threat_intelligence := src_threat_intelligence l;
     dest_threat_intelligence := dest_threat_intelligence l;
     enable_logging := enable_logging l;
     disabled := disabled l;
     should_setup_match := should_setup_match l;
     traffic_direct := traffic_direct l;
     matcher := matcher l;
     security_profile_group := security_profile_group l |}.
Definition set_src_threat_intelligence (x : value) (l : Locals) : Locals :=
  {| src_ip_ranges := src_ip_ranges l;
     dest_ip_ranges := dest_ip_ranges l;
     layer4_config_list := layer4_config_list l;
     target_resources := target_resources l;
     target_service_accounts := target_service_accounts l;
     src_fqdns := src_fqdns l;
     dest_fqdns := dest_fqdns l;
     src_region_codes := src_region_codes l;
     dest_region_codes := dest_region_codes l;
     src_threat_intelligence := x;
     dest_threat_intelligence := dest_threat_intelligence l;
     enable_logging := enable_logging l;
     disabled := disabled l;
     should_setup_match := should_setup_match l;
     traffic_direct := traffic_direct l;
     matcher := matcher l;
     security_profile_group := security_profile_group l |}.
Definition set_dest_threat_intelligence (x : value) (l : Locals) : Locals :=
  {| src_ip_ranges := src_ip_ranges l;
     dest_ip_ranges := dest_ip_ranges l;
     layer4_config_list := layer4_config_list l;
     target_resources := target_resources l;
     target_service_accounts := target_service_accounts l;
     src_fqdns := src_fqdns l;
     dest_fqdns := dest_fqdns l;
     src_region_codes := src_region_codes l;
     dest_region_codes := dest_region_codes l;
     src_threat_intelligence := src_threat_intelligence l;
     dest_threat_intelligence := x;
     enable_logging := enable_logging l;
     disabled := disabled l;
     should_setup_match := should_setup_match l;
     traffic_direct := traffic_direct l;
     matcher := matcher l;
     security_profile_group := security_profile_group l |}.
Definition set_enable_logging (x : value) (l : Locals) : Locals :=
  {| src_ip_ranges := src_ip_ranges l;
     dest_ip_ranges := dest_ip_ranges l;
     layer4_config_list := layer4_config_list l;
     target_resources := target_resources l;
     target_service_accounts := target_service_accounts l;
     src_fqdns := src_fqdns l;
     dest_fqdns := dest_fqdns l;
     src_region_codes := src_region_codes l;
     dest_region_codes := dest_region_codes l;
     src_threat_intelligence := src_threat_intelligence l;
     dest_threat_intelligence := dest_threat_intelligence l;
     enable_logging := x;
     disabled := disabled l;
     should_setup_match := should_setup_match l;
     traffic_direct := traffic_direct l;
     matcher := matcher l;
     security_profile_group := security_profile_group l |}.
Definition set_disabled (x : value) (l : Locals) : Locals :=
  {| src_ip_ranges := src_ip_ranges l;
     dest_ip_ranges := dest_ip_ranges l;
     layer4_config_list := layer4_config_list l;
     target_resources := target_resources l;
     target_service_accounts := target_service_accounts l;
     src_fqdns := src_fqdns l;
     dest_fqdns := dest_fqdns l;
     src_region_codes := src_region_codes l;
     dest_region_codes := dest_region_codes l;
     src_threat_intelligence := src_threat_intelligence l;
     dest_threat_intelligence := dest_threat_intelligence l;
     enable_logging := enable_logging l;
     disabled := x;
     should_setup_match := should_setup_match l;
     traffic_direct := traffic_direct l;
     matcher := matcher l;
     security_profile_group := security_profile_group l |}.
Definition set_should_setup_match (x : bool) (l : Locals) : Locals :=
  {| src_ip_ranges := src_ip_ranges l;
     dest_ip_ranges := dest_ip_ranges l;
     layer4_config_list := layer4_config_list l;
     target_resources := target_resources l;
     target_service_accounts := target_service_accounts l;
     src_fqdns := src_fqdns l;
     dest_fqdns := dest_fqdns l;
     src_region_codes := src_region_codes l;
     dest_region_codes := dest_region_codes l;
     src_threat_intelligence := src_threat_intelligence l;
     dest_threat_intelligence := dest_threat_intelligence l;
     enable_logging := enable_logging l;
     disabled := disabled l;
     should_setup_match := x;
     traffic_direct := traffic_direct l;
     matcher := matcher l;
     security_profile_group := security_profile_group l |}.
Definition set_traffic_direct (x : value) (l : Locals) : Locals :=
  {| src_ip_ranges := src_ip_ranges l;
     dest_ip_ranges := dest_ip_ranges l;
     layer4_config_list := layer4_config_list l;
     target_resources := target_resources l;
     target_service_accounts := target_service_accounts l;
     src_fqdns := src_fqdns l;
     dest_fqdns := dest_fqdns l;
     src_region_codes := src_region_codes l;
     dest_region_codes := dest_region_codes l;
     src_threat_intelligence := src_threat_intelligence l;
     dest_threat_intelligence := dest_threat_intelligence l;
     enable_logging := enable_logging l;
     disabled := disabled l;
     should_setup_match := should_setup_match l;
     traffic_direct := x;
     matcher := matcher l;
     security_profile_group := security_profile_group l |}.
Definition set_matcher (x : value) (l : Locals) : Locals :=
  {| src_ip_ranges := src_ip_ranges l;
     dest_ip_ranges := dest_ip_ranges l;
     layer4_config_list := layer4_config_list l;
     target_resources := target_resources l;
     target_service_accounts := target_service_accounts l;
     src_fqdns := src_fqdns l;
     dest_fqdns := dest_fqdns l;
     src_region_codes := src_region_codes l;
     dest_region_codes := dest_region_codes l;
     src_threat_intelligence := src_threat_intelligence l;
     dest_threat_intelligence := dest_threat_intelligence l;
     enable_logging := enable_logging l;
     disabled := disabled l;
     should_setup_match := should_setup_match l;
     traffic_direct := traffic_direct l;
     matcher := x;
     security_profile_group := security_profile_group l |}.
Definition set_security_profile_group (x : value) (l : Locals) : Locals :=
  {| src_ip_ranges := src_ip_ranges l;
     dest_ip_ranges := dest_ip_ranges l;
     layer4_config_list := layer4_config_list l;
     target_resources := target_resources l;
     target_service_accounts := target_service_accounts l;
     src_fqdns := src_fqdns l;
     dest_fqdns := dest_fqdns l;
     src_region_codes := src_region_codes l;
     dest_region_codes := dest_region_codes l;
     src_threat_intelligence := src_threat_intelligence l;
     dest_threat_intelligence := dest_threat_intelligence l;
     enable_logging := enable_logging l;
     disabled := disabled l;
     should_setup_match := should_setup_match l;
     traffic_direct := traffic_direct l;
     matcher := matcher l;
     security_profile_group := x |}.

(** [if args.IsSpecified(name): body] *)
Definition if_specified (args : Namespace) (name : string)
    (body : Locals → result Locals) (l : Locals) : result Locals :=
  let* b := IsSpecified args name in
  if b then body l else ok l.

(** The outbound call that ends [Run]:
    [firewall_policy_rule_client.Update(priority=..., firewall_policy=...,
    firewall_policy_rule=...)]. *)
Record UpdateCall : Type := {
  upd_priority : Z;
  upd_firewall_policy : value;
  upd_firewall_policy_rule : value
}.

Section Run.
Context {RU : RuleUtils} {FPU : FirewallPoliciesUtils}.

(** Lines 149 to 174: the matcher of the active track. *)
Definition build_matcher (track : ReleaseTrack) (l : Locals) : value :=
  if bool_decide (track = ALPHA) then
    VMsg "FirewallPolicyRuleMatcher"
      [("srcIpRanges", src_ip_ranges l);
       ("destIpRanges", dest_ip_ranges l);
       ("layer4Configs", layer4_config_list l);
       ("srcFqdns", src_fqdns l);
       ("destFqdns", dest_fqdns l);
       ("srcRegionCodes", src_region_codes l);
       ("destRegionCodes", dest_region_codes l);
       ("srcThreatIntelligences", src_threat_intelligence l);
       ("destThreatIntelligences", dest_threat_intelligence l)]
  else if bool_decide (track = BETA) then
    VMsg "FirewallPolicyRuleMatcher"
      [("srcIpRanges", src_ip_ranges l);
       ("destIpRanges", dest_ip_ranges l);
       ("layer4Configs", layer4_config_list l);
       ("srcRegionCodes", src_region_codes l);
       ("destRegionCodes", dest_region_codes l);
       ("srcThreatIntelligences", src_threat_intelligence l);
       ("destThreatIntelligences", dest_threat_intelligence l)]
  else
    VMsg "FirewallPolicyRuleMatcher"
      [("srcIpRanges", src_ip_ranges l);
       ("destIpRanges", dest_ip_ranges l);
       ("layer4Configs", layer4_config_list l)].

(** Lines 181 to 203: the rule of the active track. *)
Definition build_rule (track : ReleaseTrack) (new_priority : Z)
    (action description : value) (l : Locals) : value :=
  if bool_decide (track = ALPHA) then
    VMsg "FirewallPolicyRule"
      [("priority", VInt new_priority);
       ("action", action);
       ("match", matcher l);
       ("direction", traffic_direct l);
       ("targetResources", target_resources l);
       ("targetServiceAccounts", target_service_accounts l);
       ("description", description);
       ("enableLogging", enable_logging l);
       ("disabled", disabled l);
       ("securityProfileGroup", security_profile_group l)]
  else
    VMsg "FirewallPolicyRule"
      [("priority", VInt new_priority);
       ("action", action);
       ("match", matcher l);
       ("direction", traffic_direct l);
       ("targetResources", target_resources l);
       ("targetServiceAccounts", target_service_accounts l);
       ("description", description);
       ("enableLogging", enable_logging l);
       ("disabled", disabled l)].

(** Lines 99 to 142: the [IsSpecified] blocks, in source order. *)
Definition read_flags (track : ReleaseTrack) (args : Namespace)
    (org_firewall_policy : OrgFirewallPolicy) (l : Locals) : result Locals :=
  let* l := if_specified args "src_ip_ranges" (λ l,
      let* v := attr args "src_ip_ranges" in
      ok (set_should_setup_match true (set_src_ip_ranges v l))) l in
  let* l := if_specified args "dest_ip_ranges" (λ l,
      let* v := attr args "dest_ip_ranges" in
      ok (set_should_setup_match true (set_dest_ip_ranges v l))) l in
  let* l := if_specified args "layer4_configs" (λ l,
      let l := set_should_setup_match true l in
      let* v := attr args "layer4_configs" in
      let* c := ParseLayer4Configs v track in
      ok (set_layer4_config_list c l)) l in
  let* l := if_specified args "target_resources" (λ l,
      let* v := attr args "target_resources" in
      ok (set_target_resources v l)) l in
  let* l := if_specified args "target_service_accounts" (λ l,
      let* v := attr args "target_service_accounts" in
      ok (set_target_service_accounts v l)) l in
  let* l :=
    if bool_decide (track = ALPHA) then
      let* l := if_specified args "src_fqdns" (λ l,
          let* v := attr args "src_fqdns" in
          ok (set_should_setup_match true (set_src_fqdns v l))) l in
      let* l := if_specified args "dest_fqdns" (λ l,
          let* v := attr args "dest_fqdns" in
          ok (set_should_setup_match true (set_dest_fqdns v l))) l in
      if_specified args "security_profile_group" (λ l,
          let* spg := attr args "security_profile_group" in
          let* org := attr args "organization" in
          let* fp := attr args "firewall_policy" in
          let* url :=
            BuildSecurityProfileGroupUrl spg org org_firewall_policy fp in
          ok (set_security_profile_group url l)) l
    else ok l in
  let* l :=
    if bool_decide (track ∈ [ALPHA; BETA]) then
      let* l := if_specified args "src_threat_intelligence" (λ l,
          let* v := attr args "src_threat_intelligence" in
          ok (set_should_setup_match true (set_src_threat_intelligence v l))) l in
      let* l := if_specified args "dest_threat_intelligence" (λ l,
          let* v := attr args "dest_threat_intelligence" in
          ok (set_should_setup_match true (set_dest_threat_intelligence v l))) l in
      let* l := if_specified args "src_region_codes" (λ l,
          let* v := attr args "src_region_codes" in
          ok (set_should_setup_match true (set_src_region_codes v l))) l in
      if_specified args "dest_region_codes" (λ l,
          let* v := attr args "dest_region_codes" in
          ok (set_should_setup_match true (set_dest_region_codes v l))) l
    else ok l in
  let* l := if_specified args "enable_logging" (λ l,
      let* v := attr args "enable_logging" in
      ok (set_enable_logging v l)) l in
  if_specified args "disabled" (λ l,
      let* v := attr args "disabled" in
      ok (set_disabled v l)) l.

(** [Update.Run(self, args)] on the given release track. *)
Definition Run (track : ReleaseTrack) (args : Namespace) : result UpdateCall :=
  let* ref := ResolveAsResource args in
  let org_firewall_policy :=
    {| policy_ref := ref; policy_version := text_type_lower track |} in
  let firewall_policy_rule_client :=
    {| rule_ref := ref; rule_version := text_type_lower track |} in
  let* priority := ConvertPriorityToInt (VStr (Name ref)) in
  let* l := read_flags track args org_firewall_policy init_locals in
  let* specified_new_priority := IsSpecified args "new_priority" in
  let* new_priority :=
    if specified_new_priority then
      let* v := attr args "new_priority" in
      ConvertPriorityToInt v
    else ok priority in
  let l :=
    if should_setup_match l then set_matcher (build_matcher track l) l
    else l in
  let* l := if_specified args "direction" (λ l,
      let* d := attr args "direction" in
      ok (set_traffic_direct
            (if eq_str d "INGRESS" then VEnum "INGRESS" else VEnum "EGRESS")
            l)) l in
  let* action := attr args "action" in
  let* description := attr args "description" in
  let firewall_policy_rule :=
    build_rule track new_priority action description l in
  let* fp := attr args "firewall_policy" in
  let* org := attr args "organization" in
  let* firewall_policy_id :=
    GetFirewallPolicyId firewall_policy_rule_client fp org in
  ok {| upd_priority := priority;
        upd_firewall_policy := firewall_policy_id;
        upd_firewall_policy_rule := firewall_policy_rule |}.

(** The command as a whole: the flags of the track are registered, the
    command line is parsed, and [Run] is given the namespace. *)
Definition Execute (track : ReleaseTrack) (inv : Invocation)
    : result UpdateCall :=
  let* args := parse_args (Args track empty_parser) inv in
  Run track args.

End Run.

End FirewallPolicyRulesUpdate.

(** ** Attribute access and iteration on values *)

(** [m.k] on an API message: an unset field reads as [None]; anything
    that is not a message has no such attribute. *)
Definition getfield (m : value) (k : string) : result value :=
  match m with
  | VMsg _ kw => ok (default VNone (assoc k kw))
  | _ => raise (AttributeError k)
  end.

(** [for x in v]: the elements a [for] loop visits, or the [TypeError]
    Python raises on a value that is not iterable. *)
Definition iterate (v : value) : result (list value) :=
  match v with
  | VList l => ok (VStr <$> l)
  | VSeq l => ok l
  | VDict d => ok (VStr <$> d.*1)
  | VStr s => ok ((λ c, VStr (String c EmptyString)) <$> list_ascii_of_string s)
  | VNone => raise (TypeError "'NoneType' object is not iterable")
  | VBool _ => raise (TypeError "'bool' object is not iterable")
  | VInt _ => raise (TypeError "'int' object is not iterable")
  | VEnum _ => raise (TypeError "enum value is not iterable")
  | VMsg _ _ => raise (TypeError "message is not iterable")
  end.

(** [l[0]] on a Python list. *)
Definition first {A : Type} (l : list A) : result A :=
  match l with
  | x :: _ => ok x
  | [] => raise (IndexError "list index out of range")
  end.

(** ** [policy-intelligence simulate orgpolicy] *)

Module OrgPolicySimulate.
Import Calliope.

(** [_ArgsAlpha(parser)]: both flags take an [ArgList] and have no
    default, so an omitted flag leaves [None] in the namespace. *)
Definition _ArgsAlpha (parser : Parser) : Parser :=
  let parser := add_argument TopLevel "--policies" VNone parser in
  add_argument TopLevel "--custom-constraints" VNone parser.

(** [command_lib.policy_intelligence.simulator.orgpolicy.utils] and
    [api_lib.orgpolicy.utils], not among the sources. *)
Class SimulatorUtils : Type := {
  GetPolicyMessageFromFile : value → ReleaseTrack → result value;
  GetCustomConstraintMessageFromFile : value → ReleaseTrack → result value;
  GetResourceFromPolicyName : value → result value;
  GetParentFromOrganization : value → result value
}.

(** [api_lib.policy_intelligence.orgpolicy_simulator.OrgPolicySimulatorApi]
    and the list pager, not among the sources.  The three methods that
    reach the service can fail. *)
Class OrgPolicySimulatorApi : Type := {
  GetOrgPolicyOverlay : list value → list value → value;
  GetPolicysimulatorOrgPolicyViolationsPreview : value → value;
  GenerateOrgPolicyViolationsPreviewRequest : value → value → value;
  OrgPolicyViolationsPreviews : value → result value;
  WaitForOperation : value → string → result value;
  ListRequest : value → value;
  YieldFromList : value → Z → string → string → result value
}.

Section Run.
Context {SU : SimulatorUtils} {API : OrgPolicySimulatorApi}.

(** Lines 100 to 107: the body of [for policy in args.policies]. *)
Fixpoint load_policies (track : ReleaseTrack) (paths : list value)
    (policies : list value) : result (list value) :=
  match paths with
  | [] => ok policies
  | policy :: paths' =>
      let* policy_message := GetPolicyMessageFromFile policy track in
      let* p := getfield policy_message "policy" in
      let* name := getfield p "name" in
      if negb (truthy name) then
        raise (InvalidArgumentException "Policy name"
                 "'name' field not present in the organization policy.")
      else load_policies track paths' (policies ++ [policy_message])
  end.

(** Lines 109 to 117: the body of
    [for custom_constraint in args.custom_constraints]. *)
Fixpoint load_custom_constraints (track : ReleaseTrack) (paths : list value)
    (custom_constraints : list value) : result (list value) :=
  match paths with
  | [] => ok custom_constraints
  | custom_constraint :: paths' =>
      let* constraint_message :=
        GetCustomConstraintMessageFromFile custom_constraint track in
      let* c := getfield constraint_message "customConstraint" in
      let* name := getfield c "name" in
      if negb (truthy name) then
        raise (InvalidArgumentException "Custom constraint name"
                 "'name' field not present in the custom constraint.")
      else
        load_custom_constraints track paths'
          (custom_constraints ++ [constraint_message])
  end.

(** Lines 92 to 125 of [SimulateAlpha.Run]: everything up to the parent
    of the request, before the service is contacted.  The result is
    [(overlay, parent)]. *)
Definition process_arguments (args : Namespace) : result (value * value) :=
  let track := ALPHA in
  let* args_policies := attr args "policies" in
  let* neither :=
    if negb (truthy args_policies) then
      let* args_custom_constraints := attr args "custom_constraints" in
      ok (negb (truthy args_custom_constraints))
    else ok false in
  if neither then
    raise (ConflictingArgumentsException
             "Must specify either --policies or --custom-constraints or both.")
  else
    let* paths := iterate args_policies in
    let* policies := load_policies track paths [] in
    let* args_custom_constraints := attr args "custom_constraints" in
    let* paths := iterate args_custom_constraints in
    let* custom_constraints := load_custom_constraints track paths [] in
    let overlay := GetOrgPolicyOverlay policies custom_constraints in
    let* policy0 := first policies in
    let* p := getfield policy0 "policy" in
    let* name := getfield p "name" in
    let* organization_resource := GetResourceFromPolicyName name in
    let* parent := GetParentFromOrganization organization_resource in
    ok (overlay, parent).

(** [SimulateAlpha.Run(self, args)] *)
Definition Run (args : Namespace) : result value :=
  let* '(overlay, parent) := process_arguments args in
  let violations := GetPolicysimulatorOrgPolicyViolationsPreview overlay in
  let request := GenerateOrgPolicyViolationsPreviewRequest violations parent in
  let* violations_preview_operation := OrgPolicyViolationsPreviews request in
  let* name := getfield violations_preview_operation "name" in
  let* _ := WaitForOperation violations_preview_operation
              ("Waiting for operation ["
               ++ match name with VStr s => s | _ => "None" end
               ++ "] to complete") in
  let list_violations_preview_request := ListRequest parent in
  YieldFromList list_violations_preview_request 1000
    "orgPolicyViolationsPreviews" "pageSize".

(** The command as a whole. *)
Definition Execute (inv : Invocation) : result value :=
  let* args := parse_args (_ArgsAlpha empty_parser) inv in
  Run args.

End Run.

End OrgPolicySimulate.

(** ** [container clusters create] *)

Module ClustersCreate.
Import Calliope.

(** *** Option objects *)

(** An [api_adapter.CreateClusterOptions] object: its attributes by
    name.  The class is not among the sources; its constructor stores
    each keyword argument as an attribute, and an attribute that was
    never given reads as [None]. *)
Definition CreateClusterOptions (kw : list (string * value))
    : gmap string value :=
  list_to_map (reverse kw).

(** [options.name] *)
Definition opt (options : gmap string value) (name : string) : value :=
  default VNone (options !! name).

(** [ops.name = v] for each pair, in order. *)
Definition assign (kw : list (string * value)) (ops : gmap string value)
    : gmap string value :=
  foldl (λ ops kv, <[kv.1 := kv.2]> ops) ops kw.

(** [s.lower()] on ASCII. *)
Definition lower_ascii (c : ascii) : ascii :=
  let n := nat_of_ascii c in
  if (65 <=? n)%nat && (n <=? 90)%nat then ascii_of_nat (n + 32) else c.

Fixpoint lower (s : string) : string :=
  match s with
  | EmptyString => EmptyString
  | String c s' => String (lower_ascii c) (lower s')
  end.

(** *** The world the command runs in *)

Record ClusterRef : Type := {
  projectId : string;
  clusterId : string;
  zone : string
}.

(** The calls made on the API adapter. *)
Inductive AdapterCall : Type :=
| CallCreateCluster (cluster_ref : ClusterRef) (options : gmap string value)
| CallWaitForOperation (operation_ref : value) (message : string)
    (timeout_s : value)
| CallGetCluster (cluster_ref : ClusterRef).

(** Everything [Run] can read or change: the namespace object it shares
    with the option parser and its helpers, the three logs, the record
    of adapter calls made so far, and the state of the remote service
    behind the adapter. *)
Record World (S : Type) : Type := {
  args : Namespace;
  status : list string;
  warnings : list string;
  created : list ClusterRef;
  calls : list AdapterCall;
  provider : S
}.
Arguments args {S} _.
Arguments status {S} _.
Arguments warnings {S} _.
Arguments created {S} _.
Arguments calls {S} _.
Arguments provider {S} _.

(** Computations that may raise and may change the world. *)
Definition M (S A : Type) : Type := World S → result A * World S.

Definition ret {S A : Type} (a : A) : M S A := λ w, (ok a, w).

Definition throw {S A : Type} (e : exn) : M S A := λ w, (raise e, w).

Definition bind {S A B : Type} (m : M S A) (f : A → M S B) : M S B :=
  λ w, match m w with
       | (inl e, w') => (inl e, w')
       | (inr a, w') => f a w'
       end.

Notation "'do' x '<-' m ';' k" := (bind m (fun x => k))
  (at level 10, x name, m at level 100, k at level 200, only parsing).
Notation "'do' ' pat '<-' m ';' k" :=
  (bind m (fun x => match x with pat => k end))
  (at level 10, pat pattern, m at level 100, k at level 200, only parsing).
Notation "m ';;' k" := (bind m (fun _ => k))
  (at level 100, k at level 200, right associativity, only parsing).

(** A computation that cannot touch the world. *)
Definition lift {S A : Type} (r : result A) : M S A := λ w, (r, w).

Definition when {S : Type} (b : bool) (m : M S unit) : M S unit :=
  if b then m else ret tt.

Section Effects.
Context {S : Type}.

Definition get_args : M S Namespace := λ w, (ok (args w), w).

Definition put_args (a : Namespace) : M S unit :=
  λ w, (ok tt,
        {| args := a; status := status w; warnings := warnings w;
           created := created w; calls := calls w; provider := provider w |}).

(** [log.status.Print(msg)] *)
Definition status_Print (msg : string) : M S unit :=
  λ w, (ok tt,
        {| args := args w; status := status w ++ [msg];
           warnings := warnings w; created := created w; calls := calls w;
           provider := provider w |}).

(** [log.warning(msg)] *)
Definition log_warning (msg : string) : M S unit :=
  λ w, (ok tt,
        {| args := args w; status := status w;
           warnings := warnings w ++ [msg]; created := created w;
           calls := calls w; provider := provider w |}).

Definition log_warnings (msgs : list string) : M S unit :=
  λ w, (ok tt,
        {| args := args w; status := status w;
           warnings := warnings w ++ msgs; created := created w;
           calls := calls w; provider := provider w |}).

(** [log.CreatedResource(cluster_ref)] *)
Definition log_CreatedResource (cluster_ref : ClusterRef) : M S unit :=
  λ w, (ok tt,
        {| args := args w; status := status w; warnings := warnings w;
           created := created w ++ [cluster_ref]; calls := calls w;
           provider := provider w |}).

(** One call on the adapter: it is recorded, and the remote service
    answers and moves on. *)
Definition adapter_call {A : Type} (c : AdapterCall)
    (f : S → result A * S) : M S A :=
  λ w, let '(r, s) := f (provider w) in
       (r,
        {| args := args w; status := status w; warnings := warnings w;
           created := created w; calls := calls w ++ [c]; provider := s |}).

(** [try: body except apitools_exceptions.HttpError as error:
    raise exceptions.HttpException(error, fmt)] *)
Definition reraise_HttpError {A : Type} (fmt : string) (body : M S A)
    : M S A :=
  λ w, match body w with
       | (inl (HttpError payload), w') => (inl (HttpException payload fmt), w')
       | r => r
       end.

End Effects.

(** *** Collaborators that are not among the sources *)

(** What a helper that is handed [args] can do besides returning: raise,
    or emit messages for the user. *)
Definition Helper (A : Type) : Type := result (A * list string).

(** [command_lib.container.flags].  [MungeBasicAuthFlags] is called for
    its effect on [args] and returns the namespace it leaves behind;
    [registers fn kw] lists the arguments that [flags.fn(parser, **kw)]
    adds to the parser or group it is given. *)
Class ContainerFlags : Type := {
  MungeBasicAuthFlags : Namespace → Helper Namespace;
  WarnForUnspecifiedIpAllocationPolicy : Namespace → Helper unit;
  WarnForNodeModification : Namespace → value → Helper unit;
  GetLegacyCloudRunFlag :
    string → Namespace → (string → value) → Helper value;
  ValidateCloudRunConfigCreateArgs : value → value → Helper unit;
  ValidateNotificationConfigFlag : Namespace → Helper unit;
  WarnForLocationPolicyDefault : Namespace → Helper unit;
  WarnForNodeVersionAutoUpgrade : Namespace → Helper unit;
  ValidateSurgeUpgradeSettings : Namespace → Helper unit;
  ValidateIstioConfigCreateArgs : value → value → Helper unit;
  registers : string → list (string * value) → list Argument
}.

(** [command_lib.container.container_command_util],
    [api_lib.compute.metadata_utils] and [api_lib.compute.utils]. *)
Class CommandUtil : Type := {
  GetAutoRepair : Namespace → Helper value;
  GetAutoUpgrade : Namespace → Helper value;
  ConstructMetadataDict : value → value → Helper value;
  BytesToGb : value → Helper value
}.

(** [api_lib.container.util], [command_lib.container.constants],
    [core.console.console_io] and the kubeconfig store. *)
Class ContainerUtil : Type := {
  OPERATIONS_FORMAT : value;
  HTTP_ERROR_FORMAT : string;
  KUBERNETES_ALPHA_PROMPT : string;
  KUBERNETES_GPU_LIMITATION_MSG : string;
  CheckKubectlInstalled : Helper unit;
  CalculateMaxNodeNumberByPodRange : value → Z;
  PromptContinue : string → Helper unit;
  CheckForContainerFileSystemApiEnablementWithPrompt : string → Helper unit;
  GenerateClusterUrl : ClusterRef → string;
  Persist : value → string → Helper unit
}.

(** [self.context]: the API adapter and the location getter.  The three
    adapter methods that reach the service take its state and return the
    new one. *)
Class ApiAdapter (S : Type) : Type := {
  location_get : Namespace → result string;
  ParseCluster : value → string → result ClusterRef;
  CreateCluster :
    ClusterRef → gmap string value → S → result value * S;
  WaitForOperation : value → string → value → S → result value * S;
  GetCluster : ClusterRef → S → result value * S
}.

(** A helper runs inside the command: its messages reach the log. *)
Definition run_helper {S A : Type} (h : Helper A) : M S A :=
  match h with
  | inl e => throw e
  | inr (a, msgs) => do _ <- log_warnings msgs; ret a
  end.

(** *** The functions of [create.py] *)

(** [args.IsSpecified(name)] where [hasattr(args, name)] has been
    checked first, so that it cannot throw. *)
Definition is_specified (args : Namespace) (name : string) : bool :=
  match IsSpecified args name with
  | inr b => b
  | inl _ => false
  end.

Definition _GetEnableStackdriver (args : Namespace) : value :=
  if negb (hasattr args "enable_stackdriver_kubernetes") then VNone
  else if negb (is_specified args "enable_stackdriver_kubernetes") then VNone
  else getattr args "enable_stackdriver_kubernetes" VNone.

Definition _IsSpecified (args : Namespace) (name : string) : bool :=
  hasattr args name && is_specified args name.

Definition newline : string := String (ascii_of_nat 10) EmptyString.

(** [cloudNatTemplate.substitute(REGION=..., PROJECT_ID=...)] *)
Definition cloudNatTemplate (REGION PROJECT_ID : string) : string :=
  "Note: This cluster has private nodes. If you need connectivity to the "
  ++ "public internet, for example to pull public containers, you must "
  ++ "configure Cloud NAT. To enable NAT for the network of this cluster, run "
  ++ "the following commands: " ++ newline
  ++ "gcloud compute routers create my-router --region " ++ REGION ++ " "
  ++ "--network default --project=" ++ PROJECT_ID ++ " " ++ newline
  ++ "gcloud beta compute routers nats create nat --router=my-router "
  ++ "--region=" ++ REGION ++ " --auto-allocate-nat-external-ips "
  ++ "--nat-all-subnet-ip-ranges --project=" ++ PROJECT_ID.

Section Options.
Context {S : Type} {CF : ContainerFlags} {CU : CommandUtil}.

(** The second disjunct is written [hasattr('subnetwork')] in the
    source, with one argument; evaluating it is a [TypeError]. *)
Definition MaybeLogCloudNatHelpText (args : Namespace) (is_autopilot : bool)
    (location project_id : string) : M S unit :=
  if is_autopilot then
    if truthy (getattr args "enable_private_nodes" (VBool false)) then
      if hasattr args "network" then
        status_Print (cloudNatTemplate location project_id)
      else throw (TypeError "hasattr expected 2 arguments, got 1")
    else ret tt
  else ret tt.

Definition MaybeLogDataplaneV2ScaleWarning (args : Namespace) : M S unit :=
  when (truthy (getattr args "enable_dataplane_v2" (VBool false)))
    (status_Print
       ("Note: GKE Dataplane V2 has been certified to run up to 500 nodes per "
        ++ "cluster, including node autoscaling and surge upgrades. You "
        ++ "may request a cluster size of up to 1000 nodes by filing a "
        ++ "support ticket with GCP. For more information, please see "
        ++ "https://cloud.google.com/kubernetes-engine/docs/concepts/dataplane-v2")).

(** [ParseCreateOptionsBase(args, is_autopilot, get_default, location,
    project_id)].  [args] is the namespace object of the world;
    [get_default] is the caller's closure over that same object, so it
    is given the namespace as it stands when it is called. *)
Definition ParseCreateOptionsBase (is_autopilot : bool)
    (get_default : Namespace → string → value)
    (location project_id : string) : M S (gmap string value) :=
  do args <- get_args;
  do args <- run_helper (MungeBasicAuthFlags args);
  do _ <- put_args args;
  let get_default := get_default args in
  let enable_ip_alias := get_default "enable_ip_alias" in
  do _ <- when (hasattr args "enable_ip_alias")
            (run_helper (WarnForUnspecifiedIpAllocationPolicy args));
  do enable_autorepair <-
    (if hasattr args "enable_autorepair" then
       do enable_autorepair <- run_helper (GetAutoRepair args);
       do _ <- when (truthy enable_autorepair)
                 (run_helper (WarnForNodeModification args enable_autorepair));
       ret enable_autorepair
     else ret VNone);
  do metadata <-
    run_helper (ConstructMetadataDict (get_default "metadata")
                  (get_default "metadata_from_file"));
  do cloud_run_config <-
    run_helper (GetLegacyCloudRunFlag "{}_config" args get_default);
  do _ <- run_helper (ValidateCloudRunConfigCreateArgs cloud_run_config
                        (get_default "addons"));
  do _ <- MaybeLogCloudNatHelpText args is_autopilot location project_id;
  do _ <- run_helper (ValidateNotificationConfigFlag args);
  do _ <- run_helper (WarnForLocationPolicyDefault args);
  do enable_autoupgrade <-
    (if hasattr args "enable_autoupgrade"
     then run_helper (GetAutoUpgrade args) else ret VNone);
  do enable_cloud_run_alpha <-
    run_helper (GetLegacyCloudRunFlag "enable_{}_alpha" args get_default);
  do node_disk_size_gb <-
    (if hasattr args "disk_size"
     then run_helper (BytesToGb (getattr args "disk_size" VNone))
     else ret VNone);
  ret (CreateClusterOptions
      [
       ("accelerators", get_default "accelerator");
       ("additional_zones", get_default "additional_zones");
       ("addons", get_default "addons");
       ("boot_disk_kms_key", get_default "boot_disk_kms_key");
       ("cluster_dns", get_default "cluster_dns");
       ("cluster_dns_scope", get_default "cluster_dns_scope");
       ("cluster_dns_domain", get_default "cluster_dns_domain");
       ("cluster_ipv4_cidr", get_default "cluster_ipv4_cidr");
       ("cluster_secondary_range_name", get_default "cluster_secondary_range_name");
       ("cluster_version", get_default "cluster_version");
       ("cloud_run_config", cloud_run_config);
       ("node_version", get_default "node_version");
       ("create_subnetwork", get_default "create_subnetwork");
       ("disable_default_snat", get_default "disable_default_snat");
       ("dataplane_v2", get_default "enable_dataplane_v2");
       ("disk_type", get_default "disk_type");
       ("enable_autorepair", enable_autorepair);
       ("enable_autoscaling", get_default "enable_autoscaling");
       ("location_policy", get_default "location_policy");
       ("enable_autoupgrade", enable_autoupgrade);
       ("enable_binauthz", get_default "enable_binauthz");
       ("binauthz_evaluation_mode", get_default "binauthz_evaluation_mode");
       ("enable_stackdriver_kubernetes", _GetEnableStackdriver args);
       ("enable_cloud_logging", (if hasattr args "enable_cloud_logging"
             && is_specified args "enable_cloud_logging"
          then getattr args "enable_cloud_logging" VNone else VNone));
       ("enable_cloud_monitoring", (if hasattr args "enable_cloud_monitoring"
             && is_specified args "enable_cloud_monitoring"
          then getattr args "enable_cloud_monitoring" VNone else VNone));
       ("enable_workload_monitoring_eap", get_default "enable_workload_monitoring_eap");
       ("logging", get_default "logging");
       ("monitoring", get_default "monitoring");
       ("enable_l4_ilb_subsetting", get_default "enable_l4_ilb_subsetting");
       ("enable_ip_alias", enable_ip_alias);
       ("enable_intra_node_visibility", get_default "enable_intra_node_visibility");
       ("enable_kubernetes_alpha", get_default "enable_kubernetes_alpha");
       ("enable_cloud_run_alpha", enable_cloud_run_alpha);
       ("enable_legacy_authorization", get_default "enable_legacy_authorization");
       ("enable_managed_prometheus", get_default "enable_managed_prometheus");
       ("enable_master_authorized_networks", get_default "enable_master_authorized_networks");
       ("enable_master_global_access", get_default "enable_master_global_access");
       ("enable_mesh_certificates", get_default "enable_mesh_certificates");
       ("enable_network_policy", get_default "enable_network_policy");
       ("enable_private_nodes", get_default "enable_private_nodes");
       ("enable_private_endpoint", get_default "enable_private_endpoint");
       ("enable_gke_oidc", getattr args "enable_gke_oidc" VNone);
       ("enable_identity_service", getattr args "enable_identity_service" VNone);
       ("image_type", get_default "image_type");
       ("image", get_default "image");
       ("image_project", get_default "image_project");
       ("image_family", get_default "image_family");
       ("issue_client_certificate", get_default "issue_client_certificate");
       ("labels", get_default "labels");
       ("local_ssd_count", get_default "local_ssd_count");
       ("maintenance_window", get_default "maintenance_window");
       ("maintenance_window_start", get_default "maintenance_window_start");
       ("maintenance_window_end", get_default "maintenance_window_end");
       ("maintenance_window_recurrence", get_default "maintenance_window_recurrence");
       ("master_authorized_networks", get_default "master_authorized_networks");
       ("master_ipv4_cidr", get_default "master_ipv4_cidr");
       ("max_nodes", get_default "max_nodes");
       ("max_nodes_per_pool", get_default "max_nodes_per_pool");
       ("min_cpu_platform", get_default "min_cpu_platform");
       ("min_nodes", get_default "min_nodes");
       ("total_max_nodes", get_default "total_max_nodes");
       ("total_min_nodes", get_default "total_min_nodes");
       ("network", get_default "network");
       ("node_disk_size_gb", node_disk_size_gb);
       ("node_labels", get_default "node_labels");
       ("node_locations", get_default "node_locations");
       ("node_machine_type", get_default "machine_type");
       ("node_taints", get_default "node_taints");
       ("notification_config", get_default "notification_config");
       ("autoscaling_profile", getattr args "autoscaling_profile" VNone);
       ("num_nodes", get_default "num_nodes");
       ("password", get_default "password");
       ("preemptible", get_default "preemptible");
       ("security_group", get_default "security_group");
       ("scopes", get_default "scopes");
       ("service_account", get_default "service_account");
       ("services_ipv4_cidr", get_default "services_ipv4_cidr");
       ("services_secondary_range_name", get_default "services_secondary_range_name");
       ("subnetwork", get_default "subnetwork");
       ("system_config_from_file", get_default "system_config_from_file");
       ("private_ipv6_google_access_type", get_default "private_ipv6_google_access_type");
       ("tags", get_default "tags");
       ("autoprovisioning_network_tags", get_default "autoprovisioning_network_tags");
       ("threads_per_core", get_default "threads_per_core");
       ("user", get_default "username");
       ("metadata", metadata);
       ("default_max_pods_per_node", get_default "default_max_pods_per_node");
       ("max_pods_per_node", get_default "max_pods_per_node");
       ("enable_tpu", get_default "enable_tpu");
       ("tpu_ipv4_cidr", get_default "tpu_ipv4_cidr");
       ("resource_usage_bigquery_dataset", get_default "resource_usage_bigquery_dataset");
       ("enable_network_egress_metering", get_default "enable_network_egress_metering");
       ("enable_resource_consumption_metering", get_default "enable_resource_consumption_metering");
       ("database_encryption_key", get_default "database_encryption_key");
       ("workload_pool", get_default "workload_pool");
       ("identity_provider", get_default "identity_provider");
       ("tune_gke_metadata_server_cpu", get_default "tune_gke_metadata_server_cpu");
       ("tune_gke_metadata_server_memory", get_default "tune_gke_metadata_server_memory");
       ("workload_metadata", get_default "workload_metadata");
       ("workload_metadata_from_node", get_default "workload_metadata_from_node");
       ("enable_vertical_pod_autoscaling", get_default "enable_vertical_pod_autoscaling");
       ("enable_experimental_vertical_pod_autoscaling", get_default "enable_experimental_vertical_pod_autoscaling");
       ("enable_autoprovisioning", get_default "enable_autoprovisioning");
       ("autoprovisioning_config_file", get_default "autoprovisioning_config_file");
       ("autoprovisioning_service_account", get_default "autoprovisioning_service_account");
       ("autoprovisioning_scopes", get_default "autoprovisioning_scopes");
       ("autoprovisioning_locations", get_default "autoprovisioning_locations");
       ("autoprovisioning_max_surge_upgrade", get_default "autoprovisioning_max_surge_upgrade");
       ("autoprovisioning_max_unavailable_upgrade", get_default "autoprovisioning_max_unavailable_upgrade");
       ("enable_autoprovisioning_surge_upgrade", get_default "enable_autoprovisioning_surge_upgrade");
       ("enable_autoprovisioning_blue_green_upgrade", get_default "enable_autoprovisioning_blue_green_upgrade");
       ("autoprovisioning_standard_rollout_policy", get_default "autoprovisioning_standard_rollout_policy");
       ("autoprovisioning_node_pool_soak_duration", get_default "autoprovisioning_node_pool_soak_duration");
       ("enable_autoprovisioning_autorepair", get_default "enable_autoprovisioning_autorepair");
       ("enable_autoprovisioning_autoupgrade", get_default "enable_autoprovisioning_autoupgrade");
       ("autoprovisioning_min_cpu_platform", get_default "autoprovisioning_min_cpu_platform");
       ("min_cpu", get_default "min_cpu");
       ("max_cpu", get_default "max_cpu");
       ("min_memory", get_default "min_memory");
       ("max_memory", get_default "max_memory");
       ("min_accelerator", get_default "min_accelerator");
       ("max_accelerator", get_default "max_accelerator");
       ("autoprovisioning_image_type", get_default "autoprovisioning_image_type");
       ("shielded_secure_boot", get_default "shielded_secure_boot");
       ("shielded_integrity_monitoring", get_default "shielded_integrity_monitoring");
       ("reservation_affinity", get_default "reservation_affinity");
       ("reservation", get_default "reservation");
       ("release_channel", get_default "release_channel");
       ("enable_shielded_nodes", get_default "enable_shielded_nodes");
       ("max_surge_upgrade", get_default "max_surge_upgrade");
       ("max_unavailable_upgrade", get_default "max_unavailable_upgrade");
       ("autopilot", VBool is_autopilot);
       ("gvnic", get_default "enable_gvnic");
       ("enable_confidential_nodes", get_default "enable_confidential_nodes");
       ("enable_image_streaming", get_default "enable_image_streaming");
       ("spot", get_default "spot");
       ("enable_service_externalips", get_default "enable_service_externalips");
       ("disable_pod_cidr_overprovision", get_default "disable_pod_cidr_overprovision");
       ("private_endpoint_subnetwork", get_default "private_endpoint_subnetwork");
       ("enable_google_cloud_access", get_default "enable_google_cloud_access");
       ("gateway_api", get_default "gateway_api");
       ("logging_variant", get_default "logging_variant")
      ]).

(** [DefaultAttribute(flagname, flag_defaults)] *)
Definition DefaultAttribute (flagname : string)
    (flag_defaults : gmap string value) : value :=
  match flag_defaults !! flagname with
  | Some v => v
  | None => VNone
  end.

(** [AttrValue(args, flagname, flag_defaults)] *)
Definition AttrValue (args : Namespace) (flagname : string)
    (flag_defaults : gmap string value) : value :=
  getattr args flagname (DefaultAttribute flagname flag_defaults).

Definition base_flag_defaults : gmap string value :=
  {[ "num_nodes" := VInt 3 ]}.

(** The class attributes [autopilot] and [default_flag_values] of
    [Create], inherited by [CreateBeta] and [CreateAlpha]. *)
Definition autopilot : bool := false.
Definition default_flag_values : gmap string value := base_flag_defaults.

(** [Create.ParseCreateOptions(self, args, location, project_id)] *)
Definition Create_ParseCreateOptions (location project_id : string)
    : M S (gmap string value) :=
  let get_default := λ args key, AttrValue args key default_flag_values in
  ParseCreateOptionsBase autopilot get_default location project_id.

(** [CreateBeta.ParseCreateOptions(self, args, location, project_id)] *)
Definition CreateBeta_ParseCreateOptions (location project_id : string)
    : M S (gmap string value) :=
  let get_default := λ args key, AttrValue args key default_flag_values in
  do ops <- ParseCreateOptionsBase autopilot get_default location project_id;
  do args <- get_args;
  let get_default := get_default args in
  do _ <- MaybeLogDataplaneV2ScaleWarning args;
  do _ <- run_helper (WarnForNodeVersionAutoUpgrade args);
  do _ <- run_helper (ValidateSurgeUpgradeSettings args);
  let ops := assign
      [
       ("boot_disk_kms_key", get_default "boot_disk_kms_key");
       ("min_cpu_platform", get_default "min_cpu_platform");
       ("enable_pod_security_policy", get_default "enable_pod_security_policy");
       ("allow_route_overlap", get_default "allow_route_overlap");
       ("private_cluster", get_default "private_cluster");
       ("istio_config", get_default "istio_config");
       ("enable_vertical_pod_autoscaling", get_default "enable_vertical_pod_autoscaling");
       ("enable_experimental_vertical_pod_autoscaling", get_default "enable_experimental_vertical_pod_autoscaling");
       ("security_group", get_default "security_group")
      ] ops in
  do _ <- run_helper (ValidateIstioConfigCreateArgs
                        (get_default "istio_config") (get_default "addons"));
  let ops := assign
      [
       ("max_surge_upgrade", get_default "max_surge_upgrade");
       ("max_unavailable_upgrade", get_default "max_unavailable_upgrade");
       ("autoscaling_profile", get_default "autoscaling_profile");
       ("enable_tpu_service_networking", get_default "enable_tpu_service_networking");
       ("enable_logging_monitoring_system_only", get_default "enable_logging_monitoring_system_only");
       ("gvnic", get_default "enable_gvnic");
       ("system_config_from_file", get_default "system_config_from_file");
       ("datapath_provider", get_default "datapath_provider");
       ("disable_default_snat", get_default "disable_default_snat");
       ("enable_master_metrics", get_default "enable_master_metrics");
       ("master_logs", get_default "master_logs");
       ("enable_confidential_nodes", get_default "enable_confidential_nodes");
       ("kubernetes_objects_changes_target", getattr args "kubernetes_objects_changes_target" VNone);
       ("kubernetes_objects_snapshots_target", getattr args "kubernetes_objects_snapshots_target" VNone);
       ("enable_gcfs", get_default "enable_gcfs");
       ("enable_image_streaming", get_default "enable_image_streaming");
       ("enable_workload_certificates", getattr args "enable_workload_certificates" VNone);
       ("enable_alts", getattr args "enable_alts" VNone);
       ("ephemeral_storage", get_default "ephemeral_storage");
       ("enable_workload_monitoring_eap", get_default "enable_workload_monitoring_eap");
       ("private_endpoint_subnetwork", get_default "private_endpoint_subnetwork");
       ("cross_connect_subnetworks", get_default "cross_connect_subnetworks");
       ("enable_service_externalips", get_default "enable_service_externalips");
       ("enable_managed_prometheus", get_default "enable_managed_prometheus");
       ("spot", get_default "spot");
       ("placement_type", get_default "placement_type");
       ("maintenance_interval", get_default "maintenance_interval");
       ("disable_pod_cidr_overprovision", get_default "disable_pod_cidr_overprovision");
       ("stack_type", get_default "stack_type");
       ("ipv6_access_type", get_default "ipv6_access_type");
       ("enable_workload_config_audit", get_default "enable_workload_config_audit");
       ("pod_autoscaling_direct_metrics_opt_in", get_default "pod_autoscaling_direct_metrics_opt_in");
       ("enable_workload_vulnerability_scanning", get_default "enable_workload_vulnerability_scanning");
       ("enable_cost_allocation", get_default "enable_cost_allocation");
       ("managed_config", get_default "managed_config")
      ] ops in
  ret ops.

(** [CreateAlpha.ParseCreateOptions(self, args, location, project_id)] *)
Definition CreateAlpha_ParseCreateOptions (location project_id : string)
    : M S (gmap string value) :=
  let get_default := λ args key, AttrValue args key default_flag_values in
  do ops <- ParseCreateOptionsBase autopilot get_default location project_id;
  do args <- get_args;
  let get_default := get_default args in
  do _ <- run_helper (WarnForNodeVersionAutoUpgrade args);
  do _ <- run_helper (ValidateSurgeUpgradeSettings args);
  let ops := assign
      [
       ("boot_disk_kms_key", get_default "boot_disk_kms_key");
       ("autoscaling_profile", get_default "autoscaling_profile");
       ("local_ssd_volume_configs", get_default "local_ssd_volumes");
       ("ephemeral_storage", get_default "ephemeral_storage");
       ("enable_pod_security_policy", get_default "enable_pod_security_policy");
       ("allow_route_overlap", get_default "allow_route_overlap");
       ("private_cluster", get_default "private_cluster");
       ("enable_private_nodes", get_default "enable_private_nodes");
       ("enable_private_endpoint", get_default "enable_private_endpoint");
       ("master_ipv4_cidr", get_default "master_ipv4_cidr");
       ("enable_tpu_service_networking", get_default "enable_tpu_service_networking");
       ("istio_config", get_default "istio_config");
       ("security_group", get_default "security_group")
      ] ops in
  do _ <- run_helper (ValidateIstioConfigCreateArgs
                        (get_default "istio_config") (get_default "addons"));
  let ops := assign
      [
       ("enable_vertical_pod_autoscaling", get_default "enable_vertical_pod_autoscaling");
       ("enable_experimental_vertical_pod_autoscaling", get_default "enable_experimental_vertical_pod_autoscaling");
       ("security_profile", get_default "security_profile");
       ("security_profile_runtime_rules", get_default "security_profile_runtime_rules");
       ("node_pool_name", get_default "node_pool_name");
       ("enable_network_egress_metering", get_default "enable_network_egress_metering");
       ("enable_resource_consumption_metering", get_default "enable_resource_consumption_metering");
       ("enable_private_ipv6_access", get_default "enable_private_ipv6_access");
       ("max_surge_upgrade", get_default "max_surge_upgrade");
       ("max_unavailable_upgrade", get_default "max_unavailable_upgrade");
       ("linux_sysctls", get_default "linux_sysctls");
       ("disable_default_snat", get_default "disable_default_snat");
       ("system_config_from_file", get_default "system_config_from_file");
       ("enable_cost_allocation", get_default "enable_cost_allocation");
       ("enable_logging_monitoring_system_only", get_default "enable_logging_monitoring_system_only");
       ("datapath_provider", get_default "datapath_provider");
       ("gvnic", get_default "enable_gvnic");
       ("enable_master_metrics", get_default "enable_master_metrics");
       ("master_logs", get_default "master_logs");
       ("enable_confidential_nodes", get_default "enable_confidential_nodes");
       ("kubernetes_objects_changes_target", getattr args "kubernetes_objects_changes_target" VNone);
       ("kubernetes_objects_snapshots_target", getattr args "kubernetes_objects_snapshots_target" VNone);
       ("enable_gcfs", get_default "enable_gcfs");
       ("enable_image_streaming", get_default "enable_image_streaming");
       ("enable_workload_certificates", getattr args "enable_workload_certificates" VNone);
       ("enable_alts", getattr args "enable_alts" VNone);
       ("enable_workload_monitoring_eap", get_default "enable_workload_monitoring_eap");
       ("private_endpoint_subnetwork", get_default "private_endpoint_subnetwork");
       ("cross_connect_subnetworks", get_default "cross_connect_subnetworks");
       ("enable_service_externalips", get_default "enable_service_externalips");
       ("enable_managed_prometheus", get_default "enable_managed_prometheus");
       ("spot", get_default "spot");
       ("placement_type", get_default "placement_type");
       ("maintenance_interval", get_default "maintenance_interval");
       ("disable_pod_cidr_overprovision", get_default "disable_pod_cidr_overprovision");
       ("stack_type", get_default "stack_type");
       ("ipv6_access_type", get_default "ipv6_access_type");
       ("enable_workload_config_audit", get_default "enable_workload_config_audit");
       ("pod_autoscaling_direct_metrics_opt_in", get_default "pod_autoscaling_direct_metrics_opt_in");
       ("enable_workload_vulnerability_scanning", get_default "enable_workload_vulnerability_scanning");
       ("managed_config", get_default "managed_config")
      ] ops in
  ret ops.

(** [self.ParseCreateOptions] of the class registered for the track. *)
Definition ParseCreateOptions (track : ReleaseTrack)
    (location project_id : string) : M S (gmap string value) :=
  match track with
  | GA => Create_ParseCreateOptions location project_id
  | BETA => CreateBeta_ParseCreateOptions location project_id
  | ALPHA => CreateAlpha_ParseCreateOptions location project_id
  end.

End Options.

(** *** Flag registration *)

Section Registration.
Context {CF : ContainerFlags}.

(** [flags.fn(container, **kw)] for a helper of the flags module. *)
Definition flags_on (c : Container) (fn : string) (kw : list (string * value))
    (p : Parser) : Parser :=
  foldl (λ p a, register c a p) p (registers fn kw).

Definition _AddAdditionalZonesFlag (parser : Container) (deprecated : bool)
    (p : Parser) : Parser :=
  add_argument parser "--additional-zones" VNone p.

Definition _AddAdditionalZonesGroup (p : Parser) : Parser :=
  let '(group, p) := add_mutually_exclusive_group p in
  let p := _AddAdditionalZonesFlag group true p in
  flags_on group "AddNodeLocationsFlag" [] p.

(** [_Args(parser)].  The display format it sets plays no part in
    parsing. *)
Definition _Args (p : Parser) : Parser :=
  let p := add_argument TopLevel "name" VNone p in
  let p := add_argument TopLevel "--timeout" (VInt 3600) p in
  let p := flags_on TopLevel "AddAsyncFlag" [] p in
  let p := add_argument TopLevel "--subnetwork" VNone p in
  let p := add_argument TopLevel "--network" VNone p in
  add_argument TopLevel "--cluster-ipv4-cidr" VNone p.

Definition AddAutoRepair (p : Parser) : Parser :=
  flags_on TopLevel "AddEnableAutoRepairFlag" [("for_create", VBool true)] p.

Definition AddEnableAutoUpgradeWithDefault (p : Parser) : Parser :=
  flags_on TopLevel "AddEnableAutoUpgradeFlag" [("default", VBool true)] p.

Definition AddAutoprovisioning (p : Parser) : Parser :=
  flags_on TopLevel "AddAutoprovisioningFlags"
    [("hidden", VBool false); ("for_create", VBool true)] p.

Definition AddTpuWithServiceNetworking (p : Parser) : Parser :=
  flags_on TopLevel "AddTpuFlags"
    [("enable_tpu_service_networking", VBool true)] p.

Definition AddDisableDefaultSnatFlagForClusterCreate (p : Parser) : Parser :=
  flags_on TopLevel "AddDisableDefaultSnatFlag"
    [("for_cluster_create", VBool true)] p.

Definition AddMasterSignalsFlag (p : Parser) : Parser :=
  flags_on TopLevel "AddEnableMasterSignalsFlags"
    [("for_create", VBool true)] p.

Definition AddKubernetesObjectsExportFlag (p : Parser) : Parser :=
  flags_on TopLevel "AddKubernetesObjectsExportConfig"
    [("for_create", VBool true)] p.

(** An entry of [flags_to_add]: a callable that [AddFlags] invokes as
    [f(parser)] or as [f(parser, default=d)]. *)
Definition Adder : Type := option value → Parser → result Parser.

(** A helper of the flags module as a table entry; a [default] keyword
    is passed on to it. *)
Definition flags (fn : string) (kw : list (string * value)) : Adder :=
  λ dflt p,
    ok (flags_on TopLevel fn
          (kw ++ match dflt with Some d => [("default", d)] | None => [] end)
          p).

(** The text of the [TypeError] that Python raises when [callee] is
    called with a [default] keyword and has no such parameter. *)
Definition unexpected_keyword_default (callee : string) : string :=
  callee ++ "() got an unexpected keyword argument 'default'".

(** A function [name] of this file as a table entry: it has no [default]
    parameter, so calling it with one is a [TypeError]. *)
Definition pydef (name : string) (f : Parser → Parser) : Adder :=
  λ dflt p,
    match dflt with
    | Some _ => raise (TypeError (unexpected_keyword_default name))
    | None => ok (f p)
    end.

(** [lambda p: f(p, ...)] as a table entry; Python names the callee
    [<lambda>]. *)
Definition lambda (f : Adder) : Adder :=
  λ dflt p,
    match dflt with
    | Some _ => raise (TypeError (unexpected_keyword_default "<lambda>"))
    | None => f None p
    end.

(** [functools.partial(f)] *)
Definition partial (f : Adder) : Adder := f.

(** [AddPrivateClusterDeprecated(parser, default=None)] *)
Definition AddPrivateClusterDeprecated : Adder :=
  λ dflt p,
    let default_value :=
      match dflt with
      | None | Some VNone => VDict []
      | Some d => d
      end in
    ok (flags_on TopLevel "AddPrivateClusterFlags"
          [("default", default_value); ("with_deprecated", VBool true)] p).

(** [AddPrivateIPv6Flag(api, parser)] *)
Definition AddPrivateIPv6Flag (api : string) : Adder :=
  pydef "AddPrivateIPv6Flag"
    (flags_on TopLevel "AddPrivateIpv6GoogleAccessTypeFlag"
       [("arg0", VStr api)]).

(** [AddAcceleratorFlag(parser, enable_gpu_partition, enable_gpu_sharing,
    enable_gpu_deprecated_fields)] *)
Definition AddAcceleratorFlag
    (enable_gpu_partition enable_gpu_sharing enable_gpu_deprecated_fields : bool)
    : Adder :=
  pydef "AddAcceleratorFlag"
    (flags_on TopLevel "AddAcceleratorArgs"
       [("enable_gpu_partition", VBool enable_gpu_partition);
        ("enable_gpu_sharing", VBool enable_gpu_sharing);
        ("enable_gpu_deprecated_fields",
         VBool enable_gpu_deprecated_fields)]).

(** [flags_to_add]: one table per channel, entries in source order. *)
Definition flags_to_add_GA : list (string * Adder) :=
  [
    ("accelerator", lambda (AddAcceleratorFlag true true false));
    ("additionalzones", pydef "_AddAdditionalZonesFlag"
                          (_AddAdditionalZonesFlag TopLevel true));
    ("addons", flags "AddAddonsFlags" []);
    ("autorepair", pydef "AddAutoRepair" AddAutoRepair);
    ("autoprovisioning", pydef "AddAutoprovisioning" AddAutoprovisioning);
    ("autoscalingprofiles", flags "AddAutoscalingProfilesFlag" []);
    ("autoupgrade", pydef "AddEnableAutoUpgradeWithDefault" AddEnableAutoUpgradeWithDefault);
    ("authenticatorsecurity", flags "AddAuthenticatorSecurityGroupFlags" []);
    ("args", pydef "_Args" _Args);
    ("basicauth", flags "AddBasicAuthFlags" []);
    ("binauthz", lambda (flags "AddBinauthzFlags" [("api_version", VStr "v1")]));
    ("bootdiskkms", flags "AddBootDiskKmsKeyFlag" []);
    ("cloudlogging", flags "AddEnableCloudLogging" []);
    ("cloudmonitoring", flags "AddEnableCloudMonitoring" []);
    ("cloudrunalpha", flags "AddEnableCloudRunAlphaFlag" []);
    ("cloudrunconfig", flags "AddCloudRunConfigFlag" []);
    ("clusterautoscaling", partial (flags "AddClusterAutoscalingFlags" []));
    ("clusterdns", flags "AddClusterDNSFlags" []);
    ("clusterversion", flags "AddClusterVersionFlag" []);
    ("confidentialnodes", flags "AddEnableConfidentialNodesFlag" []);
    ("disabledefaultsnat", pydef "AddDisableDefaultSnatFlagForClusterCreate" AddDisableDefaultSnatFlagForClusterCreate);
    ("databaseencryption", flags "AddDatabaseEncryptionFlag" []);
    ("dataplanev2", flags "AddDataplaneV2Flag" []);
    ("disksize", flags "AddDiskSizeFlag" []);
    ("disktype", flags "AddDiskTypeFlag" []);
    ("identityservice", flags "AddIdentityServiceFlag" []);
    ("imagestreaming", flags "AddEnableImageStreamingFlag" []);
    ("ilbsubsetting", flags "AddILBSubsettingFlags" []);
    ("imageflags", flags "AddImageFlagsCreate" []);
    ("intranodevisibility", flags "AddEnableIntraNodeVisibilityFlag" []);
    ("ipalias", flags "AddIpAliasCoreFlag" []);
    ("ipalias_additional", flags "AddIPAliasRelatedFlags" []);
    ("issueclientcert", flags "AddIssueClientCertificateFlag" []);
    ("gvnic", flags "AddEnableGvnicFlag" []);
    ("kubernetesalpha", flags "AddEnableKubernetesAlphaFlag" []);
    ("labels", flags "AddLabelsFlag" []);
    ("legacyauth", flags "AddEnableLegacyAuthorizationFlag" []);
    ("localssd", flags "AddLocalSSDFlag" []);
    ("logging", flags "AddLoggingFlag" []);
    ("machinetype", flags "AddMachineTypeFlag" []);
    ("maintenancewindow", flags "AddMaintenanceWindowGroup" []);
    ("masterauth", flags "AddMasterAuthorizedNetworksFlags" []);
    ("masterglobalaccess", flags "AddMasterGlobalAccessFlag" []);
    ("maxnodes", flags "AddMaxNodesPerPool" []);
    ("maxpodspernode", flags "AddMaxPodsPerNodeFlag" []);
    ("maxunavailable", flags "AddMaxUnavailableUpgradeFlag" []);
    ("meshcertificates", flags "AddMeshCertificatesFlags" []);
    ("metadata", flags "AddMetadataFlags" []);
    ("mincpu", flags "AddMinCpuPlatformFlag" []);
    ("monitoring", flags "AddMonitoringFlag" []);
    ("networkpolicy", flags "AddNetworkPolicyFlags" []);
    ("nodeidentity", flags "AddClusterNodeIdentityFlags" []);
    ("nodelabels", flags "AddNodeLabelsFlag" []);
    ("nodelocations", flags "AddNodeLocationsFlag" []);
    ("nodetaints", flags "AddNodeTaintsFlag" []);
    ("nodeversion", flags "AddNodeVersionFlag" []);
    ("notificationconfig", flags "AddNotificationConfigFlag" []);
    ("num_nodes", flags "AddNumNodes" []);
    ("preemptible", flags "AddPreemptibleFlag" []);
    ("privatecluster", flags "AddPrivateClusterFlags" []);
    ("privateipv6type", lambda (AddPrivateIPv6Flag "v1"));
    ("releasechannel", flags "AddReleaseChannelFlag" []);
    ("reservationaffinity", flags "AddReservationAffinityFlags" []);
    ("resourceusageexport", flags "AddResourceUsageExportFlags" []);
    ("shieldedinstance", flags "AddShieldedInstanceFlags" []);
    ("shieldednodes", flags "AddEnableShieldedNodesFlags" []);
    ("spot", lambda (flags "AddSpotFlag" [("hidden", VBool false)]));
    ("surgeupgrade", lambda (flags "AddSurgeUpgradeFlag" [("default", VInt 1)]));
    ("systemconfig", lambda (flags "AddSystemConfigFlag" [("hidden", VBool false)]));
    ("stackdriver", flags "AddEnableStackdriverKubernetesFlag" []);
    ("tags", flags "AddTagsCreate" []);
    ("threads_per_core", flags "AddThreadsPerCore" []);
    ("autoprovisioning_network_tags", flags "AddAutoprovisioningNetworkTagsCreate" []);
    ("tpu", flags "AddTpuFlags" []);
    ("verticalpodautoscaling", flags "AddVerticalPodAutoscalingFlags" []);
    ("workloadidentity", flags "AddWorkloadIdentityFlags" []);
    ("tune_gke_metadata_server_cpu", flags "AddWorkloadIdentityCPUFlags" []);
    ("tune_gke_metadata_server_memory", flags "AddWorkloadIdentityMemoryFlags" []);
    ("workloadmetadata", flags "AddWorkloadMetadataFlag" []);
    ("enableserviceexternalips", flags "AddEnableServiceExternalIPs" []);
    ("privateEndpointSubnetwork", flags "AddPrivateEndpointSubnetworkFlag" []);
    ("enableGoogleCloudAccess", flags "AddEnableGoogleCloudAccess" []);
    ("loggingvariant", flags "AddLoggingVariantFlag" [])
  ].

Definition flags_to_add_BETA : list (string * Adder) :=
  [
    ("accelerator", lambda (AddAcceleratorFlag true true true));
    ("additionalzones", pydef "_AddAdditionalZonesGroup" _AddAdditionalZonesGroup);
    ("addons", flags "AddBetaAddonsFlags" []);
    ("allowrouteoverlap", flags "AddAllowRouteOverlapFlag" []);
    ("args", pydef "_Args" _Args);
    ("autorepair", pydef "AddAutoRepair" AddAutoRepair);
    ("autoprovisioning", pydef "AddAutoprovisioning" AddAutoprovisioning);
    ("autoscalingprofiles", flags "AddAutoscalingProfilesFlag" []);
    ("authenticatorsecurity", flags "AddAuthenticatorSecurityGroupFlags" []);
    ("autoupgrade", pydef "AddEnableAutoUpgradeWithDefault" AddEnableAutoUpgradeWithDefault);
    ("basicauth", flags "AddBasicAuthFlags" []);
    ("binauthz", lambda (flags "AddBinauthzFlags" [("api_version", VStr "v1beta1")]));
    ("bootdiskkms", flags "AddBootDiskKmsKeyFlag" []);
    ("cloudlogging", flags "AddEnableCloudLogging" []);
    ("cloudmonitoring", flags "AddEnableCloudMonitoring" []);
    ("cloudrunalpha", flags "AddEnableCloudRunAlphaFlag" []);
    ("cloudrunconfig", flags "AddCloudRunConfigFlag" []);
    ("clusterautoscaling", partial (flags "AddClusterAutoscalingFlags" []));
    ("clusterdns", flags "AddClusterDNSFlags" []);
    ("clusterversion", flags "AddClusterVersionFlag" []);
    ("costmanagementconfig", flags "AddCostManagementConfigFlag" []);
    ("placementtype", flags "AddPlacementTypeFlag" []);
    ("confidentialnodes", flags "AddEnableConfidentialNodesFlag" []);
    ("databaseencryption", flags "AddDatabaseEncryptionFlag" []);
    ("datapath", lambda (flags "AddDatapathProviderFlag" [("hidden", VBool true)]));
    ("dataplanev2", flags "AddDataplaneV2Flag" []);
    ("disabledefaultsnat", pydef "AddDisableDefaultSnatFlagForClusterCreate" AddDisableDefaultSnatFlagForClusterCreate);
    ("disksize", flags "AddDiskSizeFlag" []);
    ("disktype", flags "AddDiskTypeFlag" []);
    ("gcfs", flags "AddEnableGcfsFlag" []);
    ("imagestreaming", flags "AddEnableImageStreamingFlag" []);
    ("imageflags", flags "AddImageFlagsCreate" []);
    ("intranodevisibility", flags "AddEnableIntraNodeVisibilityFlag" []);
    ("ipalias", flags "AddIpAliasCoreFlag" []);
    ("ipalias_additional", flags "AddIPAliasRelatedFlags" []);
    ("issueclientcert", flags "AddIssueClientCertificateFlag" []);
    ("istioconfig", flags "AddIstioConfigFlag" []);
    ("kubernetesalpha", flags "AddEnableKubernetesAlphaFlag" []);
    ("kubernetesobjectsexport", pydef "AddKubernetesObjectsExportFlag" AddKubernetesObjectsExportFlag);
    ("gvnic", flags "AddEnableGvnicFlag" []);
    ("gkeoidc", flags "AddGkeOidcFlag" []);
    ("identityservice", flags "AddIdentityServiceFlag" []);
    ("ilbsubsetting", flags "AddILBSubsettingFlags" []);
    ("localssds", flags "AddLocalSSDsBetaFlags" []);
    ("loggingmonitoring", flags "AddEnableLoggingMonitoringSystemOnlyFlag" []);
    ("logging", flags "AddLoggingFlag" []);
    ("labels", flags "AddLabelsFlag" []);
    ("legacyauth", flags "AddEnableLegacyAuthorizationFlag" []);
    ("machinetype", flags "AddMachineTypeFlag" []);
    ("maintenancewindow", flags "AddMaintenanceWindowGroup" []);
    ("managedprometheus", lambda (flags "AddManagedPrometheusFlags" [("for_create", VBool true)]));
    ("masterglobalaccess", flags "AddMasterGlobalAccessFlag" []);
    ("masterauth", flags "AddMasterAuthorizedNetworksFlags" []);
    ("mastersignals", pydef "AddMasterSignalsFlag" AddMasterSignalsFlag);
    ("maxnodes", flags "AddMaxNodesPerPool" []);
    ("maxpodspernode", flags "AddMaxPodsPerNodeFlag" []);
    ("maxunavailable", lambda (flags "AddMaxUnavailableUpgradeFlag" [("is_create", VBool true)]));
    ("meshcertificates", flags "AddMeshCertificatesFlags" []);
    ("metadata", flags "AddMetadataFlags" []);
    ("mincpu", flags "AddMinCpuPlatformFlag" []);
    ("maintenanceinterval", flags "AddMaintenanceIntervalFlag" []);
    ("monitoring", flags "AddMonitoringFlag" []);
    ("networkpolicy", flags "AddNetworkPolicyFlags" []);
    ("nodetaints", flags "AddNodeTaintsFlag" []);
    ("nodeidentity", flags "AddClusterNodeIdentityFlags" []);
    ("nodeversion", flags "AddNodeVersionFlag" []);
    ("nodelabels", flags "AddNodeLabelsFlag" []);
    ("notificationconfig", flags "AddNotificationConfigFlag" []);
    ("num_nodes", flags "AddNumNodes" []);
    ("podsecuritypolicy", flags "AddPodSecurityPolicyFlag" []);
    ("preemptible", flags "AddPreemptibleFlag" []);
    ("privatecluster", AddPrivateClusterDeprecated);
    ("privateipv6type", lambda (AddPrivateIPv6Flag "v1beta1"));
    ("releasechannel", flags "AddReleaseChannelFlag" []);
    ("resourceusageexport", flags "AddResourceUsageExportFlags" []);
    ("reservationaffinity", flags "AddReservationAffinityFlags" []);
    ("shieldedinstance", flags "AddShieldedInstanceFlags" []);
    ("shieldednodes", flags "AddEnableShieldedNodesFlags" []);
    ("spot", flags "AddSpotFlag" []);
    ("stackdriver", flags "AddEnableStackdriverKubernetesFlag" []);
    ("stacktype", flags "AddStackTypeFlag" []);
    ("ipv6Accesstype", flags "AddIpv6AccessTypeFlag" []);
    ("surgeupgrade", lambda (flags "AddSurgeUpgradeFlag" [("default", VInt 1)]));
    ("systemconfig", lambda (flags "AddSystemConfigFlag" [("hidden", VBool false)]));
    ("tags", flags "AddTagsCreate" []);
    ("autoprovisioning_network_tags", flags "AddAutoprovisioningNetworkTagsCreate" []);
    ("threads_per_core", flags "AddThreadsPerCore" []);
    ("tpu", pydef "AddTpuWithServiceNetworking" AddTpuWithServiceNetworking);
    ("verticalpodautoscaling", flags "AddVerticalPodAutoscalingFlagsExperimental" []);
    ("workloadAlts", flags "AddWorkloadAltsFlags" []);
    ("workloadcertificates", flags "AddWorkloadCertificatesFlags" []);
    ("workloadidentity", lambda (flags "AddWorkloadIdentityFlags" [("arg1", VBool true)]));
    ("tune_gke_metadata_server_cpu", flags "AddWorkloadIdentityCPUFlags" []);
    ("tune_gke_metadata_server_memory", flags "AddWorkloadIdentityMemoryFlags" []);
    ("workloadmetadata", lambda (flags "AddWorkloadMetadataFlag" [("use_mode", VBool false)]));
    ("workloadmonitoringeap", flags "AddEnableWorkloadMonitoringEapFlag" []);
    ("privateEndpointSubnetwork", flags "AddPrivateEndpointSubnetworkFlag" []);
    ("crossConnectNetworks", flags "AddCrossConnectSubnetworksFlag" []);
    ("enableserviceexternalips", flags "AddEnableServiceExternalIPs" []);
    ("disablepodcidroverprovision", flags "AddDisablePodCIDROverprovisionFlag" []);
    ("enableworkloadconfigaudit", flags "AddWorkloadConfigAuditFlag" []);
    ("enableworkloadvulnscanning", flags "AddWorkloadVulnScanningFlag" []);
    ("podautoscalingdirectmetricsoptin", flags "AddPodAutoscalingDirectMetricsOptInFlag" []);
    ("enableGoogleCloudAccess", flags "AddEnableGoogleCloudAccess" []);
    ("managedConfig", flags "AddManagedConfigFlag" []);
    ("loggingvariant", flags "AddLoggingVariantFlag" [])
  ].

Definition flags_to_add_ALPHA : list (string * Adder) :=
  [
    ("accelerator", lambda (AddAcceleratorFlag true true true));
    ("additionalzones", pydef "_AddAdditionalZonesGroup" _AddAdditionalZonesGroup);
    ("addons", flags "AddAlphaAddonsFlags" []);
    ("allowrouteoverlap", flags "AddAllowRouteOverlapFlag" []);
    ("args", pydef "_Args" _Args);
    ("authenticatorsecurity", flags "AddAuthenticatorSecurityGroupFlags" []);
    ("autoprovisioning", pydef "AddAutoprovisioning" AddAutoprovisioning);
    ("autorepair", pydef "AddAutoRepair" AddAutoRepair);
    ("autoscalingprofiles", flags "AddAutoscalingProfilesFlag" []);
    ("basicauth", flags "AddBasicAuthFlags" []);
    ("cloudlogging", flags "AddEnableCloudLogging" []);
    ("clusterversion", flags "AddClusterVersionFlag" []);
    ("autoupgrade", pydef "AddEnableAutoUpgradeWithDefault" AddEnableAutoUpgradeWithDefault);
    ("binauthz", lambda (flags "AddBinauthzFlags" [("api_version", VStr "v1alpha1")]));
    ("bootdiskkms", flags "AddBootDiskKmsKeyFlag" []);
    ("cloudmonitoring", flags "AddEnableCloudMonitoring" []);
    ("cloudrunalpha", flags "AddEnableCloudRunAlphaFlag" []);
    ("cloudrunconfig", flags "AddCloudRunConfigFlag" []);
    ("clusterautoscaling", partial (flags "AddClusterAutoscalingFlags" []));
    ("clusterdns", flags "AddClusterDNSFlags" []);
    ("placementtype", flags "AddPlacementTypeFlag" []);
    ("confidentialnodes", flags "AddEnableConfidentialNodesFlag" []);
    ("costmanagementconfig", flags "AddCostManagementConfigFlag" []);
    ("databaseencryption", flags "AddDatabaseEncryptionFlag" []);
    ("datapath", lambda (flags "AddDatapathProviderFlag" [("hidden", VBool true)]));
    ("dataplanev2", flags "AddDataplaneV2Flag" []);
    ("disabledefaultsnat", pydef "AddDisableDefaultSnatFlagForClusterCreate" AddDisableDefaultSnatFlagForClusterCreate);
    ("disksize", flags "AddDiskSizeFlag" []);
    ("disktype", flags "AddDiskTypeFlag" []);
    ("gatewayapi", flags "AddGatewayFlags" []);
    ("gcfs", flags "AddEnableGcfsFlag" []);
    ("imagestreaming", flags "AddEnableImageStreamingFlag" []);
    ("gkeoidc", flags "AddGkeOidcFlag" []);
    ("gvnic", flags "AddEnableGvnicFlag" []);
    ("identityservice", flags "AddIdentityServiceFlag" []);
    ("ilbsubsetting", flags "AddILBSubsettingFlags" []);
    ("imageflags", flags "AddImageFlagsCreate" []);
    ("intranodevisibility", flags "AddEnableIntraNodeVisibilityFlag" []);
    ("ipalias", flags "AddIpAliasCoreFlag" []);
    ("ipalias_additional", flags "AddIPAliasRelatedFlags" []);
    ("issueclientcert", flags "AddIssueClientCertificateFlag" []);
    ("istioconfig", flags "AddIstioConfigFlag" []);
    ("kubernetesalpha", flags "AddEnableKubernetesAlphaFlag" []);
    ("labels", flags "AddLabelsFlag" []);
    ("legacyauth", flags "AddEnableLegacyAuthorizationFlag" []);
    ("linuxsysctl", flags "AddLinuxSysctlFlags" []);
    ("localssds", flags "AddLocalSSDsAlphaFlags" []);
    ("logging", flags "AddLoggingFlag" []);
    ("loggingmonitoring", flags "AddEnableLoggingMonitoringSystemOnlyFlag" []);
    ("machinetype", flags "AddMachineTypeFlag" []);
    ("kubernetesobjectsexport", pydef "AddKubernetesObjectsExportFlag" AddKubernetesObjectsExportFlag);
    ("npname", lambda (flags "AddInitialNodePoolNameArg" [("hidden", VBool false)]));
    ("maxunavailable", lambda (flags "AddMaxUnavailableUpgradeFlag" [("is_create", VBool true)]));
    ("masterglobalaccess", flags "AddMasterGlobalAccessFlag" []);
    ("maxnodes", flags "AddMaxNodesPerPool" []);
    ("maxpodspernode", flags "AddMaxPodsPerNodeFlag" []);
    ("maintenancewindow", flags "AddMaintenanceWindowGroup" []);
    ("managedprometheus", lambda (flags "AddManagedPrometheusFlags" [("for_create", VBool true)]));
    ("masterauth", flags "AddMasterAuthorizedNetworksFlags" []);
    ("mastersignals", pydef "AddMasterSignalsFlag" AddMasterSignalsFlag);
    ("meshcertificates", flags "AddMeshCertificatesFlags" []);
    ("metadata", flags "AddMetadataFlags" []);
    ("mincpu", flags "AddMinCpuPlatformFlag" []);
    ("maintenanceinterval", flags "AddMaintenanceIntervalFlag" []);
    ("monitoring", flags "AddMonitoringFlag" []);
    ("networkpolicy", flags "AddNetworkPolicyFlags" []);
    ("nodetaints", flags "AddNodeTaintsFlag" []);
    ("nodeidentity", flags "AddClusterNodeIdentityFlags" []);
    ("nodeversion", flags "AddNodeVersionFlag" []);
    ("nodelabels", flags "AddNodeLabelsFlag" []);
    ("notificationconfig", flags "AddNotificationConfigFlag" []);
    ("num_nodes", flags "AddNumNodes" []);
    ("podsecuritypolicy", flags "AddPodSecurityPolicyFlag" []);
    ("preemptible", flags "AddPreemptibleFlag" []);
    ("privatecluster", AddPrivateClusterDeprecated);
    ("privateipv6", lambda (flags "AddEnablePrivateIpv6AccessFlag" [("hidden", VBool true)]));
    ("privateipv6type", lambda (AddPrivateIPv6Flag "v1alpha1"));
    ("reservationaffinity", flags "AddReservationAffinityFlags" []);
    ("resourceusageexport", flags "AddResourceUsageExportFlags" []);
    ("releasechannel", flags "AddReleaseChannelFlag" []);
    ("shieldedinstance", flags "AddShieldedInstanceFlags" []);
    ("shieldednodes", flags "AddEnableShieldedNodesFlags" []);
    ("spot", flags "AddSpotFlag" []);
    ("stackdriver", flags "AddEnableStackdriverKubernetesFlag" []);
    ("securityprofile", flags "AddSecurityProfileForCreateFlags" []);
    ("stacktype", flags "AddStackTypeFlag" []);
    ("ipv6accesstype", flags "AddIpv6AccessTypeFlag" []);
    ("surgeupgrade", lambda (flags "AddSurgeUpgradeFlag" [("default", VInt 1)]));
    ("systemconfig", lambda (flags "AddSystemConfigFlag" [("hidden", VBool false)]));
    ("tags", flags "AddTagsCreate" []);
    ("autoprovisioning_network_tags", flags "AddAutoprovisioningNetworkTagsCreate" []);
    ("threads_per_core", flags "AddThreadsPerCore" []);
    ("tpu", pydef "AddTpuWithServiceNetworking" AddTpuWithServiceNetworking);
    ("verticalpodautoscaling", flags "AddVerticalPodAutoscalingFlagsExperimental" []);
    ("workloadAlts", flags "AddWorkloadAltsFlags" []);
    ("workloadcertificates", flags "AddWorkloadCertificatesFlags" []);
    ("workloadidentity", lambda (flags "AddWorkloadIdentityFlags" [("arg1", VBool true)]));
    ("tune_gke_metadata_server_cpu", flags "AddWorkloadIdentityCPUFlags" []);
    ("tune_gke_metadata_server_memory", flags "AddWorkloadIdentityMemoryFlags" []);
    ("workloadmetadata", lambda (flags "AddWorkloadMetadataFlag" [("use_mode", VBool false)]));
    ("workloadmonitoringeap", flags "AddEnableWorkloadMonitoringEapFlag" []);
    ("privateEndpointSubnetwork", flags "AddPrivateEndpointSubnetworkFlag" []);
    ("crossConnectNetworks", flags "AddCrossConnectSubnetworksFlag" []);
    ("enableserviceexternalips", flags "AddEnableServiceExternalIPs" []);
    ("disablepodcidroverprovision", flags "AddDisablePodCIDROverprovisionFlag" []);
    ("enableworkloadconfigaudit", flags "AddWorkloadConfigAuditFlag" []);
    ("enableworkloadvulnscanning", flags "AddWorkloadVulnScanningFlag" []);
    ("podautoscalingdirectmetricsoptin", flags "AddPodAutoscalingDirectMetricsOptInFlag" []);
    ("enableGoogleCloudAccess", flags "AddEnableGoogleCloudAccess" []);
    ("managedConfig", flags "AddManagedConfigFlag" []);
    ("loggingvariant", flags "AddLoggingVariantFlag" [])
  ].

Definition flags_to_add (channel : ReleaseTrack) : list (string * Adder) :=
  match channel with
  | GA => flags_to_add_GA
  | BETA => flags_to_add_BETA
  | ALPHA => flags_to_add_ALPHA
  end.

(** The loop of [AddFlags] over the entries of a table. *)
Fixpoint add_each (entries : list (string * Adder)) (parser : Parser)
    (flag_defaults : gmap string value) (allowlist : option (list string))
    : result Parser :=
  match entries with
  | [] => ok parser
  | (flagname, add) :: entries' =>
      let* parser :=
        if match allowlist with
           | None => true
           | Some l => bool_decide (flagname ∈ l)
           end
        then
          match flag_defaults !! flagname with
          | Some d => add (Some d) parser
          | None => add None parser
          end
        else ok parser in
      add_each entries' parser flag_defaults allowlist
  end.

(** [AddFlags(channel, parser, flag_defaults, allowlist=None)] *)
Definition AddFlags (channel : ReleaseTrack) (parser : Parser)
    (flag_defaults : gmap string value) (allowlist : option (list string))
    : result Parser :=
  let add_flag_for_channel := flags_to_add channel in
  add_each add_flag_for_channel parser flag_defaults allowlist.

(** [Create.Args], [CreateBeta.Args] and [CreateAlpha.Args]. *)
Definition Args (track : ReleaseTrack) (parser : Parser) : result Parser :=
  AddFlags track parser base_flag_defaults None.

End Registration.

(** *** [Create.Run] *)

Section Run.
Context {S : Type} {CF : ContainerFlags} {CU : CommandUtil}
  {UT : ContainerUtil} {AD : ApiAdapter S}.

(** [text] is what a log line shows of a value. *)
Definition text (v : value) : string :=
  match v with
  | VStr s => s
  | _ => ""
  end.

(** Lines 1075 to 1147: everything before the mutating call.  The result
    is the cluster reference and the options. *)
Definition prepare (track : ReleaseTrack)
    : M S (ClusterRef * gmap string value) :=
  do args <- get_args;
  do async_ <- lift (attr args "async_");
  do _ <-
    (if truthy async_ then
       do format_specified <- lift (IsSpecified args "format");
       when (negb format_specified)
         (put_args (setattr args "format" OPERATIONS_FORMAT))
     else ret tt);
  do _ <- run_helper CheckKubectlInstalled;
  do args <- get_args;
  do location <- lift (location_get args);
  do name <- lift (attr args "name");
  do cluster_ref <- lift (ParseCluster name location);
  do options <- ParseCreateOptions track location (projectId cluster_ref);
  do _ <-
    when (truthy (opt options "private_cluster")
          && negb (truthy (opt options "enable_master_authorized_networks")
                   || truthy (opt options "master_authorized_networks")))
      (status_Print
         ("Note: `--private-cluster` makes the master inaccessible from "
          ++ "cluster-external IP addresses, by design. To allow limited "
          ++ "access to the master, see the `--master-authorized-networks` flags "
          ++ "and our documentation on setting up private clusters: "
          ++ "https://cloud.google.com/kubernetes-engine/docs/how-to/private-clusters"));
  do _ <-
    (if truthy (opt options "enable_ip_alias") then
       status_Print
         ("Note: The Pod address range limits the maximum size of the cluster. "
          ++ "Please refer to "
          ++ "https://cloud.google.com/kubernetes-engine/docs/how-to/flexible-pod-cidr "
          ++ "to learn how to optimize IP address allocation.")
     else
       let max_node_number :=
         CalculateMaxNodeNumberByPodRange (opt options "cluster_ipv4_cidr") in
       when (0 <? max_node_number)
         (status_Print
            ("Note: Your Pod address range (`--cluster-ipv4-cidr`) can "
             ++ "accommodate at most " ++ pretty max_node_number
             ++ " node(s).")));
  do _ <-
    when (truthy (opt options "enable_l4_ilb_subsetting"))
      (status_Print
         "Note: Once enabled, L4 ILB Subsetting cannot be disabled.");
  do _ <-
    when (truthy (opt options "enable_pod_security_policy"))
      (status_Print
         ("Upcoming breaking change: Kubernetes has officially deprecated "
          ++ "PodSecurityPolicy in version 1.21 and will be removed in 1.25 with "
          ++ "no upgrade path available with this feature enabled. For additional "
          ++ "details, please refer to "
          ++ "https://cloud.google.com/kubernetes-engine/docs/how-to/pod-security-policies"));
  let ga_track := bool_decide (track = GA) in
  do _ <-
    (if ga_track && truthy (opt options "cluster_dns") then
       match opt options "cluster_dns" with
       | VStr cluster_dns =>
           if String.eqb (lower cluster_dns) "clouddns"
              && negb (truthy (opt options "cluster_dns_scope"))
           then throw (UtilError
                  "DNS Scope should be specified when using CloudDNS in GA.")
           else ret tt
       | _ => throw (AttributeError "lower")
       end
     else ret tt);
  do _ <-
    when (truthy (opt options "enable_kubernetes_alpha"))
      (run_helper (PromptContinue KUBERNETES_ALPHA_PROMPT));
  do _ <-
    when (match opt options "accelerators" with VNone => false | _ => true end)
      (status_Print ("Note: " ++ KUBERNETES_GPU_LIMITATION_MSG));
  do _ <-
    when (truthy (opt options "enable_image_streaming"))
      (run_helper
         (CheckForContainerFileSystemApiEnablementWithPrompt
            (projectId cluster_ref)));
  ret (cluster_ref, options).

(** Lines 1150 to 1162: the [try] block.  [inl cluster] is the early
    [return adapter.GetCluster(cluster_ref)] of an asynchronous run;
    [inr (operation, cluster)] falls through to the rest of [Run]. *)
Definition create_and_wait (cluster_ref : ClusterRef)
    (options : gmap string value) : M S (value + value * value) :=
  reraise_HttpError HTTP_ERROR_FORMAT
    (do operation_ref <-
       adapter_call (CallCreateCluster cluster_ref options)
         (CreateCluster cluster_ref options);
     do args <- get_args;
     do async_ <- lift (attr args "async_");
     if truthy async_ then
       do cluster <-
         adapter_call (CallGetCluster cluster_ref) (GetCluster cluster_ref);
       ret (inl cluster)
     else
       let message :=
         "Creating cluster " ++ clusterId cluster_ref ++ " in "
         ++ zone cluster_ref in
       do timeout_s <- lift (attr args "timeout");
       do operation <-
         adapter_call (CallWaitForOperation operation_ref message timeout_s)
           (WaitForOperation operation_ref message timeout_s);
       do cluster <-
         adapter_call (CallGetCluster cluster_ref) (GetCluster cluster_ref);
       ret (inr (operation, cluster))).

(** Lines 1173 to 1176: [try: util.ClusterConfig.Persist(...) except
    kconfig.MissingEnvVarError as error: log.warning(error)] *)
Definition persist (cluster : value) (project_id : string) : M S unit :=
  λ w, match run_helper (Persist cluster project_id) w with
       | (inl (MissingEnvVarError msg), w') => log_warning msg w'
       | r => r
       end.

(** Lines 1164 to 1178: what follows a synchronous creation. *)
Definition report (cluster_ref : ClusterRef) (operation cluster : value)
    : M S value :=
  do _ <- log_CreatedResource cluster_ref;
  let cluster_url := GenerateClusterUrl cluster_ref in
  do _ <- status_Print
            ("To inspect the contents of your cluster, go to: " ++ cluster_url);
  do detail <- lift (getfield operation "detail");
  do _ <- when (truthy detail) (log_warning (text detail));
  do _ <- persist cluster (projectId cluster_ref);
  ret (VSeq [cluster]).

(** [Create.Run(self, args)] for the class of the given track. *)
Definition Run (track : ReleaseTrack) : M S value :=
  do '(cluster_ref, options) <- prepare track;
  do r <- create_and_wait cluster_ref options;
  match r with
  | inl cluster => ret cluster
  | inr (operation, cluster) => report cluster_ref operation cluster
  end.

(** The flag [--format] that the framework gives every command; [Run]
    asks whether it was specified. *)
Definition global_flags (p : Parser) : Parser :=
  add_argument TopLevel "--format" VNone p.

(** The command as a whole: the flags of the track are registered, the
    command line is parsed, and [Run] works on the namespace. *)
Definition Execute (track : ReleaseTrack) (inv : Invocation) : M S value :=
  λ w,
    match
      (let* parser := Args track (global_flags empty_parser) in
       parse_args parser inv)
    with
    | inl e => (inl e, w)
    | inr ns =>
        Run track
          {| args := ns; status := status w; warnings := warnings w;
             created := created w; calls := calls w; provider := provider w |}
    end.

End Run.

End ClustersCreate.

(** ** Sample collaborators

    Concrete stand-ins for the collaborators that are not among the
    sources, used to run the handlers on concrete command lines. *)

Module Sample.
Import Calliope.

Definition digit (c : ascii) : option Z :=
  let n := Z.of_nat (nat_of_ascii c) in
  if (48 <=? n) && (n <=? 57) then Some (n - 48) else None.

Fixpoint decimal (acc : Z) (s : string) : option Z :=
  match s with
  | EmptyString => Some acc
  | String c s' =>
      match digit c with
      | Some d => decimal (10 * acc + d) s'
      | None => None
      end
  end.

(** A rule priority is a decimal number. *)
Definition rule_utils : FirewallPolicyRulesUpdate.RuleUtils :=
  {| FirewallPolicyRulesUpdate.ConvertPriorityToInt := λ v,
       match v with
       | VStr (String c s) =>
           match decimal 0 (String c s) with
           | Some z => ok z
           | None => raise (InvalidArgumentException "priority" "not a number")
           end
       | _ => raise (InvalidArgumentException "priority" "not a number")
       end;
     FirewallPolicyRulesUpdate.ParseLayer4Configs := λ v _,
       match v with
       | VList l =>
           ok (VSeq ((λ s, VMsg "FirewallPolicyRuleMatcherLayer4Config"
                             [("ipProtocol", VStr s)]) <$> l))
       | _ => raise (InvalidArgumentException "layer4_configs" "not a list")
       end |}.

Definition firewall_policies_utils
    : FirewallPolicyRulesUpdate.FirewallPoliciesUtils :=
  {| FirewallPolicyRulesUpdate.BuildSecurityProfileGroupUrl :=
       λ spg _ _ _, ok spg;
     FirewallPolicyRulesUpdate.GetFirewallPolicyId := λ _ fp _, ok fp |}.

(** [update 10 --firewall-policy=123456789 --description=new-example-rule] *)
Definition update_description : Invocation :=
  [("priority", VStr "10");
   ("firewall_policy", VStr "123456789");
   ("description", VStr "new-example-rule")].

(** The same with a flag that only the ALPHA track registers. *)
Definition update_src_fqdns : Invocation :=
  [("priority", VStr "10");
   ("firewall_policy", VStr "123456789");
   ("src_fqdns", VList ["example.com"])].

(** Files load into messages that carry a name. *)
Definition simulator_utils : OrgPolicySimulate.SimulatorUtils :=
  {| OrgPolicySimulate.GetPolicyMessageFromFile := λ path _,
       ok (VMsg "GoogleCloudOrgpolicyV2AlphaPolicyOverlayPolicyOverlay"
             [("policy",
               VMsg "GoogleCloudOrgpolicyV2Policy"
                 [("name", VStr "organizations/123/policies/p")])]);
     OrgPolicySimulate.GetCustomConstraintMessageFromFile := λ path _,
       ok (VMsg "CustomConstraintOverlay"
             [("customConstraint",
               VMsg "GoogleCloudOrgpolicyV2CustomConstraint"
                 [("name", VStr "organizations/123/customConstraints/c")])]);
     OrgPolicySimulate.GetResourceFromPolicyName := λ _,
       ok (VStr "organizations/123");
     OrgPolicySimulate.GetParentFromOrganization := λ _,
       ok (VStr "organizations/123/locations/global") |}.

Definition simulator_api : OrgPolicySimulate.OrgPolicySimulatorApi :=
  {| OrgPolicySimulate.GetOrgPolicyOverlay := λ policies custom_constraints,
       VMsg "OrgPolicyOverlay"
         [("policies", VSeq policies);
          ("customConstraints", VSeq custom_constraints)];
     OrgPolicySimulate.GetPolicysimulatorOrgPolicyViolationsPreview :=
       λ overlay, VMsg "OrgPolicyViolationsPreview" [("overlay", overlay)];
     OrgPolicySimulate.GenerateOrgPolicyViolationsPreviewRequest :=
       λ violations parent,
         VMsg "Request" [("violations_preview", violations);
                         ("parent", parent)];
     OrgPolicySimulate.OrgPolicyViolationsPreviews := λ _,
       ok (VMsg "Operation" [("name", VStr "operations/1")]);
     OrgPolicySimulate.WaitForOperation := λ operation _, ok operation;
     OrgPolicySimulate.ListRequest := λ parent,
       VMsg "ListRequest" [("parent", parent)];
     OrgPolicySimulate.YieldFromList := λ _ _ _ _, ok (VSeq []) |}.

(** [simulate orgpolicy --custom-constraints=constraint.json] *)
Definition simulate_custom_constraints : Invocation :=
  [("custom_constraints", VList ["constraint.json"])].

(** [simulate orgpolicy --policies=policy.json] *)
Definition simulate_policies : Invocation :=
  [("policies", VList ["policy.json"])].

(** [simulate orgpolicy --policies=policy.json
    --custom-constraints=constraint.json] *)
Definition simulate_both : Invocation :=
  [("policies", VList ["policy.json"]);
   ("custom_constraints", VList ["constraint.json"])].

(** *** Cluster creation *)

(** The flags module: helpers validate nothing and warn of nothing;
    [registers] knows the flags that the functions of [create.py] and
    the samples below refer to. *)
Definition container_flags : ClustersCreate.ContainerFlags :=
  {| ClustersCreate.MungeBasicAuthFlags := λ args, ok (args, []);
     ClustersCreate.WarnForUnspecifiedIpAllocationPolicy := λ _, ok (tt, []);
     ClustersCreate.WarnForNodeModification := λ _ _, ok (tt, []);
     ClustersCreate.GetLegacyCloudRunFlag := λ _ _ _, ok (VNone, []);
     ClustersCreate.ValidateCloudRunConfigCreateArgs := λ _ _, ok (tt, []);
     ClustersCreate.ValidateNotificationConfigFlag := λ _, ok (tt, []);
     ClustersCreate.WarnForLocationPolicyDefault := λ _, ok (tt, []);
     ClustersCreate.WarnForNodeVersionAutoUpgrade := λ _, ok (tt, []);
     ClustersCreate.ValidateSurgeUpgradeSettings := λ _, ok (tt, []);
     ClustersCreate.ValidateIstioConfigCreateArgs := λ _ _, ok (tt, []);
     ClustersCreate.registers := λ fn kw,
       if String.eqb fn "AddNodeLocationsFlag" then
         [{| dest := "node_locations"; default_value := VNone |}]
       else if String.eqb fn "AddAsyncFlag" then
         [{| dest := "async_"; default_value := VBool false |}]
       else if String.eqb fn "AddNumNodes" then
         [{| dest := "num_nodes";
             default_value := default VNone (assoc "default" kw) |}]
       else if String.eqb fn "AddIPAliasRelatedFlags" then
         [{| dest := "create_subnetwork"; default_value := VNone |}]
       else [] |}.

Definition command_util : ClustersCreate.CommandUtil :=
  {| ClustersCreate.GetAutoRepair := λ _, ok (VNone, []);
     ClustersCreate.GetAutoUpgrade := λ _, ok (VNone, []);
     ClustersCreate.ConstructMetadataDict := λ _ _, ok (VDict [], []);
     ClustersCreate.BytesToGb := λ v, ok (v, []) |}.

(** Saving the kubeconfig entry works, or fails for want of an
    environment variable when the cluster is named [no-home]. *)
Definition container_util : ClustersCreate.ContainerUtil :=
  {| ClustersCreate.OPERATIONS_FORMAT := VStr "table(name, status)";
     ClustersCreate.HTTP_ERROR_FORMAT :=
       "ResponseError: code={status_code}, message={status_message}";
     ClustersCreate.KUBERNETES_ALPHA_PROMPT := "Alpha clusters are not upgraded.";
     ClustersCreate.KUBERNETES_GPU_LIMITATION_MSG :=
       "Machines with GPUs have certain limitations.";
     ClustersCreate.CheckKubectlInstalled := ok (tt, []);
     ClustersCreate.CalculateMaxNodeNumberByPodRange := λ _, -1;
     ClustersCreate.PromptContinue := λ _, ok (tt, []);
     ClustersCreate.CheckForContainerFileSystemApiEnablementWithPrompt :=
       λ _, ok (tt, []);
     ClustersCreate.GenerateClusterUrl := λ r,
       "https://console.cloud.google.com/kubernetes/workload_/gcloud/"
       ++ ClustersCreate.zone r ++ "/" ++ ClustersCreate.clusterId r
       ++ "?project=" ++ ClustersCreate.projectId r;
     ClustersCreate.Persist := λ cluster _,
       if eq_str (default VNone (field "name" cluster)) "no-home"
       then raise (MissingEnvVarError "HOME is not set")
       else ok (tt, []) |}.

(** A scripted service: what it answers to each of the three calls. *)
Record Script : Type := {
  on_create : result value;
  on_wait : result value;
  on_get : result value
}.

Definition scripted_adapter : ClustersCreate.ApiAdapter Script :=
  {| ClustersCreate.location_get := λ _, ok "us-central1-a";
     ClustersCreate.ParseCluster := λ name location,
       match name with
       | VStr n =>
           ok {| ClustersCreate.projectId := "my-project";
                 ClustersCreate.clusterId := n;
                 ClustersCreate.zone := location |}
       | _ => raise (InvalidArgumentException "name" "not a cluster name")
       end;
     ClustersCreate.CreateCluster := λ _ _ s, (on_create s, s);
     ClustersCreate.WaitForOperation := λ _ _ _ s, (on_wait s, s);
     ClustersCreate.GetCluster := λ _ s, (on_get s, s) |}.

Definition operation_ref : value :=
  VMsg "OperationRef" [("operationId", VStr "operation-1")].

Definition done_with_detail : value :=
  VMsg "Operation"
    [("name", VStr "operation-1"); ("status", VEnum "DONE");
     ("detail", VStr "node pool default-pool is using a deprecated image")].

Definition sample_cluster : value :=
  VMsg "Cluster" [("name", VStr "sample-cluster")].

(** The service creates the cluster and reports a detail. *)
Definition service_ok : Script :=
  {| on_create := ok operation_ref;
     on_wait := ok done_with_detail;
     on_get := ok sample_cluster |}.

(** The service rejects the request. *)
Definition service_rejects : Script :=
  {| on_create := raise (HttpError "409 conflict");
     on_wait := ok done_with_detail;
     on_get := ok sample_cluster |}.

(** The operation succeeds and the cluster can then not be fetched. *)
Definition service_loses_cluster : Script :=
  {| on_create := ok operation_ref;
     on_wait := ok done_with_detail;
     on_get := raise (HttpError "404 not found") |}.

(** The operation fails. *)
Definition service_operation_fails : Script :=
  {| on_create := ok operation_ref;
     on_wait := raise (UtilError "Operation [operation-1] finished with error");
     on_get := ok sample_cluster |}.

(** The world before the command starts. *)
Definition fresh (s : Script) : ClustersCreate.World Script :=
  {| ClustersCreate.args := {| attrs := ∅; specified := ∅ |};
     ClustersCreate.status := [];
     ClustersCreate.warnings := [];
     ClustersCreate.created := [];
     ClustersCreate.calls := [];
     ClustersCreate.provider := s |}.

(** [clusters create sample-cluster] *)
Definition create_sample : Invocation :=
  [("name", VStr "sample-cluster")].

(** [clusters create sample-cluster --additional-zones=us-central1-b
    --node-locations=us-central1-a,us-central1-b] *)
Definition create_with_both_zone_flags : Invocation :=
  [("name", VStr "sample-cluster");
   ("additional_zones", VList ["us-central1-b"]);
   ("node_locations", VList ["us-central1-a"; "us-central1-b"])].

(** The parser of a track, once [Args] has run. *)
Definition parser_of (track : ReleaseTrack) : Parser :=
  match ClustersCreate.Args (CF := container_flags) track
          (ClustersCreate.global_flags empty_parser) with
  | inr p => p
  | inl _ => empty_parser
  end.

(** The world in which [Run] starts: the command line has been parsed. *)
Definition parsed (track : ReleaseTrack) (inv : Invocation) (s : Script)
    : ClustersCreate.World Script :=
  {| ClustersCreate.args := namespace_of (parser_of track) inv;
     ClustersCreate.status := [];
     ClustersCreate.warnings := [];
     ClustersCreate.created := [];
     ClustersCreate.calls := [];
     ClustersCreate.provider := s |}.

(** [clusters create sample-cluster] on GA, up to the mutating call:
    the cluster reference, the options and the world at that point. *)
Definition prepared (s : Script)
    : result (ClustersCreate.ClusterRef * gmap string value)
      * ClustersCreate.World Script :=
  ClustersCreate.prepare (CF := container_flags) (CU := command_util)
    (UT := container_util) (AD := scripted_adapter) GA
    (parsed GA create_sample s).

Definition sample_ref : ClustersCreate.ClusterRef :=
  {| ClustersCreate.projectId := "my-project";
     ClustersCreate.clusterId := "sample-cluster";
     ClustersCreate.zone := "us-central1-a" |}.

(** The cluster reference and the options [prepared] ends with. *)
Definition prepared_ref (s : Script) : option ClustersCreate.ClusterRef :=
  match (prepared s).1 with
  | inr (cluster_ref, _) => Some cluster_ref
  | inl _ => None
  end.

Definition sample_options (s : Script) : gmap string value :=
  match (prepared s).1 with
  | inr (_, options) => options
  | inl _ => ∅
  end.

Definition prepared_world (s : Script) : ClustersCreate.World Script :=
  (prepared s).2.

(** The namespace of the rule update for a command line. *)
Definition update_args (track : ReleaseTrack) (inv : Invocation)
    : Namespace :=
  namespace_of (FirewallPolicyRulesUpdate.Args track empty_parser) inv.

End Sample.


(** * Notions used in the statements *)

(** ** Namespaces *)

Section Agreement.
Import Calliope.

(** Two namespaces that cannot be told apart through the given
    destinations. *)
Definition agree (names : list string) (a1 a2 : Namespace) : Prop :=
  ∀ n, n ∈ names →
    attrs a1 !! n = attrs a2 !! n ∧ (n ∈ specified a1 ↔ n ∈ specified a2).

(** The flag [name] given with value [v]: what the namespace looks like
    when, everything else being equal, the flag is set explicitly. *)
Definition with_flag (name : string) (v : value) (args : Namespace)
    : Namespace :=
  {| attrs := <[name := v]> (attrs args);
     specified := {[name]} ∪ specified args |}.

(** Every mutually exclusive group of [p] is still there in [p'],
    possibly with more members. *)
Definition extends (p p' : Parser) : Prop :=
  ∀ g, g ∈ mutex_groups p → ∃ g', g' ∈ mutex_groups p' ∧ g ⊆ g'.

End Agreement.

(** ** The request shapes of the rule update *)

Module UpdateShapes.
Import FirewallPolicyRulesUpdate.

(** The keywords of [FirewallPolicyRuleMatcher(...)] on each track, as
    written at lines 151 to 174. *)
Definition matcher_fields (track : ReleaseTrack) : list string :=
  match track with
  | GA => ["srcIpRanges"; "destIpRanges"; "layer4Configs"]
  | BETA =>
      ["srcIpRanges"; "destIpRanges"; "layer4Configs"; "srcRegionCodes";
       "destRegionCodes"; "srcThreatIntelligences";
       "destThreatIntelligences"]
  | ALPHA =>
      ["srcIpRanges"; "destIpRanges"; "layer4Configs"; "srcFqdns";
       "destFqdns"; "srcRegionCodes"; "destRegionCodes";
       "srcThreatIntelligences"; "destThreatIntelligences"]
  end.

(** The keywords of [FirewallPolicyRule(...)] on each track, as written
    at lines 182 to 203. *)
Definition rule_fields (track : ReleaseTrack) : list string :=
  match track with
  | ALPHA =>
      ["priority"; "action"; "match"; "direction"; "targetResources";
       "targetServiceAccounts"; "description"; "enableLogging"; "disabled";
       "securityProfileGroup"]
  | _ =>
      ["priority"; "action"; "match"; "direction"; "targetResources";
       "targetServiceAccounts"; "description"; "enableLogging"; "disabled"]
  end.

(** The keyword of the matcher or of the rule that [Run] fills from a
    flag. *)
Definition request_field (flag : string) : option string :=
  if String.eqb flag "src_ip_ranges" then Some "srcIpRanges"
  else if String.eqb flag "dest_ip_ranges" then Some "destIpRanges"
  else if String.eqb flag "layer4_configs" then Some "layer4Configs"
  else if String.eqb flag "target_resources" then Some "targetResources"
  else if String.eqb flag "target_service_accounts"
       then Some "targetServiceAccounts"
  else if String.eqb flag "src_fqdns" then Some "srcFqdns"
  else if String.eqb flag "dest_fqdns" then Some "destFqdns"
  else if String.eqb flag "security_profile_group"
       then Some "securityProfileGroup"
  else if String.eqb flag "src_threat_intelligence"
       then Some "srcThreatIntelligences"
  else if String.eqb flag "dest_threat_intelligence"
       then Some "destThreatIntelligences"
  else if String.eqb flag "src_region_codes" then Some "srcRegionCodes"
  else if String.eqb flag "dest_region_codes" then Some "destRegionCodes"
  else if String.eqb flag "enable_logging" then Some "enableLogging"
  else if String.eqb flag "disabled" then Some "disabled"
  else if String.eqb flag "new_priority" then Some "priority"
  else if String.eqb flag "direction" then Some "direction"
  else if String.eqb flag "action" then Some "action"
  else if String.eqb flag "description" then Some "description"
  else None.

(** The matcher of the rule in an update call, if one was built. *)
Definition matcher_of (call : UpdateCall) : value :=
  default VNone (field "match" (upd_firewall_policy_rule call)).

End UpdateShapes.

(** ** Effects of the cluster creation *)

Module CreateEffects.
Import Calliope ClustersCreate.

Section Footprint.
Context {S : Type}.

(** The world [w] after the namespace object was left as [a] and the
    messages [s1] and [s2] were sent to the status log and to the warning
    log; nothing else differs. *)
Definition upd (w : World S) (a : Namespace) (s1 s2 : list string)
    : World S :=
  {| args := a;
     status := status w ++ s1;
     warnings := warnings w ++ s2;
     created := created w;
     calls := calls w;
     provider := provider w |}.

(** A computation that sees nothing of the world but the namespace
    object, and changes nothing but that object and the two logs: from
    two worlds with the same namespace it returns the same result, leaves
    the same namespace and emits the same messages. *)
Definition oblivious {A : Type} (m : M S A) : Prop :=
  ∀ w1 w2, args w1 = args w2 →
    ∃ r a s1 s2, m w1 = (r, upd w1 a s1 s2) ∧ m w2 = (r, upd w2 a s1 s2).

(** A computation that leaves the namespace object as it found it. *)
Definition keeps_args {A : Type} (m : M S A) : Prop :=
  ∀ w, args (m w).2 = args w.

(** The world [w] after the adapter call [c] that left the service in
    state [s]. *)
Definition called (w : World S) (c : AdapterCall) (s : S) : World S :=
  {| args := args w; status := status w; warnings := warnings w;
     created := created w; calls := calls w ++ [c]; provider := s |}.

(** What the [except] clause of [Run] makes of an exception. *)
Definition surfaced (fmt : string) (e : exn) : exn :=
  match e with
  | HttpError payload => HttpException payload fmt
  | _ => e
  end.

(** The calls that issue the mutating request. *)
Definition is_create (c : AdapterCall) : bool :=
  match c with
  | CallCreateCluster _ _ => true
  | _ => false
  end.

(** The message that [Run] hands to [WaitForOperation]. *)
Definition waiting_message (cluster_ref : ClusterRef) : string :=
  "Creating cluster " ++ clusterId cluster_ref ++ " in " ++ zone cluster_ref.

End Footprint.

(** What has become of the namespace [a] when a computation that hands
    it to [flags.MungeBasicAuthFlags], and assigns to it nowhere else,
    ends in [r]: after a return the namespace is the one that
    [MungeBasicAuthFlags] returned for [a]; after an exception it is that
    one, or [a] itself when the exception came first. *)
Definition left_by_munge {S : Type} {CF : ContainerFlags} {A : Type}
    (a : Namespace) (r : result A * World S) : Prop :=
  match r.1 with
  | inr _ => ∃ msgs, MungeBasicAuthFlags a = ok (args r.2, msgs)
  | inl _ =>
      args r.2 = a ∨ ∃ msgs, MungeBasicAuthFlags a = ok (args r.2, msgs)
  end.

Definition munges {S : Type} {CF : ContainerFlags} {A : Type} (m : M S A)
    : Prop :=
  ∀ w, left_by_munge (args w) (m w).


(** An entry of the flag tables only adds to the parser. *)
Definition monotone {CF : ContainerFlags} (add : Adder) : Prop :=
  ∀ dflt p p', add dflt p = ok p' → extends p p'.

End CreateEffects.

(** ** The flags that feed the matcher of the rule update *)

Module UpdateFlags.

(** The flags whose [IsSpecified] block sets [should_setup_match], on
    each track (lines 99 to 138). *)
Definition matcher_flags (track : ReleaseTrack) : list string :=
  match track with
  | GA => ["src_ip_ranges"; "dest_ip_ranges"; "layer4_configs"]
  | BETA =>
      ["src_ip_ranges"; "dest_ip_ranges"; "layer4_configs";
       "src_threat_intelligence"; "dest_threat_intelligence";
       "src_region_codes"; "dest_region_codes"]
  | ALPHA =>
      ["src_ip_ranges"; "dest_ip_ranges"; "layer4_configs"; "src_fqdns";
       "dest_fqdns"; "src_threat_intelligence"; "dest_threat_intelligence";
       "src_region_codes"; "dest_region_codes"]
  end.

(** The list flags that [Run] copies as they are into a keyword of the
    matcher: the destination and the keyword.  [layer4_configs] is not
    among them, it goes through [ParseLayer4Configs]. *)
Definition copied_into_matcher : list (string * string) :=
  [("src_ip_ranges", "srcIpRanges");
   ("dest_ip_ranges", "destIpRanges");
   ("src_fqdns", "srcFqdns");
   ("dest_fqdns", "destFqdns");
   ("src_region_codes", "srcRegionCodes");
   ("dest_region_codes", "destRegionCodes");
   ("src_threat_intelligence", "srcThreatIntelligences");
   ("dest_threat_intelligence", "destThreatIntelligences")].

End UpdateFlags.

(** Command lines for the rule update. *)
Module UpdateSamples.
Import Calliope.

(** [update 10 --firewall-policy=123456789 --src-ip-ranges=10.0.0.0/8] *)
Definition update_src_ip_ranges : Invocation :=
  [("priority", VStr "10");
   ("firewall_policy", VStr "123456789");
   ("src_ip_ranges", VList ["10.0.0.0/8"])].

(** [update 10 --firewall-policy=123456789 --new-priority=20
    --direction=ingress] *)
Definition update_new_priority : Invocation :=
  [("priority", VStr "10");
   ("firewall_policy", VStr "123456789");
   ("new_priority", VStr "20");
   ("direction", VStr "ingress")].

End UpdateSamples.

(** ** The files that the simulation has loaded *)

Module SimulateShapes.
Import OrgPolicySimulate.

Section Loaded.
Context {SU : SimulatorUtils}.

(** [m] is what the loop of lines 100 to 107 appends for the file
    [path]: the message read from the file, which has a name. *)
Definition loaded_policy (track : ReleaseTrack) (path m : value) : Prop :=
  GetPolicyMessageFromFile path track = ok m
  ∧ ∃ p name,
      getfield m "policy" = ok p ∧ getfield p "name" = ok name
      ∧ truthy name = true.

(** The same for the loop of lines 109 to 117. *)
Definition loaded_constraint (track : ReleaseTrack) (path m : value) : Prop :=
  GetCustomConstraintMessageFromFile path track = ok m
  ∧ ∃ c name,
      getfield m "customConstraint" = ok c ∧ getfield c "name" = ok name
      ∧ truthy name = true.

End Loaded.

(** What [Run] raises when neither flag is given. *)
Definition neither_flag : exn :=
  ConflictingArgumentsException
    "Must specify either --policies or --custom-constraints or both.".

End SimulateShapes.

(** Collaborators and command lines for the simulation. *)
Module SimulateSamples.
Import Calliope.

(** A policy file named [nameless.json] loads into a policy without a
    name; any other file loads into a policy named after the file. *)
Definition simulator_utils : OrgPolicySimulate.SimulatorUtils :=
  {| OrgPolicySimulate.GetPolicyMessageFromFile := λ path _,
       match path with
       | VStr file =>
           ok (VMsg "GoogleCloudOrgpolicyV2AlphaPolicyOverlayPolicyOverlay"
                 [("policy",
                   VMsg "GoogleCloudOrgpolicyV2Policy"
                     (if String.eqb file "nameless.json" then []
                      else [("name",
                             VStr ("organizations/123/policies/" ++ file))]))])
       | _ => raise (InvalidArgumentException "policies" "not a path")
       end;
     OrgPolicySimulate.GetCustomConstraintMessageFromFile := λ path _,
       ok (VMsg "CustomConstraintOverlay"
             [("customConstraint",
               VMsg "GoogleCloudOrgpolicyV2CustomConstraint"
                 [("name", VStr "organizations/123/customConstraints/c")])]);
     OrgPolicySimulate.GetResourceFromPolicyName := λ name, ok name;
     OrgPolicySimulate.GetParentFromOrganization := λ resource, ok resource |}.

(** [simulate orgpolicy] *)
Definition simulate_nothing : Invocation := [].

(** [simulate orgpolicy --policies=a.json,b.json
    --custom-constraints=c.json] *)
Definition simulate_two_policies : Invocation :=
  [("policies", VList ["a.json"; "b.json"]);
   ("custom_constraints", VList ["c.json"])].

(** [simulate orgpolicy --policies=a.json,nameless.json,b.json
    --custom-constraints=c.json] *)
Definition simulate_nameless : Invocation :=
  [("policies", VList ["a.json"; "nameless.json"; "b.json"]);
   ("custom_constraints", VList ["c.json"])].

Definition simulate_args (inv : Invocation) : Namespace :=
  namespace_of (OrgPolicySimulate._ArgsAlpha empty_parser) inv.

End SimulateSamples.

(** Collaborators, services and command lines for the cluster
    creation. *)
Module CreateSamples.
Import Calliope.

(** The flags module of [Sample.container_flags], which knows the DNS
    flags and the cloud logging flag as well. *)
Definition container_flags : ClustersCreate.ContainerFlags :=
  {| ClustersCreate.MungeBasicAuthFlags := λ args, ok (args, []);
     ClustersCreate.WarnForUnspecifiedIpAllocationPolicy := λ _, ok (tt, []);
     ClustersCreate.WarnForNodeModification := λ _ _, ok (tt, []);
     ClustersCreate.GetLegacyCloudRunFlag := λ _ _ _, ok (VNone, []);
     ClustersCreate.ValidateCloudRunConfigCreateArgs := λ _ _, ok (tt, []);
     ClustersCreate.ValidateNotificationConfigFlag := λ _, ok (tt, []);
     ClustersCreate.WarnForLocationPolicyDefault := λ _, ok (tt, []);
     ClustersCreate.WarnForNodeVersionAutoUpgrade := λ _, ok (tt, []);
     ClustersCreate.ValidateSurgeUpgradeSettings := λ _, ok (tt, []);
     ClustersCreate.ValidateIstioConfigCreateArgs := λ _ _, ok (tt, []);
     ClustersCreate.registers := λ fn kw,
       if String.eqb fn "AddClusterDNSFlags" then
         [{| dest := "cluster_dns"; default_value := VNone |};
          {| dest := "cluster_dns_scope"; default_value := VNone |};
          {| dest := "cluster_dns_domain"; default_value := VNone |}]
       else if String.eqb fn "AddEnableCloudLogging" then
         [{| dest := "enable_cloud_logging"; default_value := VBool true |}]
       else
         ClustersCreate.registers (ContainerFlags := Sample.container_flags)
           fn kw |}.

(** The cluster that the service returns is named [no-home], for which
    [Sample.container_util] cannot save the kubeconfig entry. *)
Definition service_no_home : Sample.Script :=
  {| Sample.on_create := ok Sample.operation_ref;
     Sample.on_wait := ok Sample.done_with_detail;
     Sample.on_get := ok (VMsg "Cluster" [("name", VStr "no-home")]) |}.

(** [clusters create sample-cluster --async] *)
Definition create_async : Invocation :=
  [("name", VStr "sample-cluster"); ("async_", VBool true)].

(** [clusters create sample-cluster --cluster-dns=CloudDNS] *)
Definition create_cloud_dns : Invocation :=
  [("name", VStr "sample-cluster"); ("cluster_dns", VStr "CloudDNS")].

(** [clusters create sample-cluster --cluster-dns=CloudDNS
    --cluster-dns-scope=cluster] *)
Definition create_cloud_dns_scoped : Invocation :=
  [("name", VStr "sample-cluster"); ("cluster_dns", VStr "CloudDNS");
   ("cluster_dns_scope", VStr "cluster")].

(** [clusters create sample-cluster --no-enable-cloud-logging] *)
Definition create_without_cloud_logging : Invocation :=
  [("name", VStr "sample-cluster"); ("enable_cloud_logging", VBool false)].

(** The parser of a track, once [Args] has run. *)
Definition parser_of (track : ReleaseTrack) : Parser :=
  match ClustersCreate.Args (CF := container_flags) track
          (ClustersCreate.global_flags empty_parser) with
  | inr p => p
  | inl _ => empty_parser
  end.

(** The world in which [Run] starts: the command line has been parsed. *)
Definition parsed (track : ReleaseTrack) (inv : Invocation) (s : Sample.Script)
    : ClustersCreate.World Sample.Script :=
  {| ClustersCreate.args := namespace_of (parser_of track) inv;
     ClustersCreate.status := [];
     ClustersCreate.warnings := [];
     ClustersCreate.created := [];
     ClustersCreate.calls := [];
     ClustersCreate.provider := s |}.

(** The run up to the mutating call. *)
Definition prepared (UT : ClustersCreate.ContainerUtil)
    (track : ReleaseTrack) (inv : Invocation) (s : Sample.Script)
    : result (ClustersCreate.ClusterRef * gmap string value)
      * ClustersCreate.World Sample.Script :=
  ClustersCreate.prepare (CF := container_flags) (CU := Sample.command_util)
    (UT := UT) (AD := Sample.scripted_adapter) track (parsed track inv s).

(** The option parsing of a track on a command line. *)
Definition parse_options (track : ReleaseTrack) (inv : Invocation)
    (s : Sample.Script)
    : result (gmap string value) * ClustersCreate.World Sample.Script :=
  ClustersCreate.ParseCreateOptions (CF := container_flags)
    (CU := Sample.command_util) track "us-central1-a" "my-project"
    (parsed track inv s).

(** The cluster reference and the options of a prepared run. *)
Definition ref_of {W : Type}
    (r : result (ClustersCreate.ClusterRef * gmap string value) * W)
    : option ClustersCreate.ClusterRef :=
  match r.1 with
  | inr (cluster_ref, _) => Some cluster_ref
  | inl _ => None
  end.

Definition options_of {W : Type}
    (r : result (ClustersCreate.ClusterRef * gmap string value) * W)
    : gmap string value :=
  match r.1 with
  | inr (_, options) => options
  | inl _ => ∅
  end.

(** Whether option parsing returned, and the options it returned. *)
Definition returns {A W : Type} (r : result A * W) : bool :=
  match r.1 with
  | inr _ => true
  | inl _ => false
  end.

Definition returned {W : Type} (r : result (gmap string value) * W)
    : gmap string value :=
  match r.1 with
  | inr options => options
  | inl _ => ∅
  end.

(** The exception of a run that raised. *)
Definition raised {A W : Type} (r : result A * W) : option exn :=
  match r.1 with
  | inl e => Some e
  | inr _ => None
  end.

(** A flags module like [container_flags] whose [MungeBasicAuthFlags]
    does write to the namespace it is handed: it sets [args.username]. *)
Definition munging_flags : ClustersCreate.ContainerFlags :=
  {| ClustersCreate.MungeBasicAuthFlags := λ args,
       ok (setattr args "username" (VStr "admin"), []);
     ClustersCreate.WarnForUnspecifiedIpAllocationPolicy := λ _, ok (tt, []);
     ClustersCreate.WarnForNodeModification := λ _ _, ok (tt, []);
     ClustersCreate.GetLegacyCloudRunFlag := λ _ _ _, ok (VNone, []);
     ClustersCreate.ValidateCloudRunConfigCreateArgs := λ _ _, ok (tt, []);
     ClustersCreate.ValidateNotificationConfigFlag := λ _, ok (tt, []);
     ClustersCreate.WarnForLocationPolicyDefault := λ _, ok (tt, []);
     ClustersCreate.WarnForNodeVersionAutoUpgrade := λ _, ok (tt, []);
     ClustersCreate.ValidateSurgeUpgradeSettings := λ _, ok (tt, []);
     ClustersCreate.ValidateIstioConfigCreateArgs := λ _ _, ok (tt, []);
     ClustersCreate.registers :=
       ClustersCreate.registers (ContainerFlags := container_flags) |}.

(** The service answers [503] when the cluster is fetched, after the
    operation has completed. *)
Definition service_fetch_unavailable : Sample.Script :=
  {| Sample.on_create := ok Sample.operation_ref;
     Sample.on_wait := ok Sample.done_with_detail;
     Sample.on_get := raise (HttpError "503 unavailable") |}.

(** The service answers [503] when the operation is polled. *)
Definition service_wait_unavailable : Sample.Script :=
  {| Sample.on_create := ok Sample.operation_ref;
     Sample.on_wait := raise (HttpError "503 unavailable");
     Sample.on_get := ok Sample.sample_cluster |}.

(** The service answers [503] to the request itself. *)
Definition service_create_unavailable : Sample.Script :=
  {| Sample.on_create := raise (HttpError "503 unavailable");
     Sample.on_wait := ok Sample.done_with_detail;
     Sample.on_get := ok Sample.sample_cluster |}.

(** The operation completes, and the adapter reports with a
    [util.Error] that it cannot find the cluster. *)
Definition service_fetch_error : Sample.Script :=
  {| Sample.on_create := ok Sample.operation_ref;
     Sample.on_wait := ok Sample.done_with_detail;
     Sample.on_get := raise (UtilError "No cluster named 'sample-cluster'") |}.

(** What [clusters create sample-cluster] on GA raises with a given
    service, if it raises. *)
Definition surfaced_by (s : Sample.Script) : option exn :=
  raised
    (ClustersCreate.Run (CF := container_flags) (CU := Sample.command_util)
       (UT := Sample.container_util) (AD := Sample.scripted_adapter) GA
       (parsed GA Sample.create_sample s)).





End CreateSamples.

(** ** What an entry of the flag tables does with a default *)

Module CreateRegistration.
Import Calliope ClustersCreate.

(** An entry for which the call [f(parser, default=d)] is the
    [TypeError] that Python raises for [callee], whatever [d] and the
    parser. *)
Definition rejects_default (callee : string) (add : Adder) : Prop :=
  ∀ d p, add (Some d) p = raise (TypeError (unexpected_keyword_default callee)).

(** The keys of each table whose entry is written in [create.py] as a
    [lambda] or as a function of the file that has no [default]
    parameter, each with the name Python gives the callee. *)
Definition without_default (channel : ReleaseTrack)
    : list (string * string) :=
  match channel with
  | GA =>
      [("accelerator", "<lambda>");
       ("additionalzones", "_AddAdditionalZonesFlag");
       ("autorepair", "AddAutoRepair");
       ("autoprovisioning", "AddAutoprovisioning");
       ("autoupgrade", "AddEnableAutoUpgradeWithDefault");
       ("args", "_Args");
       ("binauthz", "<lambda>");
       ("disabledefaultsnat", "AddDisableDefaultSnatFlagForClusterCreate");
       ("privateipv6type", "<lambda>");
       ("spot", "<lambda>");
       ("surgeupgrade", "<lambda>");
       ("systemconfig", "<lambda>")]
  | BETA =>
      [("accelerator", "<lambda>");
       ("additionalzones", "_AddAdditionalZonesGroup");
       ("args", "_Args");
       ("autorepair", "AddAutoRepair");
       ("autoprovisioning", "AddAutoprovisioning");
       ("autoupgrade", "AddEnableAutoUpgradeWithDefault");
       ("binauthz", "<lambda>");
       ("datapath", "<lambda>");
       ("disabledefaultsnat", "AddDisableDefaultSnatFlagForClusterCreate");
       ("kubernetesobjectsexport", "AddKubernetesObjectsExportFlag");
       ("managedprometheus", "<lambda>");
       ("mastersignals", "AddMasterSignalsFlag");
       ("maxunavailable", "<lambda>");
       ("privateipv6type", "<lambda>");
       ("surgeupgrade", "<lambda>");
       ("systemconfig", "<lambda>");
       ("tpu", "AddTpuWithServiceNetworking");
       ("workloadidentity", "<lambda>");
       ("workloadmetadata", "<lambda>")]
  | ALPHA =>
      [("accelerator", "<lambda>");
       ("additionalzones", "_AddAdditionalZonesGroup");
       ("args", "_Args");
       ("autoprovisioning", "AddAutoprovisioning");
       ("autorepair", "AddAutoRepair");
       ("autoupgrade", "AddEnableAutoUpgradeWithDefault");
       ("binauthz", "<lambda>");
       ("datapath", "<lambda>");
       ("disabledefaultsnat", "AddDisableDefaultSnatFlagForClusterCreate");
       ("kubernetesobjectsexport", "AddKubernetesObjectsExportFlag");
       ("npname", "<lambda>");
       ("maxunavailable", "<lambda>");
       ("managedprometheus", "<lambda>");
       ("mastersignals", "AddMasterSignalsFlag");
       ("privateipv6", "<lambda>");
       ("privateipv6type", "<lambda>");
       ("surgeupgrade", "<lambda>");
       ("systemconfig", "<lambda>");
       ("tpu", "AddTpuWithServiceNetworking");
       ("workloadidentity", "<lambda>");
       ("workloadmetadata", "<lambda>")]
  end.

(** An entry that can be called as [f(parser)]. *)
Definition callable (add : Adder) : Prop :=
  ∀ p, ∃ p', add None p = ok p'.

(** An entry that, when it returns, has only appended to the arguments
    of the parser. *)
Definition appends (add : Adder) : Prop :=
  ∀ dflt p p', add dflt p = ok p' → arguments p `prefix_of` arguments p'.

End CreateRegistration.

(** * Properties *)

Local Open Scope list_scope.

(** ** The error monad *)

Lemma rbind_ok {A B : Type} (m : result A) (f : A → result B) (b : B) :
  rbind m f = ok b → ∃ a, m = ok a ∧ f a = ok b.
Proof.
  destruct m as [e | a]; simpl; intros Hb; [discriminate | eauto].
Qed.

(** Inversion of a chain of binds that returned. *)
Ltac invert_ok H :=
  repeat match type of H with
         | rbind _ _ = _ =>
             let x := fresh "x" in
             let Hx := fresh "Hx" in
             apply rbind_ok in H as (x & Hx & H)
         end.

(** A decidable fact about literals, by evaluation. *)
Ltac in_list := apply (bool_decide_unpack _); vm_compute; exact I.

(** ** Reading the namespace *)

Section NamespaceFacts.
Import Calliope.

Lemma agree_attr names a1 a2 n :
  agree names a1 a2 → n ∈ names → attr a1 n = attr a2 n.
Proof. intros Ha Hn. unfold attr. by destruct (Ha n Hn) as [-> _]. Qed.

Lemma agree_IsSpecified names a1 a2 n :
  agree names a1 a2 → n ∈ names → IsSpecified a1 n = IsSpecified a2 n.
Proof.
  intros Ha Hn. unfold IsSpecified. destruct (Ha n Hn) as [-> Hs].
  destruct (attrs a2 !! n); [| done].
  f_equal. by apply bool_decide_ext.
Qed.

Lemma agree_with_flag names name v args :
  name ∉ names → agree names (with_flag name v args) args.
Proof.
  intros Hname n Hn. assert (Hne : name ≠ n) by (intros ->; done).
  unfold with_flag; simpl. split.
  - by rewrite lookup_insert_ne.
  - rewrite elem_of_union, elem_of_singleton.
    split; [intros [-> | Hin]; [done | exact Hin] | by right].
Qed.

(** *** Parsing *)

Lemma parse_args_unknown p inv O :
  mutex_groups p = [] → O ∈ given inv → O ∉ dests p →
  ∃ O', (O' ∉ dests p) ∧ parse_args p inv = raise (UnsupportedOptionError O').
Proof.
  intros Hg Hin Hout. unfold parse_args. rewrite Hg. simpl.
  destruct (filter (λ d, d ∉ dests p) (given inv)) as [| d l] eqn:Hf.
  - assert (Hd : O ∈ filter (λ d, d ∉ dests p) (given inv))
      by (apply list_elem_of_filter; done).
    rewrite Hf in Hd. by apply elem_of_nil in Hd.
  - exists d. split; [| done].
    assert (Hd : d ∈ filter (λ d, d ∉ dests p) (given inv))
      by (rewrite Hf; apply list_elem_of_here).
    by apply list_elem_of_filter in Hd as [Hd _].
Qed.

Lemma parse_args_known p inv :
  mutex_groups p = [] → (∀ d, d ∈ given inv → d ∈ dests p) →
  parse_args p inv = ok (namespace_of p inv).
Proof.
  intros Hg Hall. unfold parse_args. rewrite Hg. simpl.
  destruct (filter (λ d, d ∉ dests p) (given inv)) as [| d l] eqn:Hf.
  - done.
  - assert (Hd : d ∈ filter (λ d, d ∉ dests p) (given inv))
      by (rewrite Hf; apply list_elem_of_here).
    apply list_elem_of_filter in Hd as [Hd Hin]. by destruct Hd; auto.
Qed.

Lemma namespace_of_hasattr p inv O :
  O ∉ dests p → O ∉ given inv → hasattr (namespace_of p inv) O = false.
Proof.
  intros Hp Hinv. unfold hasattr, namespace_of; simpl.
  rewrite lookup_union.
  rewrite (not_elem_of_list_to_map_1 (reverse inv) O).
  - rewrite (not_elem_of_list_to_map_1 _ O); [done |].
    rewrite <- list_fmap_compose. exact Hp.
  - unfold given in Hinv. by rewrite fmap_reverse, elem_of_reverse.
Qed.

End NamespaceFacts.

(** ** The rule update *)

Section UpdateFacts.
Import Calliope FirewallPolicyRulesUpdate UpdateShapes.
Context {RU : RuleUtils} {FPU : FirewallPoliciesUtils}.

(** A block [if args.IsSpecified(name): ...] keeps whatever its body
    keeps. *)
Lemma if_specified_keeps (P : Locals → Prop) args name body l l' :
  if_specified args name body l = ok l' →
  (∀ l l', body l = ok l' → P l → P l') → P l → P l'.
Proof.
  intros H Hbody HP. unfold if_specified in H.
  apply rbind_ok in H as ([] & _ & H).
  - eauto.
  - injection H as <-. done.
Qed.

(** A block whose flag was not specified does nothing. *)
Lemma if_specified_skip args name body l l' :
  IsSpecified args name = ok false →
  if_specified args name body l = ok l' → l' = l.
Proof.
  intros Hs H. unfold if_specified in H. rewrite Hs in H. simpl in H.
  by injection H.
Qed.

(** The body of a block, once it returned, has only done assignments. *)
Ltac body_keeps :=
  let l0 := fresh "l" in
  let l1 := fresh "l" in
  let Hb := fresh "Hb" in
  let HP := fresh "HP" in
  intros l0 l1 Hb HP; cbv beta in Hb; invert_ok Hb; injection Hb as <-;
  simpl; exact HP.

(** Turns every block of [read_flags] into the fact that it keeps [P],
    and then walks from the locals at the start to those at the end. *)
Ltac through_blocks P :=
  repeat match goal with
         | H : if_specified _ _ _ ?a = ok ?b |- _ =>
             let K := fresh "K" in
             pose proof (if_specified_keeps P _ _ _ _ _ H) as K;
             specialize (K ltac:(body_keeps));
             cbv beta in K; clear H
         | H : ok ?a = ok ?b |- _ => injection H as <-
         end;
  eauto 20.

Ltac split_blocks H :=
  unfold read_flags in H; invert_ok H;
  repeat match goal with
         | H' : (if bool_decide _ then _ else _) = _ |- _ =>
             case_bool_decide; invert_ok H'
         end.

(** [read_flags] assigns neither [matcher] nor [traffic_direct]. *)
Lemma read_flags_matcher track args c l l' :
  read_flags track args c l = ok l' →
  matcher l' = matcher l ∧ traffic_direct l' = traffic_direct l.
Proof.
  intros H. split_blocks H.
  all: through_blocks
         (λ x, matcher x = matcher l ∧ traffic_direct x = traffic_direct l).
Qed.

(** A flag that was not specified leaves its local variable alone. *)
Ltac skip_block name Hs :=
  match goal with
  | H : if_specified _ name _ ?a = ok ?b |- _ =>
      apply (if_specified_skip _ _ _ _ _ Hs) in H; subst b
  end.

Lemma read_flags_enable_logging track args c l l' :
  IsSpecified args "enable_logging" = ok false →
  read_flags track args c l = ok l' →
  enable_logging l' = enable_logging l.
Proof.
  intros Hs H. split_blocks H.
  all: skip_block "enable_logging" Hs;
    through_blocks (λ x, enable_logging x = enable_logging l).
Qed.

Lemma read_flags_disabled track args c l l' :
  IsSpecified args "disabled" = ok false →
  read_flags track args c l = ok l' →
  disabled l' = disabled l.
Proof.
  intros Hs H. split_blocks H.
  all: skip_block "disabled" Hs;
    through_blocks (λ x, disabled x = disabled l).
Qed.

(** What a returning [Run] has gone through. *)
Lemma Run_ok_inv track args call :
  Run track args = ok call →
  ∃ ref l1 l2 new_priority action description,
    ResolveAsResource args = ok ref
    ∧ ConvertPriorityToInt (VStr (Name ref)) = ok (upd_priority call)
    ∧ read_flags track args
        {| policy_ref := ref; policy_version := text_type_lower track |}
        init_locals = ok l1
    ∧ (IsSpecified args "new_priority" = ok false →
       new_priority = upd_priority call)
    ∧ matcher l2
      = (if should_setup_match l1 then build_matcher track l1 else VNone)
    ∧ enable_logging l2 = enable_logging l1
    ∧ disabled l2 = disabled l1
    ∧ attr args "action" = ok action
    ∧ attr args "description" = ok description
    ∧ upd_firewall_policy_rule call
      = build_rule track new_priority action description l2.
Proof.
  intros H. unfold Run in H.
  apply rbind_ok in H as (ref & Href & H).
  apply rbind_ok in H as (priority & Hpriority & H).
  apply rbind_ok in H as (l1 & Hl1 & H).
  apply rbind_ok in H as (b & Hb & H).
  apply rbind_ok in H as (new_priority & Hnew & H).
  apply rbind_ok in H as (l2 & Hl2 & H).
  apply rbind_ok in H as (action & Haction & H).
  apply rbind_ok in H as (description & Hdescription & H).
  invert_ok H. injection H as <-. simpl.
  exists ref, l1, l2, new_priority, action, description.
  destruct (read_flags_matcher _ _ _ _ _ Hl1) as [Hm _].
  split_and!; try done.
  - intros Hs. rewrite Hs in Hb. injection Hb as <-. by injection Hnew.
  - revert Hl2. generalize l2.
    destruct (should_setup_match l1); intros l3 Hl3.
    + through_blocks (λ x, matcher x = build_matcher track l1).
    + through_blocks (λ x, matcher x = VNone).
  - revert Hl2. generalize l2.
    destruct (should_setup_match l1); intros l3 Hl3;
      through_blocks (λ x, enable_logging x = enable_logging l1).
  - revert Hl2. generalize l2.
    destruct (should_setup_match l1); intros l3 Hl3;
      through_blocks (λ x, disabled x = disabled l1).
Qed.

Lemma track_is_not_alpha track :
  track ≠ ALPHA → bool_decide (track = ALPHA) = false.
Proof. intros Hne. by apply bool_decide_eq_false_2. Qed.

(** Replaces every read of a registered destination in [a1]. *)
Ltac agree_reads a1 Hattr Hspec :=
  repeat match goal with
         | |- context [attr a1 ?n] => rewrite (Hattr n) by in_list
         | |- context [IsSpecified a1 ?n] => rewrite (Hspec n) by in_list
         end.

(** [Run] reads the namespace only through the destinations that
    [Args] registers for the track. *)
Lemma Run_agree track a1 a2 :
  agree (dests (Args track empty_parser)) a1 a2 →
  Run track a1 = Run track a2.
Proof.
  intros Ha.
  assert (Hattr : ∀ n, n ∈ dests (Args track empty_parser) →
                       attr a1 n = attr a2 n)
    by (intros n Hn; exact (agree_attr _ _ _ _ Ha Hn)).
  assert (Hspec : ∀ n, n ∈ dests (Args track empty_parser) →
                       IsSpecified a1 n = IsSpecified a2 n)
    by (intros n Hn; exact (agree_IsSpecified _ _ _ _ Ha Hn)).
  clear Ha.
  unfold Run, ResolveAsResource, read_flags, if_specified.
  destruct track.
  - rewrite !(bool_decide_eq_false_2 (GA = ALPHA)) by done.
    rewrite !(bool_decide_eq_false_2 (GA ∈ [ALPHA; BETA]))
      by (intros Hin; apply list_elem_of_In in Hin; simpl in Hin;
          intuition discriminate).
    cbv iota. agree_reads a1 Hattr Hspec. reflexivity.
  - rewrite !(bool_decide_eq_false_2 (BETA = ALPHA)) by done.
    rewrite !(bool_decide_eq_true_2 (BETA ∈ [ALPHA; BETA]))
      by in_list.
    cbv iota. agree_reads a1 Hattr Hspec. reflexivity.
  - rewrite !(bool_decide_eq_true_2 (ALPHA = ALPHA)) by done.
    rewrite !(bool_decide_eq_true_2 (ALPHA ∈ [ALPHA; BETA]))
      by in_list.
    cbv iota. agree_reads a1 Hattr Hspec. reflexivity.
Qed.

Lemma Args_no_groups track : mutex_groups (Args track empty_parser) = [].
Proof. by destruct track. Qed.

Lemma build_rule_priority track new_priority action description l :
  field "priority" (build_rule track new_priority action description l)
  = Some (VInt new_priority).
Proof. unfold build_rule. by case_bool_decide. Qed.

Lemma build_rule_booleans track new_priority action description l :
  field "enableLogging" (build_rule track new_priority action description l)
  = Some (enable_logging l)
  ∧ field "disabled" (build_rule track new_priority action description l)
    = Some (disabled l).
Proof. unfold build_rule. by case_bool_decide. Qed.

Lemma build_rule_match track new_priority action description l :
  field "match" (build_rule track new_priority action description l)
  = Some (matcher l).
Proof. unfold build_rule. by case_bool_decide. Qed.

Lemma build_matcher_fields track l :
  field_names (build_matcher track l) = matcher_fields track.
Proof. by destruct track. Qed.

(** The matcher of a call is absent or has the shape of the track. *)
Lemma Run_matcher_shape track args call :
  Run track args = ok call →
  matcher_of call = VNone
  ∨ field_names (matcher_of call) = matcher_fields track.
Proof.
  intros H.
  apply Run_ok_inv in H
    as (ref & l1 & l2 & np & a & d & _ & _ & _ & _ & Hm & _ & _ & _ & _ & Hr).
  unfold matcher_of. rewrite Hr, build_rule_match, Hm. simpl.
  destruct (should_setup_match l1); [right | by left].
  apply build_matcher_fields.
Qed.

(** The keywords of the rule of a call. *)
Lemma Run_rule_fields track args call :
  Run track args = ok call →
  field_names (upd_firewall_policy_rule call) = rule_fields track.
Proof.
  intros H.
  apply Run_ok_inv in H
    as (ref & l1 & l2 & np & a & d & _ & _ & _ & _ & _ & _ & _ & _ & _ & Hr).
  rewrite Hr. by destruct track.
Qed.

(** A flag left unspecified among [--enable-logging] and [--disabled]
    still reaches the rule, as [False]. *)
Lemma Run_unspecified_booleans track args call :
  Run track args = ok call →
  (IsSpecified args "enable_logging" = ok false →
   field "enableLogging" (upd_firewall_policy_rule call) = Some (VBool false))
  ∧ (IsSpecified args "disabled" = ok false →
     field "disabled" (upd_firewall_policy_rule call) = Some (VBool false)).
Proof.
  intros H.
  apply Run_ok_inv in H
    as (ref & l1 & l2 & np & a & d & _ & _ & Hl1 & _ & _ & He & Hd & _ & _ & Hr).
  rewrite Hr.
  destruct (build_rule_booleans track np a d l2) as [-> ->].
  split; intros Hs.
  - by rewrite He, (read_flags_enable_logging _ _ _ _ _ Hs Hl1).
  - by rewrite Hd, (read_flags_disabled _ _ _ _ _ Hs Hl1).
Qed.

End UpdateFacts.

(** ** The rule update: channel gating and frame properties *)

Section UpdateClaims.
Import Calliope FirewallPolicyRulesUpdate UpdateShapes.
Context {RU : RuleUtils} {FPU : FirewallPoliciesUtils}.

(** A flag that the track does not register feeds no keyword of the
    track's rule or matcher. *)
Lemma gated_fields track O f :
  O ∉ dests (Args track empty_parser) →
  request_field O = Some f →
  (f ∉ rule_fields track) ∧ (f ∉ matcher_fields track).
Proof.
  intros Hout Hf. unfold request_field in Hf.
  repeat match type of Hf with
         | (if String.eqb ?a ?b then _ else _) = _ =>
             destruct (String.eqb_spec a b) as [-> | _]
         end;
    try discriminate; injection Hf as <-;
    destruct track;
    first [ exfalso; apply Hout; in_list | split; in_list ].
Qed.

Lemma Run_skips_gated_fields track O f args call :
  O ∉ dests (Args track empty_parser) →
  request_field O = Some f →
  Run track args = ok call →
  (f ∉ field_names (upd_firewall_policy_rule call))
  ∧ (f ∉ field_names (matcher_of call)).
Proof.
  intros Hout Hf Hrun.
  destruct (gated_fields _ _ _ Hout Hf) as [Hr Hm].
  rewrite (Run_rule_fields _ _ _ Hrun). split; [done |].
  destruct (Run_matcher_shape _ _ _ Hrun) as [-> | ->]; [| done].
  apply not_elem_of_nil.
Qed.

Lemma Run_ignores_unregistered track O v args :
  O ∉ dests (Args track empty_parser) →
  Run track (with_flag O v args) = Run track args.
Proof. intros Hout. apply Run_agree. by apply agree_with_flag. Qed.

(** C4. Take a track and an option that the track does not support, that
    is, a destination that [Args] does not register for it.  A command
    line that sets the option is refused with [UnsupportedOptionError]
    before [Run] is entered.  A command line of supported options passes
    the parser and leaves no attribute for the option, so that
    [AttrValue] falls back on the default without raising; [Run] never
    reads the option; and the keyword the option would feed is in neither
    the rule nor the matcher of the call. *)
Theorem unsupported_option_is_refused_when_set_and_ignored_when_unset
    track O :
  O ∉ dests (Args track empty_parser) →
  (∀ inv, O ∈ given inv →
     ∃ O', (O' ∉ dests (Args track empty_parser))
           ∧ Execute track inv = raise (UnsupportedOptionError O'))
  ∧ (∀ inv, (∀ d, d ∈ given inv → d ∈ dests (Args track empty_parser)) →
       ∃ args, parse_args (Args track empty_parser) inv = ok args
               ∧ Execute track inv = Run track args
               ∧ hasattr args O = false
               ∧ ∀ flag_defaults,
                   ClustersCreate.AttrValue args O flag_defaults
                   = ClustersCreate.DefaultAttribute O flag_defaults)
  ∧ (∀ args v, Run track (with_flag O v args) = Run track args)
  ∧ (∀ args call f,
       Run track args = ok call → request_field O = Some f →
       (f ∉ field_names (upd_firewall_policy_rule call))
       ∧ (f ∉ field_names (matcher_of call))).
Proof.
  intros Hout. split_and!.
  - intros inv Hin.
    destruct (parse_args_unknown _ inv O (Args_no_groups track) Hin Hout)
      as (O' & HO' & Hparse).
    exists O'. split; [done |]. unfold Execute. by rewrite Hparse.
  - intros inv Hall. exists (namespace_of (Args track empty_parser) inv).
    assert (Hparse := parse_args_known _ inv (Args_no_groups track) Hall).
    assert (Hno : O ∉ given inv) by (intros Hin; apply Hout; auto).
    assert (Hattr := namespace_of_hasattr _ inv O Hout Hno).
    split_and!; try done.
    + unfold Execute. by rewrite Hparse.
    + intros flag_defaults. unfold ClustersCreate.AttrValue, getattr.
      unfold hasattr in Hattr.
      by destruct (attrs (namespace_of (Args track empty_parser) inv) !! O).
  - intros args v. by apply Run_ignores_unregistered.
  - intros args call f Hrun Hf.
    exact (Run_skips_gated_fields track O f args call Hout Hf Hrun).
Qed.

(** C10. When [--new-priority] is not specified, the rule that is sent
    carries the priority parsed from the rule name, which is also the
    priority that addresses the rule in the call. *)
Theorem update_without_new_priority_keeps_priority track args call :
  IsSpecified args "new_priority" = ok false →
  Run track args = ok call →
  ∃ ref,
    ResolveAsResource args = ok ref
    ∧ ConvertPriorityToInt (VStr (Name ref)) = ok (upd_priority call)
    ∧ field "priority" (upd_firewall_policy_rule call)
      = Some (VInt (upd_priority call)).
Proof.
  intros Hs Hrun.
  apply Run_ok_inv in Hrun
    as (ref & l1 & l2 & np & a & d & Href & Hp & _ & Hnp & _ & _ & _ & _ & _
        & Hr).
  exists ref. split_and!; try done.
  rewrite Hr, build_rule_priority. by rewrite (Hnp Hs).
Qed.

End UpdateClaims.

Section UpdateRuns.
Import Calliope FirewallPolicyRulesUpdate UpdateShapes.

(** C1, failing input.  [update 10 --firewall-policy=123456789
    --description=new-example-rule] on GA specifies neither
    [--enable-logging] nor [--disabled], and the rule that is sent has
    [enableLogging=False] and [disabled=False], whereas the unspecified
    [action] and [direction] are [None] and no matcher is built. *)
Theorem update_sends_false_for_unspecified_booleans :
  ∃ call,
    Execute (RU := Sample.rule_utils) (FPU := Sample.firewall_policies_utils)
      GA Sample.update_description = ok call
    ∧ field "enableLogging" (upd_firewall_policy_rule call)
      = Some (VBool false)
    ∧ field "disabled" (upd_firewall_policy_rule call) = Some (VBool false)
    ∧ field "action" (upd_firewall_policy_rule call) = Some VNone
    ∧ field "direction" (upd_firewall_policy_rule call) = Some VNone
    ∧ field "match" (upd_firewall_policy_rule call) = Some VNone.
Proof. eexists. split_and!; vm_compute; reflexivity. Qed.

(** C4 at the GA track and [--src-fqdns]. *)
Lemma unsupported_option_is_refused_when_set_and_ignored_when_unset_witness :
  ("src_fqdns" ∉ dests (Args GA empty_parser))
  ∧ (∃ O', (O' ∉ dests (Args GA empty_parser))
           ∧ Execute (RU := Sample.rule_utils)
               (FPU := Sample.firewall_policies_utils)
               GA Sample.update_src_fqdns
             = raise (UnsupportedOptionError O'))
  ∧ (∀ args v,
       Run (RU := Sample.rule_utils) (FPU := Sample.firewall_policies_utils)
         GA (with_flag "src_fqdns" v args)
       = Run (RU := Sample.rule_utils)
           (FPU := Sample.firewall_policies_utils) GA args).
Proof.
  assert (H : "src_fqdns" ∉ dests (Args GA empty_parser)) by in_list.
  destruct (unsupported_option_is_refused_when_set_and_ignored_when_unset
              (RU := Sample.rule_utils)
              (FPU := Sample.firewall_policies_utils) GA "src_fqdns" H)
    as (Hset & _ & Hrun & _).
  split_and!; [exact H | | exact Hrun].
  apply Hset. in_list.
Defined.

(** C10 at [update 10 --firewall-policy=123456789
    --description=new-example-rule] on GA. *)
Lemma update_without_new_priority_keeps_priority_witness :
  IsSpecified (Sample.update_args GA Sample.update_description) "new_priority"
  = ok false
  ∧ ∃ call,
      Run (RU := Sample.rule_utils) (FPU := Sample.firewall_policies_utils)
        GA (Sample.update_args GA Sample.update_description)
      = ok call
      ∧ ∃ ref,
          ResolveAsResource (Sample.update_args GA Sample.update_description)
          = ok ref
          ∧ ConvertPriorityToInt (RuleUtils := Sample.rule_utils)
              (VStr (Name ref))
            = ok (upd_priority call)
          ∧ field "priority" (upd_firewall_policy_rule call)
            = Some (VInt (upd_priority call)).
Proof.
  split; [vm_compute; reflexivity |].
  eexists. split; [vm_compute; reflexivity |].
  apply (update_without_new_priority_keeps_priority
           (RU := Sample.rule_utils) (FPU := Sample.firewall_policies_utils)
           GA (Sample.update_args GA Sample.update_description));
    vm_compute; reflexivity.
Defined.

End UpdateRuns.

(** ** The org-policy simulation: argument processing *)

Section SimulateFacts.
Import Calliope OrgPolicySimulate.
Context {SU : SimulatorUtils} {API : OrgPolicySimulatorApi}.

(** The loop over the policy files only appends. *)
Lemma load_policies_nil track policies policies' :
  load_policies track [] policies = ok policies' → policies' = policies.
Proof. simpl. intros H. by injection H. Qed.

(** Whenever [args.policies] is falsy, that is, whenever the check at
    line 92 is passed on the strength of [--custom-constraints] alone,
    argument processing raises: iterating [None] is a [TypeError], and
    an empty list of policies makes [policies[0]] an [IndexError] unless
    something failed before. *)
Lemma process_arguments_needs_policies args v :
  attr args "policies" = ok v → truthy v = false →
  ∀ r, process_arguments args ≠ ok r.
Proof.
  intros Hv Hfalsy r H. unfold process_arguments in H.
  rewrite Hv in H. simpl in H. rewrite Hfalsy in H. simpl in H.
  apply rbind_ok in H as (neither & Hneither & H).
  destruct neither; [discriminate |].
  apply rbind_ok in H as (paths & Hpaths & H).
  assert (Hnil : paths = []).
  { destruct v as [| b | z | s | l | d | e | l | cls kw];
      simpl in Hfalsy, Hpaths; try discriminate.
    - destruct s; [by injection Hpaths | discriminate].
    - destruct l; [by injection Hpaths | ].
      by rewrite bool_decide_eq_false_2 in Hfalsy.
    - destruct d; [by injection Hpaths | discriminate].
    - destruct l; [by injection Hpaths | discriminate]. }
  subst paths.
  apply rbind_ok in H as (policies & Hpolicies & H).
  apply load_policies_nil in Hpolicies. subst policies.
  invert_ok H. discriminate.
Qed.

End SimulateFacts.

Section SimulateRuns.
Import Calliope OrgPolicySimulate.

(** C9, failing input.  [simulate orgpolicy
    --custom-constraints=constraint.json] passes the check at line 92,
    and then [for policy in args.policies] iterates [None]: the command
    raises [TypeError] before any constraint file is read.  The same
    happens one loop later when only [--policies] is given.  With both
    flags given the same argument processing returns. *)
Theorem simulate_with_only_custom_constraints_raises :
  Execute (SU := Sample.simulator_utils) (API := Sample.simulator_api)
    Sample.simulate_custom_constraints
  = raise (TypeError "'NoneType' object is not iterable")
  ∧ (∃ args,
       parse_args (_ArgsAlpha empty_parser) Sample.simulate_custom_constraints
       = ok args
       ∧ attr args "policies" = ok VNone
       ∧ process_arguments (SU := Sample.simulator_utils)
           (API := Sample.simulator_api) args
         = raise (TypeError "'NoneType' object is not iterable"))
  ∧ Execute (SU := Sample.simulator_utils) (API := Sample.simulator_api)
      Sample.simulate_policies
    = raise (TypeError "'NoneType' object is not iterable")
  ∧ (∃ args r,
       parse_args (_ArgsAlpha empty_parser) Sample.simulate_both = ok args
       ∧ process_arguments (SU := Sample.simulator_utils)
           (API := Sample.simulator_api) args
         = ok r).
Proof.
  split_and!.
  - vm_compute. reflexivity.
  - eexists. split_and!; vm_compute; reflexivity.
  - vm_compute. reflexivity.
  - do 2 eexists. split_and!; vm_compute; reflexivity.
Qed.

End SimulateRuns.

(** ** Cluster creation: what a computation can see and change *)

Section CreateFootprint.
Import Calliope ClustersCreate CreateEffects.
Context {S : Type}.

Lemma bind_ok {A B : Type} (m : M S A) (k : A → M S B) w a w' :
  m w = (ok a, w') → bind m k w = k a w'.
Proof. intros H. unfold bind. by rewrite H. Qed.

Lemma bind_raise {A B : Type} (m : M S A) (k : A → M S B) w e w' :
  m w = (raise e, w') → bind m k w = (raise e, w').
Proof. intros H. unfold bind. by rewrite H. Qed.

Lemma run_helper_ok {A : Type} (h : Helper A) a msgs (w : World S) :
  h = ok (a, msgs) →
  run_helper h w = (ok a, upd w (args w) [] msgs).
Proof.
  intros ->. unfold upd. simpl. unfold bind, log_warnings, ret; simpl.
  by rewrite app_nil_r.
Qed.

Lemma run_helper_raise {A : Type} (h : Helper A) e (w : World S) :
  h = raise e → run_helper h w = (raise e, w).
Proof. by intros ->. Qed.

Lemma upd_id (w : World S) : upd w (args w) [] [] = w.
Proof. destruct w. unfold upd; simpl. by rewrite !app_nil_r. Qed.

Lemma upd_upd (w : World S) a s1 s2 a' t1 t2 :
  upd (upd w a s1 s2) a' t1 t2 = upd w a' (s1 ++ t1) (s2 ++ t2).
Proof. unfold upd; simpl. by rewrite !app_assoc. Qed.

Lemma oblivious_ret {A : Type} (x : A) : oblivious (S := S) (ret x).
Proof.
  intros w1 w2 Ha. exists (ok x), (args w1), [], []. unfold ret.
  split; [by rewrite upd_id | by rewrite Ha, upd_id].
Qed.

Lemma oblivious_throw {A : Type} (e : exn) :
  oblivious (S := S) (throw (A := A) e).
Proof.
  intros w1 w2 Ha. exists (raise e), (args w1), [], []. unfold throw.
  split; [by rewrite upd_id | by rewrite Ha, upd_id].
Qed.

Lemma oblivious_lift {A : Type} (r : result A) : oblivious (S := S) (lift r).
Proof.
  intros w1 w2 Ha. exists r, (args w1), [], []. unfold lift.
  split; [by rewrite upd_id | by rewrite Ha, upd_id].
Qed.

Lemma oblivious_bind {A B : Type} (m : M S A) (k : A → M S B) :
  oblivious m → (∀ x, oblivious (k x)) → oblivious (bind m k).
Proof.
  intros Hm Hk w1 w2 Ha.
  destruct (Hm w1 w2 Ha) as (r & a & s1 & s2 & H1 & H2).
  unfold bind. rewrite H1, H2. destruct r as [e | x].
  - by exists (inl e), a, s1, s2.
  - destruct (Hk x (upd w1 a s1 s2) (upd w2 a s1 s2) eq_refl)
      as (r' & a' & t1 & t2 & K1 & K2).
    exists r', a', (s1 ++ t1)%list, (s2 ++ t2)%list.
    by rewrite K1, K2, !upd_upd.
Qed.

Lemma oblivious_get_args : oblivious (S := S) get_args.
Proof.
  intros w1 w2 Ha. exists (ok (args w1)), (args w1), [], []. unfold get_args.
  split; [by rewrite upd_id | by rewrite Ha, upd_id].
Qed.

Lemma oblivious_put_args a : oblivious (S := S) (put_args a).
Proof.
  intros w1 w2 Ha. exists (ok tt), a, [], []. unfold put_args, upd.
  by rewrite !app_nil_r.
Qed.

Lemma oblivious_status_Print msg : oblivious (S := S) (status_Print msg).
Proof.
  intros w1 w2 Ha. exists (ok tt), (args w1), [msg], [].
  unfold status_Print, upd. by rewrite !app_nil_r, Ha.
Qed.

Lemma oblivious_log_warnings msgs : oblivious (S := S) (log_warnings msgs).
Proof.
  intros w1 w2 Ha. exists (ok tt), (args w1), [], msgs.
  unfold log_warnings, upd. by rewrite !app_nil_r, Ha.
Qed.

Lemma oblivious_log_warning msg : oblivious (S := S) (log_warning msg).
Proof.
  intros w1 w2 Ha. exists (ok tt), (args w1), [], [msg].
  unfold log_warning, upd. by rewrite !app_nil_r, Ha.
Qed.

Lemma oblivious_run_helper {A : Type} (h : Helper A) :
  oblivious (S := S) (run_helper h).
Proof.
  destruct h as [e | [a msgs]]; simpl.
  - apply oblivious_throw.
  - apply oblivious_bind; [apply oblivious_log_warnings |].
    intros _. apply oblivious_ret.
Qed.

Lemma oblivious_when (b : bool) (m : M S unit) :
  oblivious m → oblivious (when b m).
Proof. destruct b; simpl; [done | intros _; apply oblivious_ret]. Qed.

Lemma oblivious_if {A : Type} (b : bool) (m1 m2 : M S A) :
  oblivious m1 → oblivious m2 → oblivious (if b then m1 else m2).
Proof. by destruct b. Qed.

(** What an oblivious computation leaves behind. *)
Lemma oblivious_frame {A : Type} (m : M S A) w :
  oblivious m →
  ∃ s1 s2, (m w).2 = upd w (args (m w).2) s1 s2.
Proof.
  intros Hm. destruct (Hm w w eq_refl) as (r & a & s1 & s2 & H1 & _).
  exists s1, s2. by rewrite H1.
Qed.

Lemma oblivious_service {A : Type} (m : M S A) w :
  oblivious m →
  calls (m w).2 = calls w ∧ provider (m w).2 = provider w
  ∧ created (m w).2 = created w.
Proof.
  intros Hm. destruct (oblivious_frame m w Hm) as (s1 & s2 & ->). done.
Qed.


(** *** Leaving the namespace alone *)

Lemma keeps_args_ret {A : Type} (x : A) : keeps_args (S := S) (ret x).
Proof. done. Qed.

Lemma keeps_args_throw {A : Type} (e : exn) :
  keeps_args (S := S) (throw (A := A) e).
Proof. done. Qed.

Lemma keeps_args_lift {A : Type} (r : result A) :
  keeps_args (S := S) (lift r).
Proof. done. Qed.

Lemma keeps_args_bind {A B : Type} (m : M S A) (k : A → M S B) :
  keeps_args m → (∀ x, keeps_args (k x)) → keeps_args (bind m k).
Proof.
  intros Hm Hk w. unfold bind. specialize (Hm w).
  destruct (m w) as [[e | x] w']; simpl in *; [done |].
  by rewrite Hk.
Qed.

Lemma keeps_args_get_args : keeps_args (S := S) get_args.
Proof. done. Qed.

Lemma keeps_args_status_Print msg : keeps_args (S := S) (status_Print msg).
Proof. done. Qed.

Lemma keeps_args_log_warnings msgs :
  keeps_args (S := S) (log_warnings msgs).
Proof. done. Qed.

Lemma keeps_args_run_helper {A : Type} (h : Helper A) :
  keeps_args (S := S) (run_helper h).
Proof. by destruct h as [e | [a msgs]]. Qed.

Lemma keeps_args_when (b : bool) (m : M S unit) :
  keeps_args m → keeps_args (when b m).
Proof. by destruct b. Qed.

Lemma keeps_args_if {A : Type} (b : bool) (m1 m2 : M S A) :
  keeps_args m1 → keeps_args m2 → keeps_args (if b then m1 else m2).
Proof. by destruct b. Qed.

End CreateFootprint.

(** Structural proof that a computation is oblivious. *)
Ltac oblivious_step :=
  lazymatch goal with
  | |- CreateEffects.oblivious (ClustersCreate.bind _ _) =>
      apply oblivious_bind; [| intros ?]
  | |- CreateEffects.oblivious (ClustersCreate.ret _) => apply oblivious_ret
  | |- CreateEffects.oblivious (ClustersCreate.throw _) =>
      apply oblivious_throw
  | |- CreateEffects.oblivious (ClustersCreate.lift _) => apply oblivious_lift
  | |- CreateEffects.oblivious ClustersCreate.get_args =>
      apply oblivious_get_args
  | |- CreateEffects.oblivious (ClustersCreate.put_args _) =>
      apply oblivious_put_args
  | |- CreateEffects.oblivious (ClustersCreate.status_Print _) =>
      apply oblivious_status_Print
  | |- CreateEffects.oblivious (ClustersCreate.log_warning _) =>
      apply oblivious_log_warning
  | |- CreateEffects.oblivious (ClustersCreate.run_helper _) =>
      apply oblivious_run_helper
  | |- CreateEffects.oblivious (ClustersCreate.when _ _) =>
      apply oblivious_when
  | |- CreateEffects.oblivious (if _ then _ else _) => apply oblivious_if
  | |- CreateEffects.oblivious (match ?x with _ => _ end) => destruct x
  end.

Ltac keeps_args_step :=
  lazymatch goal with
  | |- CreateEffects.keeps_args (ClustersCreate.bind _ _) =>
      apply keeps_args_bind; [| intros ?]
  | |- CreateEffects.keeps_args (ClustersCreate.ret _) => apply keeps_args_ret
  | |- CreateEffects.keeps_args (ClustersCreate.throw _) =>
      apply keeps_args_throw
  | |- CreateEffects.keeps_args (ClustersCreate.lift _) =>
      apply keeps_args_lift
  | |- CreateEffects.keeps_args ClustersCreate.get_args =>
      apply keeps_args_get_args
  | |- CreateEffects.keeps_args (ClustersCreate.status_Print _) =>
      apply keeps_args_status_Print
  | |- CreateEffects.keeps_args (ClustersCreate.run_helper _) =>
      apply keeps_args_run_helper
  | |- CreateEffects.keeps_args (ClustersCreate.when _ _) =>
      apply keeps_args_when
  | |- CreateEffects.keeps_args (if _ then _ else _) => apply keeps_args_if
  | |- CreateEffects.keeps_args (match ?x with _ => _ end) => destruct x
  end.

Section CreateOptionsFacts.
Import Calliope ClustersCreate CreateEffects.
Context {S : Type} {CF : ContainerFlags} {CU : CommandUtil}.

Lemma MaybeLogCloudNatHelpText_oblivious args is_autopilot location project :
  oblivious (S := S)
    (MaybeLogCloudNatHelpText args is_autopilot location project).
Proof. unfold MaybeLogCloudNatHelpText. repeat oblivious_step. Qed.

Lemma ParseCreateOptionsBase_oblivious is_autopilot get_default location
    project :
  oblivious (S := S)
    (ParseCreateOptionsBase is_autopilot get_default location project).
Proof.
  unfold ParseCreateOptionsBase.
  repeat first [ apply MaybeLogCloudNatHelpText_oblivious | oblivious_step ].
Qed.

Lemma ParseCreateOptions_oblivious track location project :
  oblivious (S := S) (ParseCreateOptions track location project).
Proof.
  destruct track; simpl;
    unfold Create_ParseCreateOptions, CreateBeta_ParseCreateOptions,
      CreateAlpha_ParseCreateOptions, MaybeLogDataplaneV2ScaleWarning;
    repeat first [ apply ParseCreateOptionsBase_oblivious | oblivious_step ].
Qed.

End CreateOptionsFacts.

Section CreateOptionsPurity.
Import Calliope ClustersCreate CreateEffects.
Context {S : Type} {CF : ContainerFlags} {CU : CommandUtil}.

Lemma munges_first {A B : Type} (m : M S A) (k : A → M S B) :
  munges m → (∀ x, keeps_args (k x)) → munges (bind m k).
Proof.
  intros Hm Hk w. specialize (Hm w). unfold left_by_munge in *.
  unfold bind. destruct (m w) as [[e | x] w']; simpl in *; [done |].
  specialize (Hk x w').
  destruct (k x w') as [[e | y] w'']; simpl in *; rewrite Hk;
    [by right | done].
Qed.

Lemma munges_later {A B : Type} (m : M S A) (k : A → M S B) :
  keeps_args m → (∀ x, munges (k x)) → munges (bind m k).
Proof.
  intros Hm Hk w. specialize (Hm w). unfold bind.
  destruct (m w) as [[e | x] w']; simpl in *.
  - unfold left_by_munge. simpl. by left.
  - specialize (Hk x w'). by rewrite Hm in Hk.
Qed.

(** [MungeBasicAuthFlags] is the one place where the option parser
    writes to [args]. *)
Lemma munges_munge {A : Type} (k : Namespace → M S A) :
  (∀ a, keeps_args (k a)) →
  munges
    (bind get_args (λ args,
       bind (run_helper (MungeBasicAuthFlags args)) (λ args,
         bind (put_args args) (λ _, k args)))).
Proof.
  intros Hk w. unfold left_by_munge.
  rewrite (bind_ok get_args _ w (args w) w eq_refl).
  destruct (MungeBasicAuthFlags (args w)) as [e | [a' msgs]] eqn:Hm.
  - rewrite (bind_raise _ _ w e w (run_helper_raise _ e w eq_refl)).
    simpl. by left.
  - rewrite (bind_ok _ _ w a' _ (run_helper_ok _ a' msgs w eq_refl)).
    rewrite (bind_ok (put_args a') _ (upd w (args w) [] msgs) tt
               (upd w a' [] msgs) eq_refl).
    specialize (Hk a' (upd w a' [] msgs)). simpl in Hk.
    destruct (k a' (upd w a' [] msgs)) as [[e | x] w']; simpl in *;
      rewrite Hk; [right |]; by exists msgs.
Qed.

Lemma ParseCreateOptionsBase_munges is_autopilot get_default location
    project :
  munges (S := S)
    (ParseCreateOptionsBase is_autopilot get_default location project).
Proof.
  unfold ParseCreateOptionsBase.
  apply munges_munge. intros args.
  unfold MaybeLogCloudNatHelpText.
  repeat keeps_args_step.
Qed.

Lemma ParseCreateOptions_munges track location project :
  munges (S := S) (ParseCreateOptions track location project).
Proof.
  destruct track; simpl;
    unfold Create_ParseCreateOptions, CreateBeta_ParseCreateOptions,
      CreateAlpha_ParseCreateOptions, MaybeLogDataplaneV2ScaleWarning.
  - apply ParseCreateOptionsBase_munges.
  - apply munges_first; [apply ParseCreateOptionsBase_munges |].
    intros ops. repeat keeps_args_step.
  - apply munges_first; [apply ParseCreateOptionsBase_munges |].
    intros ops. repeat keeps_args_step.
Qed.




End CreateOptionsPurity.

(** ** Cluster creation: the mutating call and what follows *)

Section CreateRunFacts.
Import Calliope ClustersCreate CreateEffects.
Context {S : Type} {CF : ContainerFlags} {CU : CommandUtil}
  {UT : ContainerUtil} {AD : ApiAdapter S}.

(** Nothing before the [try] block reaches the service. *)
Lemma prepare_oblivious track : oblivious (S := S) (prepare track).
Proof.
  unfold prepare.
  repeat first [ apply ParseCreateOptions_oblivious | oblivious_step ].
Qed.

Lemma prepare_service track (w : World S) r w1 :
  prepare track w = (r, w1) →
  calls w1 = calls w ∧ provider w1 = provider w ∧ created w1 = created w.
Proof.
  intros H.
  destruct (oblivious_service (prepare track) w (prepare_oblivious track))
    as (Hc & Hp & Hcr).
  rewrite H in Hc, Hp, Hcr. done.
Qed.

Lemma adapter_call_eq {A : Type} c (f : S → result A * S) w r s :
  f (provider w) = (r, s) → adapter_call c f w = (r, called w c s).
Proof. intros H. unfold adapter_call. by rewrite H. Qed.

Lemma Run_after_prepare track (w w1 : World S) cluster_ref options :
  prepare track w = (ok (cluster_ref, options), w1) →
  Run track w
  = bind (create_and_wait cluster_ref options)
      (λ r, match r with
            | inl cluster => ret cluster
            | inr (operation, cluster) => report cluster_ref operation cluster
            end) w1.
Proof. intros H. unfold Run. by rewrite (bind_ok _ _ _ _ _ H). Qed.

(** The request is rejected. *)
Lemma create_and_wait_rejected cluster_ref options (w1 : World S) e s :
  CreateCluster cluster_ref options (provider w1) = (raise (HttpError e), s) →
  create_and_wait cluster_ref options w1
  = (raise (HttpException e HTTP_ERROR_FORMAT),
     called w1 (CallCreateCluster cluster_ref options) s).
Proof.
  intros H. unfold create_and_wait, reraise_HttpError.
  by rewrite (bind_raise _ _ _ _ _ (adapter_call_eq _ _ _ _ _ H)).
Qed.

(** The request is accepted and the run is synchronous: what is left is
    to wait and to fetch. *)
Lemma create_and_wait_accepted cluster_ref options (w1 : World S)
    operation_ref s1 async_ timeout_s :
  CreateCluster cluster_ref options (provider w1) = (ok operation_ref, s1) →
  attr (args w1) "async_" = ok async_ → truthy async_ = false →
  attr (args w1) "timeout" = ok timeout_s →
  create_and_wait cluster_ref options w1
  = reraise_HttpError HTTP_ERROR_FORMAT
      (bind
         (adapter_call
            (CallWaitForOperation operation_ref (waiting_message cluster_ref)
               timeout_s)
            (WaitForOperation operation_ref (waiting_message cluster_ref)
               timeout_s))
         (λ operation,
            bind (adapter_call (CallGetCluster cluster_ref)
                    (GetCluster cluster_ref))
              (λ cluster, ret (inr (operation, cluster)))))
      (called w1 (CallCreateCluster cluster_ref options) s1).
Proof.
  intros Hc Ha Hf Ht. unfold create_and_wait, reraise_HttpError.
  rewrite (bind_ok _ _ _ _ _ (adapter_call_eq _ _ _ _ _ Hc)).
  rewrite (bind_ok get_args _ _ _ _ eq_refl).
  change (args (called w1 (CallCreateCluster cluster_ref options) s1))
    with (args w1).
  rewrite (bind_ok (lift (attr (args w1) "async_")) _ _ async_ _
             ltac:(by unfold lift; rewrite Ha)).
  rewrite Hf.
  by rewrite (bind_ok (lift (attr (args w1) "timeout")) _ _ timeout_s _
                ltac:(by unfold lift; rewrite Ht)).
Qed.

Lemma reraise_raise {A : Type} fmt (body : M S A) (w : World S) e w' :
  body w = (raise e, w') →
  reraise_HttpError fmt body w = (raise (surfaced fmt e), w').
Proof. intros H. unfold reraise_HttpError. rewrite H. by destruct e. Qed.

Lemma reraise_ok {A : Type} fmt (body : M S A) (w : World S) a w' :
  body w = (ok a, w') → reraise_HttpError fmt body w = (ok a, w').
Proof. intros H. unfold reraise_HttpError. by rewrite H. Qed.

(** The [try] block calls [CreateCluster] first and once, whatever
    happens next. *)
Lemma create_and_wait_calls cluster_ref options (w1 : World S) :
  ∃ rest,
    calls (create_and_wait cluster_ref options w1).2
    = calls w1 ++ CallCreateCluster cluster_ref options :: rest
    ∧ Forall (λ c, is_create c = false) rest.
Proof.
  unfold create_and_wait.
  destruct (CreateCluster cluster_ref options (provider w1))
    as [[e | operation_ref] s1] eqn:Hc.
  { rewrite (reraise_raise _ _ _ e _
               (bind_raise _ _ _ _ _ (adapter_call_eq _ _ _ _ _ Hc))).
    by exists []. }
  set (w2 := called w1 (CallCreateCluster cluster_ref options) s1).
  assert (Hw2 : calls w2 = calls w1 ++ [CallCreateCluster cluster_ref options])
    by done.
  destruct (attr (args w1) "async_") as [e | async_] eqn:Ha.
  { erewrite reraise_raise.
    2:{ rewrite (bind_ok _ _ _ _ _ (adapter_call_eq _ _ _ _ _ Hc)).
        rewrite (bind_ok get_args _ _ _ _ eq_refl).
        apply bind_raise. unfold lift. cbn [args called]. by rewrite Ha. }
    by exists []. }
  destruct (truthy async_) eqn:Hf.
  - destruct (GetCluster cluster_ref s1) as [[e | cluster] s2] eqn:Hg.
    + erewrite reraise_raise.
      2:{ rewrite (bind_ok _ _ _ _ _ (adapter_call_eq _ _ _ _ _ Hc)).
          rewrite (bind_ok get_args _ _ _ _ eq_refl).
          erewrite (bind_ok (lift _));
            [| unfold lift; cbn [args called]; by rewrite Ha].
          rewrite Hf.
          apply bind_raise. by apply adapter_call_eq. }
      exists [CallGetCluster cluster_ref]. simpl.
      rewrite <- app_assoc. by repeat constructor.
    + erewrite reraise_ok.
      2:{ rewrite (bind_ok _ _ _ _ _ (adapter_call_eq _ _ _ _ _ Hc)).
          rewrite (bind_ok get_args _ _ _ _ eq_refl).
          erewrite (bind_ok (lift _));
            [| unfold lift; cbn [args called]; by rewrite Ha].
          rewrite Hf.
          erewrite bind_ok; [reflexivity | by apply adapter_call_eq]. }
      exists [CallGetCluster cluster_ref]. simpl.
      rewrite <- app_assoc. by repeat constructor.
  - destruct (attr (args w1) "timeout") as [e | timeout_s] eqn:Ht.
    { erewrite reraise_raise.
      2:{ rewrite (bind_ok _ _ _ _ _ (adapter_call_eq _ _ _ _ _ Hc)).
          rewrite (bind_ok get_args _ _ _ _ eq_refl).
          erewrite (bind_ok (lift _));
            [| unfold lift; cbn [args called]; by rewrite Ha].
          rewrite Hf.
          apply bind_raise. unfold lift. cbn [args called]. by rewrite Ht. }
      by exists []. }
    fold (create_and_wait cluster_ref options).
    rewrite (create_and_wait_accepted _ _ _ _ _ _ _ Hc Ha Hf Ht).
    destruct (WaitForOperation operation_ref (waiting_message cluster_ref)
                timeout_s s1) as [[e | operation] s2] eqn:Hw.
    { erewrite reraise_raise;
        [| apply bind_raise; by apply adapter_call_eq].
      exists [CallWaitForOperation operation_ref
                (waiting_message cluster_ref) timeout_s].
      simpl. rewrite <- app_assoc. by repeat constructor. }
    destruct (GetCluster cluster_ref s2) as [[e | cluster] s3] eqn:Hg.
    + erewrite reraise_raise.
      2:{ erewrite bind_ok; [| by apply adapter_call_eq].
          apply bind_raise. by apply adapter_call_eq. }
      exists [CallWaitForOperation operation_ref
                (waiting_message cluster_ref) timeout_s;
              CallGetCluster cluster_ref].
      simpl. rewrite <- !app_assoc. by repeat constructor.
    + erewrite reraise_ok.
      2:{ erewrite bind_ok; [| by apply adapter_call_eq].
          erewrite bind_ok; [reflexivity | by apply adapter_call_eq]. }
      exists [CallWaitForOperation operation_ref
                (waiting_message cluster_ref) timeout_s;
              CallGetCluster cluster_ref].
      simpl. rewrite <- !app_assoc. by repeat constructor.
Qed.

(** What follows a creation makes no call on the adapter. *)
Lemma report_calls cluster_ref operation cluster (w : World S) :
  calls (report cluster_ref operation cluster w).2 = calls w.
Proof.
  unfold report, bind, log_CreatedResource, status_Print, lift, persist; simpl.
  destruct (getfield operation "detail") as [e | detail]; simpl; [done |].
  destruct (truthy detail); simpl.
  - destruct (Persist cluster (projectId cluster_ref))
      as [[] | [[] msgs]]; by simpl.
  - destruct (Persist cluster (projectId cluster_ref))
      as [[] | [[] msgs]]; by simpl.
Qed.

End CreateRunFacts.

Section CreateRunClaims.
Import Calliope ClustersCreate CreateEffects.
Context {S : Type} {CF : ContainerFlags} {CU : CommandUtil}
  {UT : ContainerUtil} {AD : ApiAdapter S}.

(** The calls a run adds to the record: none, or [CreateCluster] once,
    first, followed by calls that wait or fetch. *)
Lemma Run_calls track (w : World S) :
  ∃ new,
    calls (Run track w).2 = calls w ++ new
    ∧ (new = []
       ∨ ∃ cluster_ref options rest,
           new = CallCreateCluster cluster_ref options :: rest
           ∧ Forall (λ c, is_create c = false) rest).
Proof.
  destruct (prepare track w) as [[e | [cluster_ref options]] w1] eqn:Hp.
  { exists []. unfold Run. rewrite (bind_raise _ _ _ _ _ Hp). simpl.
    destruct (prepare_service _ _ _ _ Hp) as [-> _].
    by rewrite app_nil_r; auto. }
  rewrite (Run_after_prepare _ _ _ _ _ Hp).
  destruct (prepare_service _ _ _ _ Hp) as [Hcalls _]. rewrite <- Hcalls.
  destruct (create_and_wait_calls cluster_ref options w1)
    as (rest & Hrest & Hkinds).
  exists (CallCreateCluster cluster_ref options :: rest).
  split; [| right; by exists cluster_ref, options, rest].
  unfold bind.
  destruct (create_and_wait cluster_ref options w1)
    as [[e | [cluster | [operation cluster]]] w2]; simpl in *; try done.
  by rewrite report_calls.
Qed.

(** C5. When the service rejects the mutating call with an HTTP error,
    [Run] raises [HttpException] with the payload of that error and the
    format of the command, and the record of adapter calls has grown by
    that one [CreateCluster] call: there is no second attempt and no
    other call.  In any run at all, [CreateCluster] is called at most
    once, and before every other adapter call. *)
Theorem rejected_create_is_surfaced_without_retry track (w w1 : World S)
    cluster_ref options e s :
  prepare track w = (ok (cluster_ref, options), w1) →
  CreateCluster cluster_ref options (provider w1) = (raise (HttpError e), s) →
  Run track w
  = (raise (HttpException e HTTP_ERROR_FORMAT),
     called w1 (CallCreateCluster cluster_ref options) s)
  ∧ calls (Run track w).2
    = calls w ++ [CallCreateCluster cluster_ref options]
  ∧ (∀ track' (w' : World S),
       ∃ new,
         calls (Run track' w').2 = calls w' ++ new
         ∧ (new = []
            ∨ ∃ cluster_ref options rest,
                new = CallCreateCluster cluster_ref options :: rest
                ∧ Forall (λ c, is_create c = false) rest)).
Proof.
  intros Hp Hc.
  assert (Hrun : Run track w
                 = (raise (HttpException e HTTP_ERROR_FORMAT),
                    called w1 (CallCreateCluster cluster_ref options) s)).
  { rewrite (Run_after_prepare _ _ _ _ _ Hp).
    by rewrite (bind_raise _ _ _ _ _
                  (create_and_wait_rejected _ _ _ _ _ Hc)). }
  split_and!.
  - exact Hrun.
  - rewrite Hrun. simpl. by destruct (prepare_service _ _ _ _ Hp) as [-> _].
  - intros track' w'. apply Run_calls.
Qed.

(** C6, as amended.  In a synchronous run whose mutating call was
    accepted, what [Run] raises is decided by the exception that the
    adapter raised and not by the step that failed.  If the operation
    completes and the fetch of the cluster then raises, [Run] ends after
    the three calls, with nothing logged as created, and raises what the
    one [except] clause makes of that exception; a wait that raises is
    treated by the same clause in the same way.  That clause turns an
    [HttpError] into an [HttpException] with its payload and the format
    of the command and lets every other exception through: a fetch that
    fails with an HTTP error is told apart from an operation that the
    wait reports as failed with [util.Error], and there is no kind of
    error for a failed fetch as such. *)
Theorem failed_fetch_surfaces_as_the_adapter_raised_it track
    (w w1 : World S) cluster_ref options operation_ref s1 async_ timeout_s :
  prepare track w = (ok (cluster_ref, options), w1) →
  CreateCluster cluster_ref options (provider w1) = (ok operation_ref, s1) →
  attr (args w1) "async_" = ok async_ → truthy async_ = false →
  attr (args w1) "timeout" = ok timeout_s →
  (∀ operation s2 e s3,
     WaitForOperation operation_ref (waiting_message cluster_ref) timeout_s s1
     = (ok operation, s2) →
     GetCluster cluster_ref s2 = (raise e, s3) →
     Run track w
     = (raise (surfaced HTTP_ERROR_FORMAT e),
        called
          (called (called w1 (CallCreateCluster cluster_ref options) s1)
             (CallWaitForOperation operation_ref
                (waiting_message cluster_ref) timeout_s) s2)
          (CallGetCluster cluster_ref) s3))
  ∧ (∀ e s2,
       WaitForOperation operation_ref (waiting_message cluster_ref) timeout_s
         s1
       = (raise e, s2) →
       (Run track w).1 = raise (surfaced HTTP_ERROR_FORMAT e))
  ∧ (∀ payload,
       surfaced HTTP_ERROR_FORMAT (HttpError payload)
       = HttpException payload HTTP_ERROR_FORMAT)
  ∧ (∀ e, (∀ payload, e ≠ HttpError payload) →
          surfaced HTTP_ERROR_FORMAT e = e)
  ∧ (∀ payload msg, HttpException payload HTTP_ERROR_FORMAT ≠ UtilError msg).
Proof.
  intros Hp Hc Ha Hf Ht.
  rewrite (Run_after_prepare _ _ _ _ _ Hp).
  assert (Hcw := create_and_wait_accepted _ _ _ _ _ _ _ Hc Ha Hf Ht).
  split_and!.
  - intros operation s2 e s3 Hw Hg.
    apply bind_raise. rewrite Hcw.
    apply reraise_raise.
    erewrite bind_ok; [| by apply adapter_call_eq].
    apply bind_raise. by apply adapter_call_eq.
  - intros e s2 Hw.
    unfold bind at 1. rewrite Hcw.
    erewrite reraise_raise.
    2:{ apply bind_raise. by apply adapter_call_eq. }
    done.
  - done.
  - intros e He. destruct e; try done. by destruct (He payload).
  - discriminate.
Qed.

(** C7. In a synchronous run whose operation completes and whose cluster
    is fetched, a non-empty [detail] of the operation is sent to the
    warning log and [Run] returns the cluster in a one-element list, as
    long as saving the kubeconfig entry raises nothing but the
    [MissingEnvVarError] that [Run] catches. *)
Theorem operation_detail_is_surfaced_as_warning track (w w1 : World S)
    cluster_ref options operation_ref s1 async_ timeout_s operation s2
    cluster s3 detail :
  prepare track w = (ok (cluster_ref, options), w1) →
  CreateCluster cluster_ref options (provider w1) = (ok operation_ref, s1) →
  attr (args w1) "async_" = ok async_ → truthy async_ = false →
  attr (args w1) "timeout" = ok timeout_s →
  WaitForOperation operation_ref (waiting_message cluster_ref) timeout_s s1
  = (ok operation, s2) →
  GetCluster cluster_ref s2 = (ok cluster, s3) →
  getfield operation "detail" = ok detail → truthy detail = true →
  (∀ e, Persist cluster (projectId cluster_ref) = raise e →
        ∃ msg, e = MissingEnvVarError msg) →
  (Run track w).1 = ok (VSeq [cluster])
  ∧ text detail ∈ warnings (Run track w).2
  ∧ cluster_ref ∈ created (Run track w).2.
Proof.
  intros Hp Hc Ha Hf Ht Hw Hg Hd Hdt Hpersist.
  destruct (Run track w) as [r wf] eqn:HR.
  rewrite (Run_after_prepare _ _ _ _ _ Hp) in HR.
  assert (Hcw := create_and_wait_accepted _ _ _ _ _ _ _ Hc Ha Hf Ht).
  unfold bind at 1 in HR. rewrite Hcw in HR.
  erewrite reraise_ok in HR.
  2:{ erewrite bind_ok; [| by apply adapter_call_eq].
      erewrite bind_ok; [reflexivity | by apply adapter_call_eq]. }
  unfold report, bind, log_CreatedResource, status_Print, lift, persist in HR.
  simpl in HR. rewrite Hd in HR. simpl in HR. rewrite Hdt in HR.
  simpl in HR.
  destruct (Persist cluster (projectId cluster_ref))
    as [e | [[] msgs]] eqn:HP; simpl in HR.
  - destruct (Hpersist e eq_refl) as [msg ->]. simpl in HR.
    injection HR as <- <-. simpl.
    split_and!; [done | | ]; rewrite !elem_of_app, !list_elem_of_singleton;
      auto.
  - injection HR as <- <-. simpl.
    split_and!; [done | | ]; rewrite !elem_of_app, !list_elem_of_singleton;
      auto.
Qed.

End CreateRunClaims.

(** ** Cluster creation: mutually exclusive flags *)

Section GroupFacts.
Import Calliope.



(** *** Registration only adds *)

Lemma extends_refl p : extends p p.
Proof. intros g Hg. by exists g. Qed.

Lemma extends_trans p1 p2 p3 : extends p1 p2 → extends p2 p3 → extends p1 p3.
Proof.
  intros H12 H23 g Hg.
  destruct (H12 g Hg) as (g2 & Hg2 & Hs2).
  destruct (H23 g2 Hg2) as (g3 & Hg3 & Hs3).
  exists g3. split; [done |]. by transitivity g2.
Qed.

Lemma register_extends c a p : extends p (register c a p).
Proof.
  intros g Hg. destruct c as [| i]; simpl.
  - by exists g.
  - apply list_elem_of_lookup in Hg as [j Hj].
    destruct (decide (i = j)) as [-> | Hne].
    + exists (g ++ [dest a]). split.
      * apply list_elem_of_lookup. exists j.
        by rewrite list_lookup_alter_eq, Hj.
      * intros x Hx. apply elem_of_app. by left.
    + exists g. split; [| done].
      apply list_elem_of_lookup. exists j.
      by rewrite list_lookup_alter_ne.
Qed.

End GroupFacts.

Section RegistrationFacts.
Import Calliope ClustersCreate CreateEffects.
Context {CF : ContainerFlags}.

Lemma foldl_register_extends c l p :
  extends p (foldl (λ p a, register c a p) p l).
Proof.
  revert p. induction l as [| a l IH]; intros p; simpl.
  - apply extends_refl.
  - eapply extends_trans; [apply register_extends | apply IH].
Qed.

Lemma flags_on_extends c fn kw p : extends p (flags_on c fn kw p).
Proof. apply foldl_register_extends. Qed.

Lemma add_argument_extends c flag dflt p :
  extends p (add_argument c flag dflt p).
Proof. apply register_extends. Qed.

Lemma add_group_extends p : extends p (add_mutually_exclusive_group p).2.
Proof.
  intros g Hg. exists g. split; [| done]. simpl.
  apply elem_of_app. by left.
Qed.

Lemma flags_monotone fn kw : monotone (flags fn kw).
Proof.
  intros dflt p p' H. injection H as <-. apply flags_on_extends.
Qed.

Lemma pydef_monotone name f :
  (∀ p, extends p (f p)) → monotone (pydef name f).
Proof.
  intros Hf dflt p p' H. destruct dflt; [discriminate |].
  injection H as <-. apply Hf.
Qed.

Lemma lambda_monotone add : monotone add → monotone (lambda add).
Proof.
  intros Hadd dflt p p' H. destruct dflt; [discriminate |].
  by apply (Hadd None).
Qed.

Lemma partial_monotone add : monotone add → monotone (partial add).
Proof. done. Qed.

Lemma AddPrivateClusterDeprecated_monotone :
  monotone AddPrivateClusterDeprecated.
Proof.
  intros dflt p p' H. injection H as <-. apply flags_on_extends.
Qed.

Lemma AddPrivateIPv6Flag_monotone api : monotone (AddPrivateIPv6Flag api).
Proof. apply pydef_monotone. intros p. apply flags_on_extends. Qed.

Lemma AddAcceleratorFlag_monotone a b c : monotone (AddAcceleratorFlag a b c).
Proof. apply pydef_monotone. intros p. apply flags_on_extends. Qed.

Lemma _AddAdditionalZonesFlag_extends c deprecated p :
  extends p (_AddAdditionalZonesFlag c deprecated p).
Proof. apply add_argument_extends. Qed.

Lemma _AddAdditionalZonesGroup_extends p :
  extends p (_AddAdditionalZonesGroup p).
Proof.
  unfold _AddAdditionalZonesGroup.
  eapply extends_trans; [apply add_group_extends |].
  destruct (add_mutually_exclusive_group p) as [group p1]; simpl.
  eapply extends_trans;
    [apply _AddAdditionalZonesFlag_extends | apply flags_on_extends].
Qed.

Lemma _Args_extends p : extends p (_Args p).
Proof.
  unfold _Args.
  repeat (eapply extends_trans;
          [| first [apply add_argument_extends | apply flags_on_extends]]).
  apply extends_refl.
Qed.

(** Every entry of every table only adds. *)
Ltac entry_monotone :=
  lazymatch goal with
  | |- monotone (flags _ _) => apply flags_monotone
  | |- monotone AddPrivateClusterDeprecated =>
      apply AddPrivateClusterDeprecated_monotone
  | |- monotone (AddPrivateIPv6Flag _) => apply AddPrivateIPv6Flag_monotone
  | |- monotone (AddAcceleratorFlag _ _ _) =>
      apply AddAcceleratorFlag_monotone
  | |- monotone (partial _) => apply partial_monotone; entry_monotone
  | |- monotone (lambda _) => apply lambda_monotone; entry_monotone
  | |- monotone (pydef _ (_AddAdditionalZonesFlag _ _)) =>
      apply pydef_monotone; intros ?; apply _AddAdditionalZonesFlag_extends
  | |- monotone (pydef _ _AddAdditionalZonesGroup) =>
      apply pydef_monotone; intros ?; apply _AddAdditionalZonesGroup_extends
  | |- monotone (pydef _ _Args) =>
      apply pydef_monotone; intros ?; apply _Args_extends
  | |- monotone (pydef _ _) =>
      apply pydef_monotone; intros ?; apply flags_on_extends
  end.

Ltac table_monotone :=
  repeat (apply Forall_cons_2; [cbn [snd]; entry_monotone |]);
  apply Forall_nil_2.

Lemma flags_to_add_GA_monotone :
  Forall (λ entry, monotone entry.2) flags_to_add_GA.
Proof. unfold flags_to_add_GA. table_monotone. Qed.

Lemma flags_to_add_BETA_monotone :
  Forall (λ entry, monotone entry.2) flags_to_add_BETA.
Proof. unfold flags_to_add_BETA. table_monotone. Qed.

Lemma flags_to_add_ALPHA_monotone :
  Forall (λ entry, monotone entry.2) flags_to_add_ALPHA.
Proof. unfold flags_to_add_ALPHA. table_monotone. Qed.

Lemma flags_to_add_monotone channel :
  Forall (λ entry, monotone entry.2) (flags_to_add channel).
Proof.
  destruct channel;
    [ apply flags_to_add_GA_monotone
    | apply flags_to_add_BETA_monotone
    | apply flags_to_add_ALPHA_monotone ].
Qed.







End RegistrationFacts.

Section CreateParsingClaims.
Import Calliope ClustersCreate CreateEffects.
Context {S : Type} {CF : ContainerFlags} {CU : CommandUtil}
  {UT : ContainerUtil} {AD : ApiAdapter S}.


End CreateParsingClaims.

Section CreateRuns.
Import Calliope ClustersCreate CreateEffects.

(** On GA the tables register [--additional-zones] and
    [--node-locations] one by one: with the sample flags module the GA
    parser has no group, and a command line that sets both reaches the
    service. *)
Example ga_registers_zone_flags_separately :
  mutex_groups (Sample.parser_of GA) = []
  ∧ mutex_groups (Sample.parser_of BETA)
    = [["additional_zones"; "node_locations"]]
  ∧ length
      (calls
         (Execute (CF := Sample.container_flags) (CU := Sample.command_util)
            (UT := Sample.container_util) (AD := Sample.scripted_adapter)
            GA Sample.create_with_both_zone_flags
            (Sample.fresh Sample.service_rejects)).2)
    = 1%nat.
Proof. split_and!; vm_compute; reflexivity. Qed.

End CreateRuns.

Section PreparedRuns.
Import Calliope ClustersCreate.

(** What [Sample.prepared] returns, from the cluster reference it ends
    with. *)
Lemma prepared_parts s :
  Sample.prepared_ref s = Some Sample.sample_ref →
  Sample.prepared s
  = (ok (Sample.sample_ref, Sample.sample_options s),
     Sample.prepared_world s).
Proof.
  unfold Sample.prepared_ref, Sample.sample_options, Sample.prepared_world.
  destruct (Sample.prepared s) as [[e | [cluster_ref options]] w]; simpl.
  - discriminate.
  - by intros [= ->].
Qed.

End PreparedRuns.

Section CreateWitnesses.
Import Calliope ClustersCreate CreateEffects.


(** C5 at [clusters create sample-cluster] on GA, the service rejecting
    the request with [409 conflict]. *)
Lemma rejected_create_is_surfaced_without_retry_witness :
  Sample.prepared Sample.service_rejects
  = (ok (Sample.sample_ref, Sample.sample_options Sample.service_rejects),
     Sample.prepared_world Sample.service_rejects)
  ∧ CreateCluster (ApiAdapter := Sample.scripted_adapter) Sample.sample_ref
      (Sample.sample_options Sample.service_rejects)
      (provider (Sample.prepared_world Sample.service_rejects))
    = (raise (HttpError "409 conflict"), Sample.service_rejects)
  ∧ Run (CF := Sample.container_flags) (CU := Sample.command_util)
      (UT := Sample.container_util) (AD := Sample.scripted_adapter) GA
      (Sample.parsed GA Sample.create_sample Sample.service_rejects)
    = (raise (HttpException "409 conflict"
                (HTTP_ERROR_FORMAT (ContainerUtil := Sample.container_util))),
       called (Sample.prepared_world Sample.service_rejects)
         (CallCreateCluster Sample.sample_ref
            (Sample.sample_options Sample.service_rejects))
         Sample.service_rejects).
Proof.
  assert (H1 := prepared_parts Sample.service_rejects
                  ltac:(vm_compute; reflexivity)).
  assert (H2 : CreateCluster (ApiAdapter := Sample.scripted_adapter)
                 Sample.sample_ref
                 (Sample.sample_options Sample.service_rejects)
                 (provider (Sample.prepared_world Sample.service_rejects))
               = (raise (HttpError "409 conflict"), Sample.service_rejects))
    by (vm_compute; reflexivity).
  split_and!; [exact H1 | exact H2 |].
  exact (proj1 (rejected_create_is_surfaced_without_retry
                  (CF := Sample.container_flags) (CU := Sample.command_util)
                  (UT := Sample.container_util)
                  (AD := Sample.scripted_adapter)
                  GA _ _ _ _ _ _ H1 H2)).
Defined.

(** C6 at [clusters create sample-cluster] on GA, the operation
    completing and the cluster being gone when it is fetched. *)
Lemma failed_fetch_surfaces_as_the_adapter_raised_it_witness :
  Sample.prepared Sample.service_loses_cluster
  = (ok (Sample.sample_ref,
         Sample.sample_options Sample.service_loses_cluster),
     Sample.prepared_world Sample.service_loses_cluster)
  ∧ CreateCluster (ApiAdapter := Sample.scripted_adapter) Sample.sample_ref
      (Sample.sample_options Sample.service_loses_cluster)
      (provider (Sample.prepared_world Sample.service_loses_cluster))
    = (ok Sample.operation_ref, Sample.service_loses_cluster)
  ∧ attr (args (Sample.prepared_world Sample.service_loses_cluster)) "async_"
    = ok (VBool false)
  ∧ attr (args (Sample.prepared_world Sample.service_loses_cluster))
      "timeout"
    = ok (VInt 3600)
  ∧ Run (CF := Sample.container_flags) (CU := Sample.command_util)
      (UT := Sample.container_util) (AD := Sample.scripted_adapter) GA
      (Sample.parsed GA Sample.create_sample Sample.service_loses_cluster)
    = (raise (surfaced
                (HTTP_ERROR_FORMAT (ContainerUtil := Sample.container_util))
                (HttpError "404 not found")),
       called
         (called
            (called (Sample.prepared_world Sample.service_loses_cluster)
               (CallCreateCluster Sample.sample_ref
                  (Sample.sample_options Sample.service_loses_cluster))
               Sample.service_loses_cluster)
            (CallWaitForOperation Sample.operation_ref
               (waiting_message Sample.sample_ref) (VInt 3600))
            Sample.service_loses_cluster)
         (CallGetCluster Sample.sample_ref) Sample.service_loses_cluster).
Proof.
  assert (H1 := prepared_parts Sample.service_loses_cluster
                  ltac:(vm_compute; reflexivity)).
  assert (H2 : CreateCluster (ApiAdapter := Sample.scripted_adapter)
                 Sample.sample_ref
                 (Sample.sample_options Sample.service_loses_cluster)
                 (provider
                    (Sample.prepared_world Sample.service_loses_cluster))
               = (ok Sample.operation_ref, Sample.service_loses_cluster))
    by (vm_compute; reflexivity).
  assert (H3 : attr (args (Sample.prepared_world
                             Sample.service_loses_cluster)) "async_"
               = ok (VBool false))
    by (vm_compute; reflexivity).
  assert (H4 : attr (args (Sample.prepared_world
                             Sample.service_loses_cluster)) "timeout"
               = ok (VInt 3600))
    by (vm_compute; reflexivity).
  split_and!; [exact H1 | exact H2 | exact H3 | exact H4 |].
  refine (proj1 (failed_fetch_surfaces_as_the_adapter_raised_it
                   (CF := Sample.container_flags) (CU := Sample.command_util)
                   (UT := Sample.container_util)
                   (AD := Sample.scripted_adapter)
                   GA _ _ _ _ _ _ _ _ H1 H2 H3 eq_refl H4)
            Sample.done_with_detail Sample.service_loses_cluster
            (HttpError "404 not found") Sample.service_loses_cluster _ _);
    vm_compute; reflexivity.
Defined.

(** C6, counterexample.  [clusters create sample-cluster] on GA with four
    services.  When the service answers [503] to the fetch, after the
    operation has completed, [Run] raises the very exception it raises
    when the service answers [503] to the wait or to the request itself.
    And when the adapter reports a cluster it cannot find with
    [util.Error], [Run] raises that [util.Error], the kind that a failed
    operation surfaces as.  In neither case can the caller tell from the
    error that the operation succeeded and only the fetch failed. *)
Lemma failed_fetch_is_not_told_apart_by_the_error :
  CreateSamples.surfaced_by CreateSamples.service_fetch_unavailable
  = Some (HttpException "503 unavailable"
            (HTTP_ERROR_FORMAT (ContainerUtil := Sample.container_util)))
  ∧ CreateSamples.surfaced_by CreateSamples.service_wait_unavailable
    = CreateSamples.surfaced_by CreateSamples.service_fetch_unavailable
  ∧ CreateSamples.surfaced_by CreateSamples.service_create_unavailable
    = CreateSamples.surfaced_by CreateSamples.service_fetch_unavailable
  ∧ CreateSamples.surfaced_by Sample.service_operation_fails
    = Some (UtilError "Operation [operation-1] finished with error")
  ∧ CreateSamples.surfaced_by CreateSamples.service_fetch_error
    = Some (UtilError "No cluster named 'sample-cluster'").
Proof. split_and!; vm_compute; reflexivity. Qed.



(** C7 at [clusters create sample-cluster] on GA, the operation
    completing with a detail. *)
Lemma operation_detail_is_surfaced_as_warning_witness :
  Sample.prepared Sample.service_ok
  = (ok (Sample.sample_ref, Sample.sample_options Sample.service_ok),
     Sample.prepared_world Sample.service_ok)
  ∧ getfield Sample.done_with_detail "detail"
    = ok (VStr "node pool default-pool is using a deprecated image")
  ∧ (∀ e, Persist (ContainerUtil := Sample.container_util)
            Sample.sample_cluster (projectId Sample.sample_ref)
          = raise e →
          ∃ msg, e = MissingEnvVarError msg)
  ∧ (Run (CF := Sample.container_flags) (CU := Sample.command_util)
       (UT := Sample.container_util) (AD := Sample.scripted_adapter) GA
       (Sample.parsed GA Sample.create_sample Sample.service_ok)).1
    = ok (VSeq [Sample.sample_cluster])
  ∧ "node pool default-pool is using a deprecated image"
    ∈ warnings
        (Run (CF := Sample.container_flags) (CU := Sample.command_util)
           (UT := Sample.container_util) (AD := Sample.scripted_adapter) GA
           (Sample.parsed GA Sample.create_sample Sample.service_ok)).2.
Proof.
  assert (H1 := prepared_parts Sample.service_ok
                  ltac:(vm_compute; reflexivity)).
  assert (H2 : getfield Sample.done_with_detail "detail"
               = ok (VStr
                       "node pool default-pool is using a deprecated image"))
    by reflexivity.
  assert (H3 : ∀ e, Persist (ContainerUtil := Sample.container_util)
                      Sample.sample_cluster (projectId Sample.sample_ref)
                    = raise e →
                    ∃ msg, e = MissingEnvVarError msg)
    by (intros e He; vm_compute in He; discriminate).
  assert (H : _ ∧ _ ∧ _) by
    (refine (operation_detail_is_surfaced_as_warning
               (CF := Sample.container_flags)
               (CU := Sample.command_util)
               (UT := Sample.container_util)
               (AD := Sample.scripted_adapter)
               GA _ _ Sample.sample_ref
               (Sample.sample_options Sample.service_ok)
               Sample.operation_ref Sample.service_ok (VBool false)
               (VInt 3600) Sample.done_with_detail Sample.service_ok
               Sample.sample_cluster Sample.service_ok _
               H1 _ _ eq_refl _ _ _ H2 eq_refl H3);
     vm_compute; reflexivity).
  split_and!; [exact H1 | exact H2 | exact H3 | exact (proj1 H) |].
  exact (proj1 (proj2 H)).
Defined.

End CreateWitnesses.

(** ** The rule update: what the flags put into the request *)

Section UpdateFlagFacts.
Import Calliope FirewallPolicyRulesUpdate UpdateShapes UpdateFlags.
Context {RU : RuleUtils} {FPU : FirewallPoliciesUtils}.

(** The body of a block, once it returned, has only done assignments. *)
Ltac assignments_keep :=
  let l0 := fresh "l" in
  let l1 := fresh "l" in
  let Hb := fresh "Hb" in
  let HP := fresh "HP" in
  intros l0 l1 Hb HP; cbv beta in Hb; invert_ok Hb; injection Hb as <-;
  simpl; first [exact HP | reflexivity].

(** Every block that keeps [P] becomes the fact that it does; the goal
    is then reached by walking from block to block. *)
Ltac walk P :=
  repeat match goal with
         | H : if_specified _ _ _ ?a = ok ?b |- _ =>
             let K := fresh "K" in
             pose proof (if_specified_keeps P _ _ _ _ _ H) as K;
             specialize (K ltac:(assignments_keep));
             cbv beta in K; clear H
         | H : ok ?a = ok ?b |- _ => injection H as <-
         end;
  eauto 20.

(** The blocks of [read_flags] on a given track. *)
Ltac gates H :=
  repeat match type of H with
         | context [bool_decide ?P] =>
             let b := eval vm_compute in (bool_decide P) in
             change (bool_decide P) with b in H
         end;
  cbv iota in H.

Ltac open_blocks H :=
  unfold read_flags in H; gates H;
  repeat match goal with
         | H' : rbind _ _ = ok _ |- _ =>
             let x := fresh "l" in
             let Hx := fresh "Hl" in
             apply rbind_ok in H' as (x & Hx & H')
         end.

(** The block of [name] assigns the local variable [F]. *)
Ltac owned name F l :=
  match goal with
  | Hb : if_specified _ name _ ?a = ok ?b |- _ =>
      let Hown := fresh "Hown" in
      let sp := fresh "sp" in
      let Hsp := fresh "Hsp" in
      pose proof Hb as Hown; unfold if_specified in Hown;
      apply rbind_ok in Hown as (sp & Hsp & Hown);
      exists sp; split; [exact Hsp |];
      destruct sp;
      [ cbv beta in Hown; invert_ok Hown;
        match goal with
        | Hx : attr _ name = ok ?x |- _ =>
            let Hn := fresh "Hn" in
            assert (Hn : F b = x) by (injection Hown as <-; reflexivity);
            rewrite Hx; f_equal; symmetry; clear Hown;
            walk (λ y, F y = x)
        end
      | injection Hown as <-; walk (λ y, F y = F l) ]
  end.

(** Each list variable of [Run] ends up as the value of its flag when
    the flag was specified, and as it started otherwise. *)

Lemma read_flags_src_ip_ranges track args c l l' :
  read_flags track args c l = ok l' →
  ∃ b, IsSpecified args "src_ip_ranges" = ok b
       ∧ if b then attr args "src_ip_ranges" = ok (src_ip_ranges l')
         else src_ip_ranges l' = src_ip_ranges l.
Proof.
  intros H. destruct track; open_blocks H; owned "src_ip_ranges" src_ip_ranges l.
Qed.

Lemma read_flags_dest_ip_ranges track args c l l' :
  read_flags track args c l = ok l' →
  ∃ b, IsSpecified args "dest_ip_ranges" = ok b
       ∧ if b then attr args "dest_ip_ranges" = ok (dest_ip_ranges l')
         else dest_ip_ranges l' = dest_ip_ranges l.
Proof.
  intros H. destruct track; open_blocks H; owned "dest_ip_ranges" dest_ip_ranges l.
Qed.

Lemma read_flags_target_resources track args c l l' :
  read_flags track args c l = ok l' →
  ∃ b, IsSpecified args "target_resources" = ok b
       ∧ if b then attr args "target_resources" = ok (target_resources l')
         else target_resources l' = target_resources l.
Proof.
  intros H. destruct track; open_blocks H; owned "target_resources" target_resources l.
Qed.

Lemma read_flags_target_service_accounts track args c l l' :
  read_flags track args c l = ok l' →
  ∃ b, IsSpecified args "target_service_accounts" = ok b
       ∧ if b then attr args "target_service_accounts" = ok (target_service_accounts l')
         else target_service_accounts l' = target_service_accounts l.
Proof.
  intros H. destruct track; open_blocks H; owned "target_service_accounts" target_service_accounts l.
Qed.

Lemma read_flags_src_fqdns track args c l l' :
  track = ALPHA →
  read_flags track args c l = ok l' →
  ∃ b, IsSpecified args "src_fqdns" = ok b
       ∧ if b then attr args "src_fqdns" = ok (src_fqdns l')
         else src_fqdns l' = src_fqdns l.
Proof.
  intros -> H. open_blocks H. owned "src_fqdns" src_fqdns l.
Qed.

Lemma read_flags_dest_fqdns track args c l l' :
  track = ALPHA →
  read_flags track args c l = ok l' →
  ∃ b, IsSpecified args "dest_fqdns" = ok b
       ∧ if b then attr args "dest_fqdns" = ok (dest_fqdns l')
         else dest_fqdns l' = dest_fqdns l.
Proof.
  intros -> H. open_blocks H. owned "dest_fqdns" dest_fqdns l.
Qed.

Lemma read_flags_src_threat_intelligence track args c l l' :
  track ≠ GA →
  read_flags track args c l = ok l' →
  ∃ b, IsSpecified args "src_threat_intelligence" = ok b
       ∧ if b then attr args "src_threat_intelligence" = ok (src_threat_intelligence l')
         else src_threat_intelligence l' = src_threat_intelligence l.
Proof.
  intros Ht H. destruct track; [done | |]; open_blocks H;
    owned "src_threat_intelligence" src_threat_intelligence l.
Qed.

Lemma read_flags_dest_threat_intelligence track args c l l' :
  track ≠ GA →
  read_flags track args c l = ok l' →
  ∃ b, IsSpecified args "dest_threat_intelligence" = ok b
       ∧ if b then attr args "dest_threat_intelligence" = ok (dest_threat_intelligence l')
         else dest_threat_intelligence l' = dest_threat_intelligence l.
Proof.
  intros Ht H. destruct track; [done | |]; open_blocks H;
    owned "dest_threat_intelligence" dest_threat_intelligence l.
Qed.

Lemma read_flags_src_region_codes track args c l l' :
  track ≠ GA →
  read_flags track args c l = ok l' →
  ∃ b, IsSpecified args "src_region_codes" = ok b
       ∧ if b then attr args "src_region_codes" = ok (src_region_codes l')
         else src_region_codes l' = src_region_codes l.
Proof.
  intros Ht H. destruct track; [done | |]; open_blocks H;
    owned "src_region_codes" src_region_codes l.
Qed.

Lemma read_flags_dest_region_codes track args c l l' :
  track ≠ GA →
  read_flags track args c l = ok l' →
  ∃ b, IsSpecified args "dest_region_codes" = ok b
       ∧ if b then attr args "dest_region_codes" = ok (dest_region_codes l')
         else dest_region_codes l' = dest_region_codes l.
Proof.
  intros Ht H. destruct track; [done | |]; open_blocks H;
    owned "dest_region_codes" dest_region_codes l.
Qed.

Lemma read_flags_layer4_configs track args c l l' :
  read_flags track args c l = ok l' →
  ∃ b, IsSpecified args "layer4_configs" = ok b
       ∧ if b then
           ∃ v, attr args "layer4_configs" = ok v
                ∧ ParseLayer4Configs v track = ok (layer4_config_list l')
         else layer4_config_list l' = layer4_config_list l.
Proof.
  intros H.
  destruct track; open_blocks H;
    match goal with
    | Hb : if_specified _ "layer4_configs" _ ?a = ok ?b |- _ =>
        pose proof Hb as Hown; unfold if_specified in Hown;
        apply rbind_ok in Hown as (sp & Hsp & Hown);
        exists sp; split; [exact Hsp |];
        destruct sp;
        [ cbv beta zeta in Hown; invert_ok Hown;
          match goal with
          | Hx : attr _ "layer4_configs" = ok ?x,
            Hc : ParseLayer4Configs ?x _ = ok ?c |- _ =>
              assert (Hn : layer4_config_list b = c)
                by (injection Hown as <-; reflexivity);
              exists x; split; [exact Hx |];
              rewrite Hc; f_equal; symmetry; clear Hown;
              walk (λ y, layer4_config_list y = c)
          end
        | injection Hown as <-;
          walk (λ y, layer4_config_list y = layer4_config_list l) ]
    end.
Qed.


(** [read_flags] leaves [should_setup_match] unset when no flag of the
    matcher was specified, and sets it as soon as one was. *)
Lemma read_flags_no_matcher_flag track args c l' :
  read_flags track args c init_locals = ok l' →
  (∀ n, n ∈ matcher_flags track → IsSpecified args n = ok false) →
  should_setup_match l' = false.
Proof.
  intros H Hnone.
  destruct track; open_blocks H;
    repeat match goal with
           | Hb : if_specified _ ?n _ ?a = ok ?b |- _ =>
               match type of Hnone with
               | ∀ _, _ ∈ ?flags → _ =>
                   let known := eval vm_compute in (bool_decide (n ∈ flags)) in
                   lazymatch known with
                   | true =>
                       apply (if_specified_skip _ _ _ _ _
                                (Hnone n ltac:(in_list))) in Hb;
                       subst b
                   | false =>
                       let K := fresh "K" in
                       pose proof
                         (if_specified_keeps
                            (λ y, should_setup_match y = false) _ _ _ _ _ Hb)
                         as K;
                       specialize (K ltac:(assignments_keep));
                       cbv beta in K; clear Hb
                   end
               end
           end;
    walk (λ y, should_setup_match y = false).
Qed.

Ltac sets_the_flag name Hs :=
  match goal with
  | Hb : if_specified _ name _ ?a = ok ?b |- _ =>
      let sp := fresh "sp" in
      let Hsp := fresh "Hsp" in
      let Hn := fresh "Hn" in
      unfold if_specified in Hb;
      apply rbind_ok in Hb as (sp & Hsp & Hb);
      rewrite Hs in Hsp; injection Hsp as <-;
      assert (Hn : should_setup_match b = true)
        by (cbv beta zeta in Hb; invert_ok Hb; injection Hb as <-;
            reflexivity);
      clear Hb;
      walk (λ y, should_setup_match y = true)
  end.

Lemma read_flags_some_matcher_flag track args c l l' n :
  read_flags track args c l = ok l' →
  n ∈ matcher_flags track → IsSpecified args n = ok true →
  should_setup_match l' = true.
Proof.
  intros H Hn Hs.
  destruct track; simpl in Hn;
    repeat (apply elem_of_cons in Hn as [-> | Hn]);
    try (by apply elem_of_nil in Hn);
    open_blocks H;
    match type of Hs with
    | IsSpecified _ ?name = _ => sets_the_flag name Hs
    end.
Qed.

End UpdateFlagFacts.

Section UpdateRequestContents.
Import Calliope FirewallPolicyRulesUpdate UpdateShapes UpdateFlags.
Context {RU : RuleUtils} {FPU : FirewallPoliciesUtils}.

(** Every step a returning [Run] has gone through. *)
Lemma Run_ok_steps track args call :
  Run track args = ok call →
  ∃ ref l1 l2 b new_priority action description,
    ResolveAsResource args = ok ref
    ∧ ConvertPriorityToInt (VStr (Name ref)) = ok (upd_priority call)
    ∧ read_flags track args
        {| policy_ref := ref; policy_version := text_type_lower track |}
        init_locals = ok l1
    ∧ IsSpecified args "new_priority" = ok b
    ∧ (if b then
         ∃ v, attr args "new_priority" = ok v
              ∧ ConvertPriorityToInt v = ok new_priority
       else new_priority = upd_priority call)
    ∧ (∃ d, IsSpecified args "direction" = ok d
            ∧ if d then
                ∃ v, attr args "direction" = ok v
                     ∧ traffic_direct l2
                       = (if eq_str v "INGRESS" then VEnum "INGRESS"
                          else VEnum "EGRESS")
              else traffic_direct l2 = VNone)
    ∧ matcher l2
      = (if should_setup_match l1 then build_matcher track l1 else VNone)
    ∧ attr args "action" = ok action
    ∧ attr args "description" = ok description
    ∧ upd_firewall_policy_rule call
      = build_rule track new_priority action description l2.
Proof.
  intros H. unfold Run in H.
  apply rbind_ok in H as (ref & Href & H).
  apply rbind_ok in H as (priority & Hpriority & H).
  apply rbind_ok in H as (l1 & Hl1 & H).
  apply rbind_ok in H as (b & Hb & H).
  apply rbind_ok in H as (new_priority & Hnew & H).
  apply rbind_ok in H as (l2 & Hl2 & H).
  apply rbind_ok in H as (action & Haction & H).
  apply rbind_ok in H as (description & Hdescription & H).
  invert_ok H. injection H as <-. simpl.
  exists ref, l1, l2, b, new_priority, action, description.
  destruct (read_flags_matcher _ _ _ _ _ Hl1) as [Hm Ht].
  simpl in Hm, Ht.
  unfold if_specified in Hl2.
  apply rbind_ok in Hl2 as (d & Hd & Hl2).
  split_and!; try done.
  - destruct b.
    + apply rbind_ok in Hnew as (v & Hv & Hnew). by exists v.
    + by injection Hnew.
  - exists d. split; [done |]. destruct d.
    + apply rbind_ok in Hl2 as (v & Hv & Hl2). exists v. split; [done |].
      by injection Hl2 as <-.
    + injection Hl2 as <-. by destruct (should_setup_match l1).
  - destruct d.
    + apply rbind_ok in Hl2 as (v & Hv & Hl2). injection Hl2 as <-.
      by destruct (should_setup_match l1).
    + injection Hl2 as <-. by destruct (should_setup_match l1).
Qed.

Lemma build_rule_direction track new_priority action description l :
  field "direction" (build_rule track new_priority action description l)
  = Some (traffic_direct l).
Proof. unfold build_rule. by case_bool_decide. Qed.

(** X1. The rule carries a matcher exactly when a flag of the matcher
    was specified: with none of them the keyword [match] is [None], and
    one of them is enough for a [FirewallPolicyRuleMatcher] with the
    keywords of the track.  The target flags, the logging and disabling
    flags, the priority and the direction play no part in it. *)
Theorem matcher_is_sent_when_a_matcher_flag_is_specified track args call :
  Run track args = ok call →
  ((∀ n, n ∈ matcher_flags track → IsSpecified args n = ok false) →
   field "match" (upd_firewall_policy_rule call) = Some VNone)
  ∧ (∀ n, n ∈ matcher_flags track → IsSpecified args n = ok true →
       ∃ kw,
         field "match" (upd_firewall_policy_rule call)
         = Some (VMsg "FirewallPolicyRuleMatcher" kw)
         ∧ kw.*1 = matcher_fields track).
Proof.
  intros H.
  apply Run_ok_steps in H
    as (ref & l1 & l2 & b & np & a & d & _ & _ & Hl1 & _ & _ & _ & Hm & _
        & _ & ->).
  rewrite build_rule_match, Hm. split.
  - intros Hnone. by rewrite (read_flags_no_matcher_flag _ _ _ _ Hl1 Hnone).
  - intros n Hn Hs.
    rewrite (read_flags_some_matcher_flag _ _ _ _ _ _ Hl1 Hn Hs).
    destruct track; eexists; split; reflexivity.
Qed.

(** What each keyword of the matcher holds, in terms of the locals. *)
Lemma copied_field track l n f :
  (n, f) ∈ copied_into_matcher → f ∈ matcher_fields track →
  ∃ F : Locals → value,
    field f (build_matcher track l) = Some (F l)
    ∧ F init_locals = VList []
    ∧ ∀ args c l',
        read_flags track args c init_locals = ok l' →
        ∃ b, IsSpecified args n = ok b
             ∧ if b then attr args n = ok (F l') else F l' = F init_locals.
Proof.
  intros Hin Hf. unfold copied_into_matcher in Hin.
  repeat (apply elem_of_cons in Hin as [[= -> ->] | Hin]);
    try (by apply elem_of_nil in Hin).
  - exists src_ip_ranges. split_and!; [by destruct track | done |].
    intros args c l'. apply read_flags_src_ip_ranges.
  - exists dest_ip_ranges. split_and!; [by destruct track | done |].
    intros args c l'. apply read_flags_dest_ip_ranges.
  - assert (track = ALPHA) as ->
      by (destruct track; [exfalso; revert Hf; in_list
                          | exfalso; revert Hf; in_list | done]).
    exists src_fqdns. split_and!; [done | done |].
    intros args c l'. by apply read_flags_src_fqdns.
  - assert (track = ALPHA) as ->
      by (destruct track; [exfalso; revert Hf; in_list
                          | exfalso; revert Hf; in_list | done]).
    exists dest_fqdns. split_and!; [done | done |].
    intros args c l'. by apply read_flags_dest_fqdns.
  - assert (track ≠ GA)
      by (destruct track; [exfalso; revert Hf; in_list | done | done]).
    exists src_region_codes. split_and!; [by destruct track | done |].
    intros args c l'. by apply read_flags_src_region_codes.
  - assert (track ≠ GA)
      by (destruct track; [exfalso; revert Hf; in_list | done | done]).
    exists dest_region_codes. split_and!; [by destruct track | done |].
    intros args c l'. by apply read_flags_dest_region_codes.
  - assert (track ≠ GA)
      by (destruct track; [exfalso; revert Hf; in_list | done | done]).
    exists src_threat_intelligence. split_and!; [by destruct track | done |].
    intros args c l'. by apply read_flags_src_threat_intelligence.
  - assert (track ≠ GA)
      by (destruct track; [exfalso; revert Hf; in_list | done | done]).
    exists dest_threat_intelligence. split_and!; [by destruct track | done |].
    intros args c l'. by apply read_flags_dest_threat_intelligence.
Qed.

(** X2. When a matcher is sent, it is a whole matcher: each keyword of
    the track holds the value of its flag if the flag was specified and
    the empty list otherwise, so that a flag left out is sent as empty
    rather than left alone.  [layer4Configs] holds what
    [ParseLayer4Configs] makes of [--layer4-configs]. *)
Theorem matcher_holds_the_flags_or_empty_lists track args call :
  Run track args = ok call →
  matcher_of call ≠ VNone →
  (∀ n f, (n, f) ∈ copied_into_matcher → f ∈ matcher_fields track →
     ∃ b, IsSpecified args n = ok b
          ∧ if b then
              ∃ v, attr args n = ok v
                   ∧ field f (matcher_of call) = Some v
            else field f (matcher_of call) = Some (VList []))
  ∧ (∃ b, IsSpecified args "layer4_configs" = ok b
          ∧ if b then
              ∃ v c, attr args "layer4_configs" = ok v
                     ∧ ParseLayer4Configs v track = ok c
                     ∧ field "layer4Configs" (matcher_of call) = Some c
            else field "layer4Configs" (matcher_of call) = Some (VSeq [])).
Proof.
  intros H. unfold matcher_of.
  apply Run_ok_steps in H
    as (ref & l1 & l2 & b & np & a & d & _ & _ & Hl1 & _ & _ & _ & Hm & _
        & _ & ->).
  rewrite build_rule_match, Hm. simpl.
  destruct (should_setup_match l1); [intros _ | done]. split.
  - intros n f Hin Hf.
    destruct (copied_field track l1 n f Hin Hf) as (F & -> & Hinit & Hread).
    destruct (Hread _ _ _ Hl1) as (sp & Hsp & HF).
    exists sp. split; [done |]. destruct sp.
    + by exists (F l1).
    + by rewrite HF, Hinit.
  - destruct (read_flags_layer4_configs _ _ _ _ _ Hl1) as (sp & Hsp & HF).
    exists sp. split; [done |]. destruct sp.
    + destruct HF as (v & Hv & Hc). exists v, (layer4_config_list l1).
      split_and!; [done | done |]. by destruct track.
    + destruct track; simpl; by rewrite HF.
Qed.

(** X3. The direction of the rule is [INGRESS] only for the exact word
    [INGRESS]; any other value of [--direction], [ingress] in lower case
    included, is sent as [EGRESS], and without the flag the keyword is
    [None]. *)
Theorem direction_is_egress_unless_the_exact_word_ingress track args call :
  Run track args = ok call →
  ∃ b, IsSpecified args "direction" = ok b
       ∧ if b then
           ∃ v, attr args "direction" = ok v
                ∧ field "direction" (upd_firewall_policy_rule call)
                  = Some (if eq_str v "INGRESS" then VEnum "INGRESS"
                          else VEnum "EGRESS")
         else field "direction" (upd_firewall_policy_rule call) = Some VNone.
Proof.
  intros H.
  apply Run_ok_steps in H
    as (ref & l1 & l2 & b & np & a & d & _ & _ & _ & _ & _ & Hd & _ & _
        & _ & ->).
  rewrite build_rule_direction.
  destruct Hd as (sp & Hsp & Hd). exists sp. split; [done |].
  destruct sp.
  - destruct Hd as (v & Hv & ->). by exists v.
  - by rewrite Hd.
Qed.

(** X4. With [--new-priority] the rule that is sent carries the new
    priority, and the call still addresses the rule by the priority
    parsed from its name. *)
Theorem new_priority_goes_into_the_rule_and_not_into_its_address
    track args call :
  IsSpecified args "new_priority" = ok true →
  Run track args = ok call →
  ∃ ref v z,
    ResolveAsResource args = ok ref
    ∧ ConvertPriorityToInt (VStr (Name ref)) = ok (upd_priority call)
    ∧ attr args "new_priority" = ok v
    ∧ ConvertPriorityToInt v = ok z
    ∧ field "priority" (upd_firewall_policy_rule call) = Some (VInt z).
Proof.
  intros Hs H.
  apply Run_ok_steps in H
    as (ref & l1 & l2 & b & np & a & d & Href & Hp & _ & Hb & Hnew & _ & _
        & _ & _ & ->).
  rewrite Hs in Hb. injection Hb as <-.
  destruct Hnew as (v & Hv & Hz).
  exists ref, v, np. by rewrite build_rule_priority.
Qed.

End UpdateRequestContents.

(** ** The rule update: the request shapes of the three tracks *)

Section UpdateShapeClaims.
Import Calliope FirewallPolicyRulesUpdate UpdateShapes UpdateFlags.
Context {RU : RuleUtils} {FPU : FirewallPoliciesUtils}.

(** When [Run] returns, the matcher of the rule is decided by the flags
    of the matcher alone. *)
Lemma Run_matcher_of track args call :
  Run track args = ok call →
  ((∀ n, n ∈ matcher_flags track → IsSpecified args n = ok false) →
   matcher_of call = VNone)
  ∧ (∀ n, n ∈ matcher_flags track → IsSpecified args n = ok true →
       ∃ kw, matcher_of call = VMsg "FirewallPolicyRuleMatcher" kw
             ∧ kw.*1 = matcher_fields track).
Proof.
  intros H. unfold matcher_of.
  apply Run_ok_steps in H
    as (ref & l1 & l2 & b & np & a & d & _ & _ & Hl1 & _ & _ & _ & Hm & _
        & _ & ->).
  rewrite build_rule_match, Hm. split.
  - intros Hnone. by rewrite (read_flags_no_matcher_flag _ _ _ _ Hl1 Hnone).
  - intros n Hn Hs.
    rewrite (read_flags_some_matcher_flag _ _ _ _ _ _ Hl1 Hn Hs).
    destruct track; eexists; split; reflexivity.
Qed.

(** C2. An option that only the BETA or the ALPHA track registers never
    reaches the request built on GA: [Run] on GA returns the same call
    whether or not the option is set, and the keyword the option feeds is
    neither in the rule nor in the matcher.  On every track [Run] builds
    a matcher as soon as one flag of the matcher is specified, and the
    matcher it builds has exactly the keywords of its track; with no such
    flag there is no matcher.  The GA matcher has [srcIpRanges],
    [destIpRanges] and [layer4Configs] only, and the three keyword sets
    are distinct and nested, GA within BETA within ALPHA: one command
    line that specifies a matcher flag of GA is sent in three different
    shapes on the three tracks. *)
Theorem ga_request_never_carries_beta_alpha_options O :
  O ∈ dests (Args BETA empty_parser) ∨ O ∈ dests (Args ALPHA empty_parser) →
  O ∉ dests (Args GA empty_parser) →
  (∀ args v, Run GA (with_flag O v args) = Run GA args)
  ∧ (∀ args call f,
       Run GA args = ok call → request_field O = Some f →
       (f ∉ field_names (upd_firewall_policy_rule call))
       ∧ (f ∉ field_names (matcher_of call)))
  ∧ (∀ args call,
       Run GA args = ok call →
       matcher_of call = VNone
       ∨ field_names (matcher_of call)
         = ["srcIpRanges"; "destIpRanges"; "layer4Configs"])
  ∧ (∀ track args call,
       Run track args = ok call →
       matcher_of call = VNone
       ∨ field_names (matcher_of call) = matcher_fields track)
  ∧ matcher_fields GA ⊆ matcher_fields BETA
  ∧ matcher_fields BETA ⊆ matcher_fields ALPHA
  ∧ matcher_fields GA ≠ matcher_fields BETA
  ∧ matcher_fields BETA ≠ matcher_fields ALPHA
  ∧ matcher_fields GA ≠ matcher_fields ALPHA
  ∧ (∀ track args call n,
       Run track args = ok call →
       n ∈ matcher_flags track → IsSpecified args n = ok true →
       ∃ kw, matcher_of call = VMsg "FirewallPolicyRuleMatcher" kw
             ∧ kw.*1 = matcher_fields track)
  ∧ (∀ track args call,
       Run track args = ok call →
       (∀ n, n ∈ matcher_flags track → IsSpecified args n = ok false) →
       matcher_of call = VNone)
  ∧ (∀ args n call_ga call_beta call_alpha,
       n ∈ matcher_flags GA → IsSpecified args n = ok true →
       Run GA args = ok call_ga → Run BETA args = ok call_beta →
       Run ALPHA args = ok call_alpha →
       field_names (matcher_of call_ga)
       = ["srcIpRanges"; "destIpRanges"; "layer4Configs"]
       ∧ field_names (matcher_of call_ga) ≠ field_names (matcher_of call_beta)
       ∧ field_names (matcher_of call_beta)
         ≠ field_names (matcher_of call_alpha)
       ∧ field_names (matcher_of call_ga)
         ≠ field_names (matcher_of call_alpha)).
Proof.
  intros _ Hout. split_and!.
  - intros args v. by apply Run_ignores_unregistered.
  - intros args call f Hrun Hf.
    exact (Run_skips_gated_fields GA O f args call Hout Hf Hrun).
  - intros args call Hrun. exact (Run_matcher_shape GA args call Hrun).
  - intros track args call Hrun.
    exact (Run_matcher_shape track args call Hrun).
  - in_list.
  - in_list.
  - discriminate.
  - discriminate.
  - discriminate.
  - intros track args call n Hrun Hn Hs.
    exact (proj2 (Run_matcher_of track args call Hrun) n Hn Hs).
  - intros track args call Hrun Hnone.
    exact (proj1 (Run_matcher_of track args call Hrun) Hnone).
  - intros args n call_ga call_beta call_alpha Hn Hs Hga Hbeta Halpha.
    assert (Hsub : matcher_flags GA ⊆ matcher_flags BETA
                   ∧ matcher_flags GA ⊆ matcher_flags ALPHA)
      by (split; in_list).
    assert (Hnb : n ∈ matcher_flags BETA) by (by apply Hsub).
    assert (Hna : n ∈ matcher_flags ALPHA) by (by apply Hsub).
    destruct (proj2 (Run_matcher_of _ _ _ Hga) n Hn Hs) as (kg & -> & Hkg).
    destruct (proj2 (Run_matcher_of _ _ _ Hbeta) n Hnb Hs)
      as (kb & -> & Hkb).
    destruct (proj2 (Run_matcher_of _ _ _ Halpha) n Hna Hs)
      as (ka & -> & Hka).
    simpl. rewrite Hkg, Hkb, Hka. split_and!; [done | | |]; discriminate.
Qed.

End UpdateShapeClaims.

Section UpdateShapeWitnesses.
Import Calliope FirewallPolicyRulesUpdate UpdateShapes UpdateFlags.

(** C2 at [--src-fqdns], which only the ALPHA track registers, and at
    [update 10 --firewall-policy=123456789 --src-ip-ranges=10.0.0.0/8]
    on GA, where the matcher has the three keywords of GA. *)
Lemma ga_request_never_carries_beta_alpha_options_witness :
  ("src_fqdns" ∈ dests (Args BETA empty_parser)
   ∨ "src_fqdns" ∈ dests (Args ALPHA empty_parser))
  ∧ ("src_fqdns" ∉ dests (Args GA empty_parser))
  ∧ (∀ args v,
       Run (RU := Sample.rule_utils) (FPU := Sample.firewall_policies_utils)
         GA (with_flag "src_fqdns" v args)
       = Run (RU := Sample.rule_utils)
           (FPU := Sample.firewall_policies_utils) GA args)
  ∧ ∃ call,
      Run (RU := Sample.rule_utils) (FPU := Sample.firewall_policies_utils)
        GA (Sample.update_args GA UpdateSamples.update_src_ip_ranges)
      = ok call
      ∧ ∃ kw, matcher_of call = VMsg "FirewallPolicyRuleMatcher" kw
              ∧ kw.*1 = matcher_fields GA.
Proof.
  assert (H1 : "src_fqdns" ∈ dests (Args BETA empty_parser)
               ∨ "src_fqdns" ∈ dests (Args ALPHA empty_parser))
    by (right; in_list).
  assert (H2 : "src_fqdns" ∉ dests (Args GA empty_parser)) by in_list.
  pose proof (ga_request_never_carries_beta_alpha_options
                (RU := Sample.rule_utils)
                (FPU := Sample.firewall_policies_utils)
                "src_fqdns" H1 H2)
    as (Hsame & _ & _ & _ & _ & _ & _ & _ & _ & Hbuilt & _).
  split_and!; [exact H1 | exact H2 | exact Hsame |].
  eexists. split; [vm_compute; reflexivity |].
  refine (Hbuilt GA
            (Sample.update_args GA UpdateSamples.update_src_ip_ranges)
            _ "src_ip_ranges" _ _ _).
  - vm_compute. reflexivity.
  - in_list.
  - vm_compute. reflexivity.
Defined.

End UpdateShapeWitnesses.

Section UpdateRegistration.
Import Calliope FirewallPolicyRulesUpdate UpdateShapes UpdateFlags.

Lemma dests_add_argument c flag dflt p :
  dests (add_argument c flag dflt p) = dests p ++ [dest_of flag].
Proof. unfold dests, add_argument, register. simpl. by rewrite fmap_app. Qed.

Lemma dests_Args track p :
  dests (Args track p) = dests p ++ dests (Args track empty_parser).
Proof.
  destruct track; unfold Args;
    repeat match goal with
           | |- context [bool_decide ?P] =>
               let b := eval vm_compute in (bool_decide P) in
               change (bool_decide P) with b
           end;
    unfold FirewallPolicyRulesUpdate.when, FirewallPolicyRuleArgument_AddArgument,
      AddAction, AddFirewallPolicyId, AddSrcIpRanges, AddDestIpRanges,
      AddLayer4Configs, AddDirection, AddEnableLogging, AddDisabled,
      AddTargetResources, AddTargetServiceAccounts, AddSrcFqdns, AddDestFqdns,
      AddSecurityProfileGroup, AddSrcThreatIntelligence,
      AddDestThreatIntelligence, AddSrcRegionCodes, AddDestRegionCodes,
      AddDescription, AddNewPriority, AddOrganization;
    cbv zeta; rewrite !dests_add_argument; rewrite <- !app_assoc;
    reflexivity.
Qed.

(** X5. [Args] registers on BETA everything it registers on GA and the
    four threat-intelligence and region-code flags, and on ALPHA
    everything it registers on BETA and the two FQDN flags and
    [--security-profile-group]; it declares no mutually exclusive group.
    On each track the flags that [Run] asks [IsSpecified] about for the
    matcher are among the registered ones. *)
Theorem update_flags_grow_with_the_track p :
  (∀ d, d ∈ dests (Args BETA p)
        ↔ d ∈ dests (Args GA p)
          ∨ d ∈ ["src_threat_intelligence"; "dest_threat_intelligence";
                 "src_region_codes"; "dest_region_codes"])
  ∧ (∀ d, d ∈ dests (Args ALPHA p)
          ↔ d ∈ dests (Args BETA p)
            ∨ d ∈ ["src_fqdns"; "dest_fqdns"; "security_profile_group"])
  ∧ (∀ track, matcher_flags track ⊆ dests (Args track p))
  ∧ (∀ track, mutex_groups (Args track p) = mutex_groups p).
Proof.
  split_and!.
  - intros d. rewrite (dests_Args BETA), (dests_Args GA), !elem_of_app.
    assert (H1 : dests (Args BETA empty_parser)
                 ⊆ dests (Args GA empty_parser)
                   ++ ["src_threat_intelligence"; "dest_threat_intelligence";
                       "src_region_codes"; "dest_region_codes"]) by in_list.
    assert (H2 : dests (Args GA empty_parser)
                 ++ ["src_threat_intelligence"; "dest_threat_intelligence";
                     "src_region_codes"; "dest_region_codes"]
                 ⊆ dests (Args BETA empty_parser)) by in_list.
    specialize (H1 d). specialize (H2 d). rewrite elem_of_app in H1, H2.
    tauto.
  - intros d. rewrite (dests_Args ALPHA), (dests_Args BETA), !elem_of_app.
    assert (H1 : dests (Args ALPHA empty_parser)
                 ⊆ dests (Args BETA empty_parser)
                   ++ ["src_fqdns"; "dest_fqdns"; "security_profile_group"])
      by in_list.
    assert (H2 : dests (Args BETA empty_parser)
                 ++ ["src_fqdns"; "dest_fqdns"; "security_profile_group"]
                 ⊆ dests (Args ALPHA empty_parser)) by in_list.
    specialize (H1 d). specialize (H2 d). rewrite elem_of_app in H1, H2.
    tauto.
  - intros track n Hn. rewrite dests_Args, elem_of_app. right.
    destruct track; simpl in Hn;
      repeat (apply elem_of_cons in Hn as [-> | Hn]);
      try (by apply elem_of_nil in Hn); in_list.
  - intros track.
    destruct track; unfold Args;
      repeat match goal with
             | |- context [bool_decide ?P] =>
                 let b := eval vm_compute in (bool_decide P) in
                 change (bool_decide P) with b
             end;
      reflexivity.
Qed.

End UpdateRegistration.

Section UpdateContentsWitnesses.
Import Calliope FirewallPolicyRulesUpdate UpdateShapes UpdateFlags.

(** X1 at [update 10 --firewall-policy=123456789
    --src-ip-ranges=10.0.0.0/8] on GA. *)
Lemma matcher_is_sent_when_a_matcher_flag_is_specified_witness :
  ∃ call,
    Run (RU := Sample.rule_utils) (FPU := Sample.firewall_policies_utils)
      GA (Sample.update_args GA UpdateSamples.update_src_ip_ranges)
    = ok call
    ∧ "src_ip_ranges" ∈ matcher_flags GA
    ∧ IsSpecified (Sample.update_args GA UpdateSamples.update_src_ip_ranges)
        "src_ip_ranges"
      = ok true
    ∧ ∃ kw,
        field "match" (upd_firewall_policy_rule call)
        = Some (VMsg "FirewallPolicyRuleMatcher" kw)
        ∧ kw.*1 = ["srcIpRanges"; "destIpRanges"; "layer4Configs"].
Proof.
  eexists. split; [vm_compute; reflexivity |].
  split; [in_list |]. split; [vm_compute; reflexivity |].
  refine (proj2 (matcher_is_sent_when_a_matcher_flag_is_specified
                   (RU := Sample.rule_utils)
                   (FPU := Sample.firewall_policies_utils)
                   GA (Sample.update_args GA UpdateSamples.update_src_ip_ranges)
                   _ _) "src_ip_ranges" _ _).
  - vm_compute. reflexivity.
  - in_list.
  - vm_compute. reflexivity.
Defined.

(** X2 at the same command line: [--dest-ip-ranges] was left out and
    [destIpRanges] is sent as the empty list. *)
Lemma matcher_holds_the_flags_or_empty_lists_witness :
  ∃ call,
    Run (RU := Sample.rule_utils) (FPU := Sample.firewall_policies_utils)
      GA (Sample.update_args GA UpdateSamples.update_src_ip_ranges)
    = ok call
    ∧ matcher_of call ≠ VNone
    ∧ field "srcIpRanges" (matcher_of call) = Some (VList ["10.0.0.0/8"])
    ∧ field "destIpRanges" (matcher_of call) = Some (VList []).
Proof.
  eexists. split; [vm_compute; reflexivity |].
  split; [vm_compute; discriminate |].
  lazymatch goal with
  | |- field _ (matcher_of ?c) = _ ∧ _ =>
      destruct (matcher_holds_the_flags_or_empty_lists
                  (RU := Sample.rule_utils)
                  (FPU := Sample.firewall_policies_utils)
                  GA
                  (Sample.update_args GA UpdateSamples.update_src_ip_ranges)
                  c ltac:(vm_compute; reflexivity)
                  ltac:(vm_compute; discriminate)) as [Hcopied _]
  end.
  split.
  - destruct (Hcopied "src_ip_ranges" "srcIpRanges" ltac:(in_list)
                ltac:(in_list)) as (b & Hb & Hf).
    vm_compute in Hb. injection Hb as <-.
    destruct Hf as (v & Hv & Hf). vm_compute in Hv. injection Hv as <-.
    exact Hf.
  - destruct (Hcopied "dest_ip_ranges" "destIpRanges" ltac:(in_list)
                ltac:(in_list)) as (b & Hb & Hf).
    vm_compute in Hb. injection Hb as <-. exact Hf.
Defined.

(** X3 at [update 10 --firewall-policy=123456789 --new-priority=20
    --direction=ingress] on GA. *)
Lemma direction_is_egress_unless_the_exact_word_ingress_witness :
  ∃ call,
    Run (RU := Sample.rule_utils) (FPU := Sample.firewall_policies_utils)
      GA (Sample.update_args GA UpdateSamples.update_new_priority)
    = ok call
    ∧ attr (Sample.update_args GA UpdateSamples.update_new_priority)
        "direction"
      = ok (VStr "ingress")
    ∧ field "direction" (upd_firewall_policy_rule call)
      = Some (VEnum "EGRESS").
Proof.
  eexists. split; [vm_compute; reflexivity |].
  split; [vm_compute; reflexivity |].
  lazymatch goal with
  | |- field _ (upd_firewall_policy_rule ?c) = _ =>
      destruct (direction_is_egress_unless_the_exact_word_ingress
                  (RU := Sample.rule_utils)
                  (FPU := Sample.firewall_policies_utils)
                  GA (Sample.update_args GA UpdateSamples.update_new_priority)
                  c ltac:(vm_compute; reflexivity)) as (b & Hb & Hd)
  end.
  vm_compute in Hb. injection Hb as <-.
  destruct Hd as (v & Hv & Hd). vm_compute in Hv. injection Hv as <-.
  exact Hd.
Defined.

(** X4 at the same command line: the rule of priority 10 is addressed
    and is sent with priority 20. *)
Lemma new_priority_goes_into_the_rule_and_not_into_its_address_witness :
  IsSpecified (Sample.update_args GA UpdateSamples.update_new_priority)
    "new_priority"
  = ok true
  ∧ ∃ call,
      Run (RU := Sample.rule_utils) (FPU := Sample.firewall_policies_utils)
        GA (Sample.update_args GA UpdateSamples.update_new_priority)
      = ok call
      ∧ upd_priority call = 10
      ∧ field "priority" (upd_firewall_policy_rule call) = Some (VInt 20).
Proof.
  split; [vm_compute; reflexivity |].
  eexists. split; [vm_compute; reflexivity |].
  lazymatch goal with
  | |- upd_priority ?c = _ ∧ _ =>
      destruct (new_priority_goes_into_the_rule_and_not_into_its_address
                  (RU := Sample.rule_utils)
                  (FPU := Sample.firewall_policies_utils)
                  GA (Sample.update_args GA UpdateSamples.update_new_priority)
                  c ltac:(vm_compute; reflexivity)
                  ltac:(vm_compute; reflexivity))
        as (ref & v & z & Href & Hp & Hv & Hz & Hf)
  end.
  split; [reflexivity |].
  vm_compute in Hv. injection Hv as <-.
  vm_compute in Hz. injection Hz as <-.
  exact Hf.
Defined.

End UpdateContentsWitnesses.

(** ** The org-policy simulation: what argument processing returns *)

Section SimulateContents.
Import Calliope OrgPolicySimulate SimulateShapes.
Context {SU : SimulatorUtils} {API : OrgPolicySimulatorApi}.

(** The loop over the policy files appends one named message per file,
    in order. *)
Lemma load_policies_ok track paths acc ps :
  load_policies track paths acc = ok ps →
  ∃ msgs, ps = acc ++ msgs ∧ Forall2 (loaded_policy track) paths msgs.
Proof.
  revert acc. induction paths as [| path paths IH]; intros acc H; simpl in H.
  - injection H as <-. exists []. by rewrite app_nil_r.
  - apply rbind_ok in H as (m & Hm & H).
    apply rbind_ok in H as (p & Hp & H).
    apply rbind_ok in H as (name & Hname & H).
    destruct (truthy name) eqn:Ht; simpl in H; [| discriminate].
    apply IH in H as (msgs & -> & Hall).
    exists (m :: msgs). split; [by rewrite <- app_assoc |].
    constructor; [| done]. split; [done |]. by exists p, name.
Qed.

Lemma load_custom_constraints_ok track paths acc cs :
  load_custom_constraints track paths acc = ok cs →
  ∃ msgs, cs = acc ++ msgs ∧ Forall2 (loaded_constraint track) paths msgs.
Proof.
  revert acc. induction paths as [| path paths IH]; intros acc H; simpl in H.
  - injection H as <-. exists []. by rewrite app_nil_r.
  - apply rbind_ok in H as (m & Hm & H).
    apply rbind_ok in H as (c & Hc & H).
    apply rbind_ok in H as (name & Hname & H).
    destruct (truthy name) eqn:Ht; simpl in H; [| discriminate].
    apply IH in H as (msgs & -> & Hall).
    exists (m :: msgs). split; [by rewrite <- app_assoc |].
    constructor; [| done]. split; [done |]. by exists c, name.
Qed.

(** The loop over a list of files in two parts is the loop over the
    first part followed by the loop over the second. *)
Lemma load_policies_app track paths1 paths2 acc :
  load_policies track (paths1 ++ paths2) acc
  = rbind (load_policies track paths1 acc) (load_policies track paths2).
Proof.
  revert acc. induction paths1 as [| path paths1 IH]; intros acc; simpl.
  - done.
  - destruct (GetPolicyMessageFromFile path track) as [e | m]; simpl; [done |].
    destruct (getfield m "policy") as [e | p]; simpl; [done |].
    destruct (getfield p "name") as [e | name]; simpl; [done |].
    destruct (truthy name); simpl; [apply IH | done].
Qed.

(** Every step of an argument processing that returned. *)
Lemma process_arguments_ok_steps args overlay parent :
  process_arguments args = ok (overlay, parent) →
  ∃ v paths policies vc cpaths constraints,
    attr args "policies" = ok v ∧ iterate v = ok paths
    ∧ load_policies ALPHA paths [] = ok policies
    ∧ attr args "custom_constraints" = ok vc ∧ iterate vc = ok cpaths
    ∧ load_custom_constraints ALPHA cpaths [] = ok constraints
    ∧ overlay = GetOrgPolicyOverlay policies constraints
    ∧ ∃ policy0 p name organization_resource,
        first policies = ok policy0
        ∧ getfield policy0 "policy" = ok p ∧ getfield p "name" = ok name
        ∧ GetResourceFromPolicyName name = ok organization_resource
        ∧ GetParentFromOrganization organization_resource = ok parent.
Proof.
  intros H. unfold process_arguments in H.
  apply rbind_ok in H as (v & Hv & H).
  apply rbind_ok in H as (neither & Hneither & H).
  destruct neither; [discriminate |].
  apply rbind_ok in H as (paths & Hpaths & H).
  apply rbind_ok in H as (policies & Hpolicies & H).
  apply rbind_ok in H as (vc & Hvc & H).
  apply rbind_ok in H as (cpaths & Hcpaths & H).
  apply rbind_ok in H as (constraints & Hconstraints & H).
  apply rbind_ok in H as (policy0 & Hfirst & H).
  apply rbind_ok in H as (p & Hp & H).
  apply rbind_ok in H as (name & Hname & H).
  apply rbind_ok in H as (org & Horg & H).
  apply rbind_ok in H as (parent' & Hparent & H).
  injection H as <- <-.
  exists v, paths, policies, vc, cpaths, constraints.
  split_and!; try done.
  by exists policy0, p, name, org.
Qed.

Lemma Run_ok_processed args r :
  Run args = ok r → ∃ overlay parent, process_arguments args = ok (overlay, parent).
Proof.
  intros H. unfold Run in H.
  apply rbind_ok in H as ([overlay parent] & Hp & _). by exists overlay, parent.
Qed.

(** X6. With neither [--policies] nor [--custom-constraints], or with
    both empty, [Run] raises [ConflictingArgumentsException] whatever the
    file loaders and the service would do. *)
Theorem simulate_with_no_flag_is_refused args p c :
  attr args "policies" = ok p → truthy p = false →
  attr args "custom_constraints" = ok c → truthy c = false →
  Run args = raise neither_flag.
Proof.
  intros Hp Hpf Hc Hcf. unfold Run, process_arguments.
  rewrite Hp. simpl. rewrite Hpf. simpl. rewrite Hc. simpl.
  by rewrite Hcf.
Qed.

(** X7. [Run] can only return when both flags were given: the value of
    [--policies] is not empty and the value of [--custom-constraints] is
    something a [for] loop accepts, so it is not [None].  One flag alone
    always ends in an exception. *)
Theorem simulate_returns_only_with_both_flags args r :
  Run args = ok r →
  ∃ p c paths,
    attr args "policies" = ok p ∧ truthy p = true
    ∧ attr args "custom_constraints" = ok c ∧ c ≠ VNone
    ∧ iterate c = ok paths.
Proof.
  intros H. apply Run_ok_processed in H as (overlay & parent & H).
  pose proof H as Hsteps.
  apply process_arguments_ok_steps in Hsteps
    as (v & paths & policies & vc & cpaths & constraints & Hv & _ & _ & Hvc
        & Hcpaths & _).
  exists v, vc, cpaths. split_and!; try done.
  - destruct (truthy v) eqn:Ht; [done |].
    by destruct (process_arguments_needs_policies args v Hv Ht
                   (overlay, parent)).
  - by intros ->.
Qed.

(** X8. When argument processing returns, the overlay is built from one
    message per file of [--policies] and one per file of
    [--custom-constraints], in the order of the command line, and every
    one of them has a name. *)
Theorem simulate_overlay_holds_one_named_message_per_file
    args overlay parent :
  process_arguments args = ok (overlay, parent) →
  ∃ v paths policies vc cpaths constraints,
    attr args "policies" = ok v ∧ iterate v = ok paths
    ∧ Forall2 (loaded_policy ALPHA) paths policies
    ∧ attr args "custom_constraints" = ok vc ∧ iterate vc = ok cpaths
    ∧ Forall2 (loaded_constraint ALPHA) cpaths constraints
    ∧ overlay = GetOrgPolicyOverlay policies constraints.
Proof.
  intros H.
  apply process_arguments_ok_steps in H
    as (v & paths & policies & vc & cpaths & constraints & Hv & Hpaths & Hp
        & Hvc & Hcpaths & Hc & Ho & _).
  apply load_policies_ok in Hp as (ps & -> & Hps).
  apply load_custom_constraints_ok in Hc as (cs & -> & Hcs).
  by exists v, paths, ps, vc, cpaths, cs.
Qed.

(** X9. The parent of the request is derived from the name of the
    policy in the first file of [--policies] alone: the other policies
    and the custom constraints play no part in it. *)
Theorem simulate_parent_comes_from_the_first_policy args overlay parent :
  process_arguments args = ok (overlay, parent) →
  ∃ v path paths m p name organization_resource,
    attr args "policies" = ok v ∧ iterate v = ok (path :: paths)
    ∧ GetPolicyMessageFromFile path ALPHA = ok m
    ∧ getfield m "policy" = ok p ∧ getfield p "name" = ok name
    ∧ GetResourceFromPolicyName name = ok organization_resource
    ∧ GetParentFromOrganization organization_resource = ok parent.
Proof.
  intros H.
  apply process_arguments_ok_steps in H
    as (v & paths & policies & vc & cpaths & constraints & Hv & Hpaths & Hp
        & _ & _ & _ & _ & policy0 & p & name & org & Hfirst & Hpol & Hname
        & Horg & Hparent).
  apply load_policies_ok in Hp as (ps & -> & Hps). simpl in Hfirst.
  destruct Hps as [| path m paths ps [Hm _] Hps]; [discriminate |].
  injection Hfirst as <-.
  by exists v, path, paths, m, p, name, org.
Qed.

(** X10. A policy file that loads into a policy without a name stops
    [Run] with [InvalidArgumentException], provided the files before it
    loaded; the files after it and the custom constraints are not looked
    at, and the service is not contacted. *)
Theorem simulate_refuses_a_policy_without_name
    args v before path after loaded m p name :
  attr args "policies" = ok v → truthy v = true →
  iterate v = ok (before ++ path :: after) →
  load_policies ALPHA before [] = ok loaded →
  GetPolicyMessageFromFile path ALPHA = ok m →
  getfield m "policy" = ok p → getfield p "name" = ok name →
  truthy name = false →
  Run args
  = raise (InvalidArgumentException "Policy name"
             "'name' field not present in the organization policy.").
Proof.
  intros Hv Ht Hpaths Hbefore Hm Hp Hname Hfalsy.
  unfold Run, process_arguments.
  rewrite Hv. simpl. rewrite Ht. simpl. rewrite Hpaths. simpl.
  rewrite load_policies_app, Hbefore. simpl.
  rewrite Hm. simpl. rewrite Hp. simpl. rewrite Hname. simpl.
  by rewrite Hfalsy.
Qed.

End SimulateContents.

Section SimulateContentsWitnesses.
Import Calliope OrgPolicySimulate SimulateShapes.

(** X6 at [simulate orgpolicy] with no flag. *)
Lemma simulate_with_no_flag_is_refused_witness :
  attr (SimulateSamples.simulate_args SimulateSamples.simulate_nothing)
    "policies" = ok VNone
  ∧ attr (SimulateSamples.simulate_args SimulateSamples.simulate_nothing)
      "custom_constraints" = ok VNone
  ∧ Run (SU := SimulateSamples.simulator_utils) (API := Sample.simulator_api)
      (SimulateSamples.simulate_args SimulateSamples.simulate_nothing)
    = raise neither_flag.
Proof.
  assert (H1 : attr (SimulateSamples.simulate_args
                       SimulateSamples.simulate_nothing) "policies"
               = ok VNone) by (vm_compute; reflexivity).
  assert (H2 : attr (SimulateSamples.simulate_args
                       SimulateSamples.simulate_nothing) "custom_constraints"
               = ok VNone) by (vm_compute; reflexivity).
  split_and!; [exact H1 | exact H2 |].
  exact (simulate_with_no_flag_is_refused
           (SU := SimulateSamples.simulator_utils)
           (API := Sample.simulator_api) _ VNone VNone H1 eq_refl H2 eq_refl).
Defined.

(** X7 at [simulate orgpolicy --policies=a.json,b.json
    --custom-constraints=c.json]. *)
Lemma simulate_returns_only_with_both_flags_witness :
  ∃ r,
    Run (SU := SimulateSamples.simulator_utils) (API := Sample.simulator_api)
      (SimulateSamples.simulate_args SimulateSamples.simulate_two_policies)
    = ok r
    ∧ ∃ p c paths,
        attr (SimulateSamples.simulate_args
                SimulateSamples.simulate_two_policies) "policies" = ok p
        ∧ truthy p = true
        ∧ attr (SimulateSamples.simulate_args
                  SimulateSamples.simulate_two_policies) "custom_constraints"
          = ok c
        ∧ c ≠ VNone ∧ iterate c = ok paths.
Proof.
  eexists. split; [vm_compute; reflexivity |].
  eapply (simulate_returns_only_with_both_flags
            (SU := SimulateSamples.simulator_utils)
            (API := Sample.simulator_api)).
  vm_compute. reflexivity.
Defined.

(** X8 at the same command line. *)
Lemma simulate_overlay_holds_one_named_message_per_file_witness :
  ∃ overlay parent,
    process_arguments (SU := SimulateSamples.simulator_utils)
      (API := Sample.simulator_api)
      (SimulateSamples.simulate_args SimulateSamples.simulate_two_policies)
    = ok (overlay, parent)
    ∧ ∃ policies constraints,
        Forall2 (loaded_policy (SU := SimulateSamples.simulator_utils) ALPHA)
          [VStr "a.json"; VStr "b.json"] policies
        ∧ Forall2
            (loaded_constraint (SU := SimulateSamples.simulator_utils) ALPHA)
            [VStr "c.json"] constraints
        ∧ overlay
          = GetOrgPolicyOverlay (OrgPolicySimulatorApi := Sample.simulator_api)
              policies constraints.
Proof.
  do 2 eexists. split; [vm_compute; reflexivity |].
  lazymatch goal with
  | |- ∃ _ _, _ ∧ _ ∧ ?o = _ =>
      destruct (simulate_overlay_holds_one_named_message_per_file
                  (SU := SimulateSamples.simulator_utils)
                  (API := Sample.simulator_api)
                  (SimulateSamples.simulate_args
                     SimulateSamples.simulate_two_policies)
                  o _ ltac:(vm_compute; reflexivity))
        as (v & paths & policies & vc & cpaths & constraints & Hv & Hpaths
            & Hp & Hvc & Hcpaths & Hc & Ho)
  end.
  vm_compute in Hv. injection Hv as <-.
  vm_compute in Hpaths. injection Hpaths as <-.
  vm_compute in Hvc. injection Hvc as <-.
  vm_compute in Hcpaths. injection Hcpaths as <-.
  by exists policies, constraints.
Defined.

(** X9 at the same command line: the parent is that of [a.json]. *)
Lemma simulate_parent_comes_from_the_first_policy_witness :
  ∃ overlay parent,
    process_arguments (SU := SimulateSamples.simulator_utils)
      (API := Sample.simulator_api)
      (SimulateSamples.simulate_args SimulateSamples.simulate_two_policies)
    = ok (overlay, parent)
    ∧ parent = VStr "organizations/123/policies/a.json".
Proof.
  do 2 eexists. split; [vm_compute; reflexivity |].
  lazymatch goal with
  | |- ?q = _ =>
      destruct (simulate_parent_comes_from_the_first_policy
                  (SU := SimulateSamples.simulator_utils)
                  (API := Sample.simulator_api)
                  (SimulateSamples.simulate_args
                     SimulateSamples.simulate_two_policies)
                  _ q ltac:(vm_compute; reflexivity))
        as (v & path & paths & m & p & name & org & Hv & Hpaths & Hm & Hp
            & Hname & Horg & Hparent)
  end.
  reflexivity.
Defined.

(** X10 at [simulate orgpolicy --policies=a.json,nameless.json,b.json
    --custom-constraints=c.json]. *)
Lemma simulate_refuses_a_policy_without_name_witness :
  Run (SU := SimulateSamples.simulator_utils) (API := Sample.simulator_api)
    (SimulateSamples.simulate_args SimulateSamples.simulate_nameless)
  = raise (InvalidArgumentException "Policy name"
             "'name' field not present in the organization policy.").
Proof.
  eapply (simulate_refuses_a_policy_without_name
            (SU := SimulateSamples.simulator_utils)
            (API := Sample.simulator_api) _
            (VList ["a.json"; "nameless.json"; "b.json"])
            [VStr "a.json"] (VStr "nameless.json") [VStr "b.json"]);
    vm_compute; reflexivity.
Defined.

End SimulateContentsWitnesses.

(** ** Cluster creation: the course of a run *)

Section CreateCourse.
Import Calliope ClustersCreate CreateEffects.
Context {S : Type} {CF : ContainerFlags} {CU : CommandUtil}
  {UT : ContainerUtil} {AD : ApiAdapter S}.

Lemma bind_ok_inv {A B : Type} (m : M S A) (k : A → M S B) w b w' :
  bind m k w = (ok b, w') → ∃ a w1, m w = (ok a, w1) ∧ k a w1 = (ok b, w').
Proof.
  unfold bind. destruct (m w) as [[e | a] w1]; [discriminate |].
  intros H. by exists a, w1.
Qed.

(** What follows a creation logs the cluster as created and leaves the
    service alone. *)
Lemma report_frame cluster_ref operation cluster (w : World S) :
  provider (report cluster_ref operation cluster w).2 = provider w
  ∧ created (report cluster_ref operation cluster w).2
    = created w ++ [cluster_ref].
Proof.
  unfold report, bind, log_CreatedResource, status_Print, lift, persist; simpl.
  destruct (getfield operation "detail") as [e | detail]; simpl; [done |].
  destruct (truthy detail); simpl.
  - destruct (Persist cluster (projectId cluster_ref))
      as [[] | [[] msgs]]; by simpl.
  - destruct (Persist cluster (projectId cluster_ref))
      as [[] | [[] msgs]]; by simpl.
Qed.

(** The [try] block of a synchronous run in which the three calls
    succeed. *)
Lemma create_and_wait_done cluster_ref options (w1 : World S)
    operation_ref s1 async_ timeout_s operation s2 cluster s3 :
  CreateCluster cluster_ref options (provider w1) = (ok operation_ref, s1) →
  attr (args w1) "async_" = ok async_ → truthy async_ = false →
  attr (args w1) "timeout" = ok timeout_s →
  WaitForOperation operation_ref (waiting_message cluster_ref) timeout_s s1
  = (ok operation, s2) →
  GetCluster cluster_ref s2 = (ok cluster, s3) →
  create_and_wait cluster_ref options w1
  = (ok (inr (operation, cluster)),
     called
       (called (called w1 (CallCreateCluster cluster_ref options) s1)
          (CallWaitForOperation operation_ref (waiting_message cluster_ref)
             timeout_s) s2)
       (CallGetCluster cluster_ref) s3).
Proof.
  intros Hc Ha Hf Ht Hw Hg.
  rewrite (create_and_wait_accepted _ _ _ _ _ _ _ Hc Ha Hf Ht).
  apply reraise_ok.
  erewrite bind_ok; [| by apply adapter_call_eq].
  erewrite bind_ok; [reflexivity | by apply adapter_call_eq].
Qed.

(** The [try] block of an asynchronous run. *)
Lemma create_and_wait_async cluster_ref options (w1 : World S)
    operation_ref s1 async_ r s2 :
  CreateCluster cluster_ref options (provider w1) = (ok operation_ref, s1) →
  attr (args w1) "async_" = ok async_ → truthy async_ = true →
  GetCluster cluster_ref s1 = (r, s2) →
  create_and_wait cluster_ref options w1
  = (match r with
     | inl e => raise (surfaced HTTP_ERROR_FORMAT e)
     | inr cluster => ok (inl cluster)
     end,
     called (called w1 (CallCreateCluster cluster_ref options) s1)
       (CallGetCluster cluster_ref) s2).
Proof.
  intros Hc Ha Hf Hg. unfold create_and_wait.
  destruct r as [e | cluster].
  - apply reraise_raise.
    rewrite (bind_ok _ _ _ _ _ (adapter_call_eq _ _ _ _ _ Hc)).
    rewrite (bind_ok get_args _ _ _ _ eq_refl).
    erewrite (bind_ok (lift _));
      [| unfold lift; cbn [args called]; by rewrite Ha].
    rewrite Hf. apply bind_raise. by apply adapter_call_eq.
  - apply reraise_ok.
    rewrite (bind_ok _ _ _ _ _ (adapter_call_eq _ _ _ _ _ Hc)).
    rewrite (bind_ok get_args _ _ _ _ eq_refl).
    erewrite (bind_ok (lift _));
      [| unfold lift; cbn [args called]; by rewrite Ha].
    rewrite Hf.
    erewrite bind_ok; [reflexivity | by apply adapter_call_eq].
Qed.

(** X11. When anything before the mutating call fails (the check for
    kubectl, the location, the cluster name, the parsing of the options,
    the DNS scope check, a declined prompt), [Run] raises that exception
    and the service has not been contacted: no adapter call is recorded,
    the state of the service is the same and nothing is logged as
    created. *)
Theorem failure_before_the_request_leaves_the_service_alone
    track (w w1 : World S) e :
  prepare track w = (raise e, w1) →
  Run track w = (raise e, w1)
  ∧ calls w1 = calls w ∧ provider w1 = provider w ∧ created w1 = created w.
Proof.
  intros H. split.
  - unfold Run. by rewrite (bind_raise _ _ _ _ _ H).
  - exact (prepare_service _ _ _ _ H).
Qed.

(** X13. A synchronous run in which the service accepts the request,
    completes the operation and returns the cluster makes exactly three
    calls on the adapter, in this order: [CreateCluster],
    [WaitForOperation] with the message [Creating cluster ID in ZONE] and
    the value of [--timeout], and [GetCluster].  The cluster is logged
    as created, whatever saving the kubeconfig entry does. *)
Theorem synchronous_run_creates_waits_and_fetches track (w w1 : World S)
    cluster_ref options operation_ref s1 async_ timeout_s operation s2
    cluster s3 :
  prepare track w = (ok (cluster_ref, options), w1) →
  CreateCluster cluster_ref options (provider w1) = (ok operation_ref, s1) →
  attr (args w1) "async_" = ok async_ → truthy async_ = false →
  attr (args w1) "timeout" = ok timeout_s →
  WaitForOperation operation_ref (waiting_message cluster_ref) timeout_s s1
  = (ok operation, s2) →
  GetCluster cluster_ref s2 = (ok cluster, s3) →
  calls (Run track w).2
  = calls w
    ++ [CallCreateCluster cluster_ref options;
        CallWaitForOperation operation_ref
          ("Creating cluster " ++ clusterId cluster_ref ++ " in "
           ++ zone cluster_ref)
          timeout_s;
        CallGetCluster cluster_ref]
  ∧ provider (Run track w).2 = s3
  ∧ created (Run track w).2 = created w ++ [cluster_ref].
Proof.
  intros Hp Hc Ha Hf Ht Hw Hg.
  rewrite (Run_after_prepare _ _ _ _ _ Hp).
  rewrite (bind_ok _ _ _ _ _
             (create_and_wait_done _ _ _ _ _ _ _ _ _ _ _ Hc Ha Hf Ht Hw Hg)).
  destruct (prepare_service _ _ _ _ Hp) as (Hcalls & _ & Hcreated).
  rewrite report_calls.
  destruct (report_frame cluster_ref operation cluster
              (called
                 (called
                    (called w1 (CallCreateCluster cluster_ref options) s1)
                    (CallWaitForOperation operation_ref
                       (waiting_message cluster_ref) timeout_s) s2)
                 (CallGetCluster cluster_ref) s3)) as [-> ->].
  simpl. rewrite Hcalls, Hcreated, <- !app_assoc. done.
Qed.

(** X14. When waiting for the operation fails, the cluster is not
    fetched: the run ends after the two calls [CreateCluster] and
    [WaitForOperation], nothing is logged as created, and the exception
    is the one of the wait, an [HttpError] being turned into an
    [HttpException]. *)
Theorem failed_wait_ends_the_run_without_fetching track (w w1 : World S)
    cluster_ref options operation_ref s1 async_ timeout_s e s2 :
  prepare track w = (ok (cluster_ref, options), w1) →
  CreateCluster cluster_ref options (provider w1) = (ok operation_ref, s1) →
  attr (args w1) "async_" = ok async_ → truthy async_ = false →
  attr (args w1) "timeout" = ok timeout_s →
  WaitForOperation operation_ref (waiting_message cluster_ref) timeout_s s1
  = (raise e, s2) →
  Run track w
  = (raise (surfaced HTTP_ERROR_FORMAT e),
     called (called w1 (CallCreateCluster cluster_ref options) s1)
       (CallWaitForOperation operation_ref (waiting_message cluster_ref)
          timeout_s) s2).
Proof.
  intros Hp Hc Ha Hf Ht Hw.
  rewrite (Run_after_prepare _ _ _ _ _ Hp).
  apply bind_raise.
  rewrite (create_and_wait_accepted _ _ _ _ _ _ _ Hc Ha Hf Ht).
  apply reraise_raise. apply bind_raise. by apply adapter_call_eq.
Qed.

(** X15. With [--async] the run does not wait: after [CreateCluster]
    it calls [GetCluster] at once and returns the cluster as it is, not
    in a list; nothing is logged as created, no message is printed and
    no kubeconfig entry is saved. *)
Theorem asynchronous_run_fetches_without_waiting track (w w1 : World S)
    cluster_ref options operation_ref s1 async_ cluster s2 :
  prepare track w = (ok (cluster_ref, options), w1) →
  CreateCluster cluster_ref options (provider w1) = (ok operation_ref, s1) →
  attr (args w1) "async_" = ok async_ → truthy async_ = true →
  GetCluster cluster_ref s1 = (ok cluster, s2) →
  Run track w
  = (ok cluster,
     called (called w1 (CallCreateCluster cluster_ref options) s1)
       (CallGetCluster cluster_ref) s2).
Proof.
  intros Hp Hc Ha Hf Hg.
  rewrite (Run_after_prepare _ _ _ _ _ Hp).
  by rewrite (bind_ok _ _ _ _ _
                (create_and_wait_async _ _ _ _ _ _ _ _ Hc Ha Hf Hg)).
Qed.

(** X17. After a synchronous creation, a [MissingEnvVarError] from
    saving the kubeconfig entry becomes a warning and [Run] returns the
    cluster; any other exception from it makes [Run] fail, although the
    three calls have been made and the cluster exists. *)
Theorem kubeconfig_failure_is_a_warning_only_for_a_missing_variable
    track (w w1 : World S) cluster_ref options operation_ref s1 async_
    timeout_s operation s2 cluster s3 detail :
  prepare track w = (ok (cluster_ref, options), w1) →
  CreateCluster cluster_ref options (provider w1) = (ok operation_ref, s1) →
  attr (args w1) "async_" = ok async_ → truthy async_ = false →
  attr (args w1) "timeout" = ok timeout_s →
  WaitForOperation operation_ref (waiting_message cluster_ref) timeout_s s1
  = (ok operation, s2) →
  GetCluster cluster_ref s2 = (ok cluster, s3) →
  getfield operation "detail" = ok detail →
  (∀ msg, Persist cluster (projectId cluster_ref)
          = raise (MissingEnvVarError msg) →
          (Run track w).1 = ok (VSeq [cluster])
          ∧ msg ∈ warnings (Run track w).2)
  ∧ (∀ e, Persist cluster (projectId cluster_ref) = raise e →
          (∀ msg, e ≠ MissingEnvVarError msg) →
          (Run track w).1 = raise e
          ∧ cluster_ref ∈ created (Run track w).2).
Proof.
  intros Hp Hc Ha Hf Ht Hw Hg Hd.
  rewrite (Run_after_prepare _ _ _ _ _ Hp).
  rewrite (bind_ok _ _ _ _ _
             (create_and_wait_done _ _ _ _ _ _ _ _ _ _ _ Hc Ha Hf Ht Hw Hg)).
  unfold report, bind, log_CreatedResource, status_Print, lift, persist.
  simpl. rewrite Hd. simpl. split.
  - intros msg HP. rewrite HP.
    destruct (truthy detail); simpl; (split; [done |]);
      rewrite !elem_of_app; right; apply list_elem_of_here.
  - intros e HP Hne. rewrite HP.
    destruct (truthy detail); simpl;
      (destruct e; simpl;
       try (split; [done | rewrite elem_of_app; right;
                           apply list_elem_of_here]));
      by destruct (Hne msg).
Qed.

End CreateCourse.

Section CreateChecks.
Import Calliope ClustersCreate CreateEffects.
Context {S : Type} {CF : ContainerFlags} {CU : CommandUtil}
  {UT : ContainerUtil} {AD : ApiAdapter S}.

Lemma lower_clouddns_not_empty dns :
  lower dns = "clouddns" → truthy (VStr dns) = true.
Proof. by destruct dns. Qed.

(** The options that leave [prepare] on GA have passed the check of
    lines 1125 to 1128. *)
Lemma prepare_GA_dns_scope (w w1 : World S) cluster_ref options dns :
  prepare GA w = (ok (cluster_ref, options), w1) →
  opt options "cluster_dns" = VStr dns → lower dns = "clouddns" →
  truthy (opt options "cluster_dns_scope") = true.
Proof.
  intros H Hdns Hlower. unfold prepare in H. cbv zeta in H.
  repeat match type of H with
         | bind _ _ _ = (ok _, _) =>
             let a := fresh "a" in
             let w' := fresh "w" in
             let Ha := fresh "Ha" in
             apply bind_ok_inv in H as (a & w' & Ha & H)
         end.
  unfold ret in H. injection H as <- <- <-.
  match goal with
  | Hd : (if _ && truthy (opt _ "cluster_dns") then _ else _) _ = _ |- _ =>
      rewrite Hdns in Hd;
      rewrite (lower_clouddns_not_empty _ Hlower) in Hd;
      rewrite Hlower in Hd;
      change (bool_decide (GA = GA) && true) with true in Hd;
      change ("clouddns" =? "clouddns")%string with true in Hd;
      cbv iota in Hd
  end.
  by destruct (truthy (opt _ "cluster_dns_scope")).
Qed.

(** The calls of a run, with the request that the first of them
    carries. *)
Lemma Run_calls_of_prepare track (w : World S) :
  ∃ new,
    calls (Run track w).2 = calls w ++ new
    ∧ (new = []
       ∨ ∃ cluster_ref options w1 rest,
           prepare track w = (ok (cluster_ref, options), w1)
           ∧ new = CallCreateCluster cluster_ref options :: rest
           ∧ Forall (λ c, is_create c = false) rest).
Proof.
  destruct (prepare track w) as [[e | [cluster_ref options]] w1] eqn:Hp.
  { exists []. unfold Run. rewrite (bind_raise _ _ _ _ _ Hp). simpl.
    destruct (prepare_service _ _ _ _ Hp) as [-> _].
    by rewrite app_nil_r; auto. }
  rewrite (Run_after_prepare _ _ _ _ _ Hp).
  destruct (prepare_service _ _ _ _ Hp) as [Hcalls _]. rewrite <- Hcalls.
  destruct (create_and_wait_calls cluster_ref options w1)
    as (rest & Hrest & Hkinds).
  exists (CallCreateCluster cluster_ref options :: rest).
  split; [| right; by exists cluster_ref, options, w1, rest].
  unfold bind.
  destruct (create_and_wait cluster_ref options w1)
    as [[e | [cluster | [operation cluster]]] w2]; simpl in *; try done.
  by rewrite report_calls.
Qed.

(** X12. On GA no request for a cluster that uses CloudDNS, in any
    spelling of upper and lower case, is sent without a DNS scope: every
    [CreateCluster] call that a run makes carries options whose
    [cluster_dns_scope] is set whenever their [cluster_dns] is
    [clouddns]. *)
Theorem ga_request_with_cloud_dns_carries_a_scope (w : World S) :
  ∃ new,
    calls (Run GA w).2 = calls w ++ new
    ∧ ∀ cluster_ref options dns,
        CallCreateCluster cluster_ref options ∈ new →
        opt options "cluster_dns" = VStr dns → lower dns = "clouddns" →
        truthy (opt options "cluster_dns_scope") = true.
Proof.
  destruct (Run_calls_of_prepare GA w) as (new & Hcalls & Hnew).
  exists new. split; [done |].
  intros cluster_ref options dns Hin Hdns Hlower.
  destruct Hnew as [-> | (ref0 & options0 & w1 & rest & Hp & -> & Hrest)].
  { by apply elem_of_nil in Hin. }
  apply elem_of_cons in Hin as [[= -> ->] | Hin].
  - exact (prepare_GA_dns_scope _ _ _ _ _ Hp Hdns Hlower).
  - rewrite Forall_forall in Hrest. by specialize (Hrest _ Hin).
Qed.

(** *** The namespace after a run *)

Lemma keeps_args_adapter_call {A : Type} c (f : S → result A * S) :
  keeps_args (adapter_call c f).
Proof. intros w. unfold adapter_call. by destruct (f (provider w)). Qed.

Lemma keeps_args_reraise {A : Type} fmt (body : M S A) :
  keeps_args body → keeps_args (reraise_HttpError fmt body).
Proof.
  intros H w. unfold reraise_HttpError. specialize (H w).
  destruct (body w) as [[[] | a] w']; done.
Qed.

Lemma keeps_args_log_warning msg : keeps_args (S := S) (log_warning msg).
Proof. done. Qed.

Lemma keeps_args_log_CreatedResource cluster_ref :
  keeps_args (S := S) (log_CreatedResource cluster_ref).
Proof. done. Qed.

Lemma keeps_args_persist cluster project_id :
  keeps_args (S := S) (persist cluster project_id).
Proof.
  intros w. unfold persist.
  pose proof (keeps_args_run_helper (S := S)
                (Persist cluster project_id) w) as H.
  destruct (run_helper (Persist cluster project_id) w) as [[[] | a] w'];
    done.
Qed.

Ltac keeps_args_more :=
  first
    [ apply keeps_args_adapter_call
    | apply keeps_args_reraise
    | apply keeps_args_log_warning
    | apply keeps_args_log_CreatedResource
    | apply keeps_args_persist
    | keeps_args_step ].

Lemma create_and_wait_keeps_args cluster_ref options :
  keeps_args (S := S) (create_and_wait cluster_ref options).
Proof. unfold create_and_wait. repeat keeps_args_more. Qed.

Lemma report_keeps_args cluster_ref operation cluster :
  keeps_args (S := S) (report cluster_ref operation cluster).
Proof. unfold report. repeat keeps_args_more. Qed.

Ltac munges_step :=
  lazymatch goal with
  | |- munges (bind (ParseCreateOptions _ _ _) _) =>
      apply munges_first;
      [ apply ParseCreateOptions_munges
      | intros ?; repeat keeps_args_more ]
  | |- munges (bind _ _) =>
      apply munges_later; [repeat keeps_args_more | intros ?]
  end.

(** After the first lines of [Run], which may set [args.format], the
    namespace is assigned to by [MungeBasicAuthFlags] and by nothing
    else. *)
Lemma prepare_left_by_munge track (w : World S) async_ :
  attr (args w) "async_" = ok async_ →
  (truthy async_ = true → IsSpecified (args w) "format" = ok false →
   left_by_munge (setattr (args w) "format" OPERATIONS_FORMAT)
     (prepare track w))
  ∧ (truthy async_ = false ∨ IsSpecified (args w) "format" = ok true →
     left_by_munge (args w) (prepare track w)).
Proof.
  intros Ha.
  unfold prepare. cbv zeta.
  rewrite (bind_ok get_args _ _ _ _ eq_refl).
  rewrite (bind_ok (lift (attr (args w) "async_")) _ _ async_ _
             ltac:(by unfold lift; rewrite Ha)).
  assert (Hrest : ∀ (first_lines : M S unit)
                     (rest : unit → M S (ClusterRef * gmap string value)) w',
            first_lines w = (ok tt, w') →
            munges (rest tt) →
            left_by_munge (args w') (bind first_lines rest w)).
  { intros first_lines rest w' Hf K.
    rewrite (bind_ok _ _ _ _ _ Hf). exact (K w'). }
  split.
  - intros Ht Hs. rewrite Ht.
    apply (Hrest _ _
             (put_args (setattr (args w) "format" OPERATIONS_FORMAT) w).2).
    + unfold bind, lift. rewrite Hs. reflexivity.
    + repeat munges_step.
  - intros [Ht | Hs].
    + rewrite Ht. apply (Hrest _ _ w); [reflexivity |].
      repeat munges_step.
    + destruct (truthy async_).
      * apply (Hrest _ _ w).
        -- unfold bind, lift. rewrite Hs. reflexivity.
        -- repeat munges_step.
      * apply (Hrest _ _ w); [reflexivity |].
        repeat munges_step.
Qed.

(** Nothing after the option parsing assigns to the namespace. *)
Lemma Run_left_by_munge track (w : World S) a :
  left_by_munge a (prepare track w) → left_by_munge a (Run track w).
Proof.
  unfold Run, bind at 1.
  destruct (prepare track w) as [[e | [cluster_ref options]] w1]; [done |].
  unfold left_by_munge at 1. simpl. intros [msgs Hm].
  match goal with
  | |- left_by_munge _ (?m w1) =>
      assert (K : keeps_args m);
      [ repeat first [ apply create_and_wait_keeps_args
                     | apply report_keeps_args
                     | keeps_args_more ]
      | specialize (K w1); unfold left_by_munge;
        destruct (m w1) as [[e | x] w2]; simpl in *; rewrite K;
        [right |]; by exists msgs ]
  end.
Qed.

(** X16. [Run] itself assigns to the namespace in one place: an
    asynchronous run whose command line has no [--format] sets
    [args.format] to the format of operations.  The one other change is
    the one [flags.MungeBasicAuthFlags] makes when the options are
    parsed: a run that returns leaves the namespace that
    [MungeBasicAuthFlags] returned for the namespace with the format set
    (or, in every other run, for the namespace [Run] was given), and a
    run that raises leaves that one or the namespace before it. *)
Theorem asynchronous_run_sets_the_operations_format
    track (w : World S) async_ :
  attr (args w) "async_" = ok async_ →
  (truthy async_ = true → IsSpecified (args w) "format" = ok false →
   left_by_munge (setattr (args w) "format" OPERATIONS_FORMAT)
     (Run track w))
  ∧ (truthy async_ = false ∨ IsSpecified (args w) "format" = ok true →
     left_by_munge (args w) (Run track w)).
Proof.
  intros Ha.
  destruct (prepare_left_by_munge track w async_ Ha) as [Hset Hkept].
  split.
  - intros Ht Hs. apply Run_left_by_munge. by apply Hset.
  - intros H. apply Run_left_by_munge. by apply Hkept.
Qed.

End CreateChecks.

Section CreateCourseWitnesses.
Import Calliope ClustersCreate CreateEffects.

(** A prepared run, from the cluster reference it ends with. *)
Lemma prepared_run_parts {W : Type}
    (r : result (ClusterRef * gmap string value) * W) cluster_ref :
  CreateSamples.ref_of r = Some cluster_ref →
  r = (ok (cluster_ref, CreateSamples.options_of r), r.2).
Proof.
  unfold CreateSamples.ref_of, CreateSamples.options_of.
  destruct r as [[e | [cluster_ref' options]] w]; simpl.
  - discriminate.
  - by intros [= ->].
Qed.

Lemma raised_run_parts {A W : Type} (r : result A * W) e :
  CreateSamples.raised r = Some e → r = (raise e, r.2).
Proof.
  unfold CreateSamples.raised. destruct r as [[e' | a] w]; simpl.
  - by intros [= ->].
  - discriminate.
Qed.

(** X11 at [clusters create sample-cluster --cluster-dns=CloudDNS] on
    GA: the DNS scope is missing. *)
Lemma failure_before_the_request_leaves_the_service_alone_witness :
  CreateSamples.raised
    (CreateSamples.prepared Sample.container_util GA
       CreateSamples.create_cloud_dns Sample.service_ok)
  = Some (UtilError "DNS Scope should be specified when using CloudDNS in GA.")
  ∧ Run (CF := CreateSamples.container_flags) (CU := Sample.command_util)
      (UT := Sample.container_util) (AD := Sample.scripted_adapter) GA
      (CreateSamples.parsed GA CreateSamples.create_cloud_dns
         Sample.service_ok)
    = (raise
         (UtilError
            "DNS Scope should be specified when using CloudDNS in GA."),
       (CreateSamples.prepared Sample.container_util GA
          CreateSamples.create_cloud_dns Sample.service_ok).2)
  ∧ calls
      (CreateSamples.prepared Sample.container_util GA
         CreateSamples.create_cloud_dns Sample.service_ok).2
    = calls
        (CreateSamples.parsed GA CreateSamples.create_cloud_dns
           Sample.service_ok).
Proof.
  assert (H0 : CreateSamples.raised
                 (CreateSamples.prepared Sample.container_util GA
                    CreateSamples.create_cloud_dns Sample.service_ok)
               = Some (UtilError
                         "DNS Scope should be specified when using CloudDNS in GA."))
    by (vm_compute; reflexivity).
  split; [exact H0 |].
  destruct (failure_before_the_request_leaves_the_service_alone
              (CF := CreateSamples.container_flags)
              (CU := Sample.command_util) (UT := Sample.container_util)
              (AD := Sample.scripted_adapter) GA _ _ _
              (raised_run_parts _ _ H0)) as (HR & Hc & _).
  split; [exact HR | exact Hc].
Defined.

(** X13 at [clusters create sample-cluster] on GA. *)
Lemma synchronous_run_creates_waits_and_fetches_witness :
  Sample.prepared Sample.service_ok
  = (ok (Sample.sample_ref, Sample.sample_options Sample.service_ok),
     Sample.prepared_world Sample.service_ok)
  ∧ calls
      (Run (CF := Sample.container_flags) (CU := Sample.command_util)
         (UT := Sample.container_util) (AD := Sample.scripted_adapter) GA
         (Sample.parsed GA Sample.create_sample Sample.service_ok)).2
    = [CallCreateCluster Sample.sample_ref
         (Sample.sample_options Sample.service_ok);
       CallWaitForOperation Sample.operation_ref
         "Creating cluster sample-cluster in us-central1-a" (VInt 3600);
       CallGetCluster Sample.sample_ref].
Proof.
  assert (H1 := prepared_parts Sample.service_ok
                  ltac:(vm_compute; reflexivity)).
  split; [exact H1 |].
  refine (proj1 (synchronous_run_creates_waits_and_fetches
                   (CF := Sample.container_flags)
                   (CU := Sample.command_util)
                   (UT := Sample.container_util)
                   (AD := Sample.scripted_adapter)
                   GA _ _ Sample.sample_ref
                   (Sample.sample_options Sample.service_ok)
                   Sample.operation_ref Sample.service_ok (VBool false)
                   (VInt 3600) Sample.done_with_detail Sample.service_ok
                   Sample.sample_cluster Sample.service_ok
                   H1 _ _ eq_refl _ _ _));
    vm_compute; reflexivity.
Defined.

(** X14 at [clusters create sample-cluster] on GA, the operation
    failing. *)
Lemma failed_wait_ends_the_run_without_fetching_witness :
  Sample.prepared Sample.service_operation_fails
  = (ok (Sample.sample_ref,
         Sample.sample_options Sample.service_operation_fails),
     Sample.prepared_world Sample.service_operation_fails)
  ∧ Run (CF := Sample.container_flags) (CU := Sample.command_util)
      (UT := Sample.container_util) (AD := Sample.scripted_adapter) GA
      (Sample.parsed GA Sample.create_sample Sample.service_operation_fails)
    = (raise (UtilError "Operation [operation-1] finished with error"),
       called
         (called (Sample.prepared_world Sample.service_operation_fails)
            (CallCreateCluster Sample.sample_ref
               (Sample.sample_options Sample.service_operation_fails))
            Sample.service_operation_fails)
         (CallWaitForOperation Sample.operation_ref
            (waiting_message Sample.sample_ref) (VInt 3600))
         Sample.service_operation_fails).
Proof.
  assert (H1 := prepared_parts Sample.service_operation_fails
                  ltac:(vm_compute; reflexivity)).
  split; [exact H1 |].
  refine (failed_wait_ends_the_run_without_fetching
            (CF := Sample.container_flags) (CU := Sample.command_util)
            (UT := Sample.container_util) (AD := Sample.scripted_adapter)
            GA _ _ Sample.sample_ref
            (Sample.sample_options Sample.service_operation_fails)
            Sample.operation_ref Sample.service_operation_fails (VBool false)
            (VInt 3600)
            (UtilError "Operation [operation-1] finished with error")
            Sample.service_operation_fails
            H1 _ _ eq_refl _ _);
    vm_compute; reflexivity.
Defined.

(** X15 at [clusters create sample-cluster --async] on GA. *)
Lemma asynchronous_run_fetches_without_waiting_witness :
  CreateSamples.ref_of
    (CreateSamples.prepared Sample.container_util GA
       CreateSamples.create_async Sample.service_ok)
  = Some Sample.sample_ref
  ∧ Run (CF := CreateSamples.container_flags) (CU := Sample.command_util)
      (UT := Sample.container_util) (AD := Sample.scripted_adapter) GA
      (CreateSamples.parsed GA CreateSamples.create_async Sample.service_ok)
    = (ok Sample.sample_cluster,
       called
         (called
            (CreateSamples.prepared Sample.container_util GA
               CreateSamples.create_async Sample.service_ok).2
            (CallCreateCluster Sample.sample_ref
               (CreateSamples.options_of
                  (CreateSamples.prepared Sample.container_util GA
                     CreateSamples.create_async Sample.service_ok)))
            Sample.service_ok)
         (CallGetCluster Sample.sample_ref) Sample.service_ok).
Proof.
  assert (H0 : CreateSamples.ref_of
                 (CreateSamples.prepared Sample.container_util GA
                    CreateSamples.create_async Sample.service_ok)
               = Some Sample.sample_ref) by (vm_compute; reflexivity).
  split; [exact H0 |].
  refine (asynchronous_run_fetches_without_waiting
            (CF := CreateSamples.container_flags)
            (CU := Sample.command_util) (UT := Sample.container_util)
            (AD := Sample.scripted_adapter)
            GA _ _ Sample.sample_ref _
            Sample.operation_ref Sample.service_ok (VBool true)
            Sample.sample_cluster Sample.service_ok
            (prepared_run_parts _ _ H0) _ _ eq_refl _);
    vm_compute; reflexivity.
Defined.

(** X16 at the same command line, with a flags module whose
    [MungeBasicAuthFlags] sets [args.username]. *)
Lemma asynchronous_run_sets_the_operations_format_witness :
  attr (args (CreateSamples.parsed GA CreateSamples.create_async
                Sample.service_ok)) "async_"
  = ok (VBool true)
  ∧ IsSpecified (args (CreateSamples.parsed GA CreateSamples.create_async
                         Sample.service_ok)) "format"
    = ok false
  ∧ left_by_munge (CF := CreateSamples.munging_flags)
      (setattr
         (args (CreateSamples.parsed GA CreateSamples.create_async
                  Sample.service_ok))
         "format" (VStr "table(name, status)"))
      (Run (CF := CreateSamples.munging_flags) (CU := Sample.command_util)
         (UT := Sample.container_util) (AD := Sample.scripted_adapter) GA
         (CreateSamples.parsed GA CreateSamples.create_async
            Sample.service_ok)).
Proof.
  assert (Ha : attr (args (CreateSamples.parsed GA CreateSamples.create_async
                             Sample.service_ok)) "async_"
               = ok (VBool true)) by (vm_compute; reflexivity).
  assert (Hs : IsSpecified
                 (args (CreateSamples.parsed GA CreateSamples.create_async
                          Sample.service_ok)) "format"
               = ok false) by (vm_compute; reflexivity).
  split_and!; [exact Ha | exact Hs |].
  exact (proj1 (asynchronous_run_sets_the_operations_format
                  (CF := CreateSamples.munging_flags)
                  (CU := Sample.command_util) (UT := Sample.container_util)
                  (AD := Sample.scripted_adapter)
                  GA _ (VBool true) Ha) eq_refl Hs).
Defined.

(** X17 at [clusters create sample-cluster] on GA, where the kubeconfig
    entry of the cluster cannot be saved for want of [HOME]. *)
Lemma kubeconfig_failure_is_a_warning_only_for_a_missing_variable_witness :
  CreateSamples.ref_of
    (CreateSamples.prepared Sample.container_util GA Sample.create_sample
       CreateSamples.service_no_home)
  = Some Sample.sample_ref
  ∧ Persist (ContainerUtil := Sample.container_util)
      (VMsg "Cluster" [("name", VStr "no-home")]) "my-project"
    = raise (MissingEnvVarError "HOME is not set")
  ∧ (Run (CF := CreateSamples.container_flags) (CU := Sample.command_util)
       (UT := Sample.container_util) (AD := Sample.scripted_adapter) GA
       (CreateSamples.parsed GA Sample.create_sample
          CreateSamples.service_no_home)).1
    = ok (VSeq [VMsg "Cluster" [("name", VStr "no-home")]])
  ∧ "HOME is not set"
    ∈ warnings
        (Run (CF := CreateSamples.container_flags) (CU := Sample.command_util)
           (UT := Sample.container_util) (AD := Sample.scripted_adapter) GA
           (CreateSamples.parsed GA Sample.create_sample
              CreateSamples.service_no_home)).2.
Proof.
  assert (H0 : CreateSamples.ref_of
                 (CreateSamples.prepared Sample.container_util GA
                    Sample.create_sample CreateSamples.service_no_home)
               = Some Sample.sample_ref) by (vm_compute; reflexivity).
  assert (HP : Persist (ContainerUtil := Sample.container_util)
                 (VMsg "Cluster" [("name", VStr "no-home")]) "my-project"
               = raise (MissingEnvVarError "HOME is not set"))
    by reflexivity.
  split; [exact H0 |]. split; [exact HP |].
  refine (proj1 (kubeconfig_failure_is_a_warning_only_for_a_missing_variable
                   (CF := CreateSamples.container_flags)
                   (CU := Sample.command_util) (UT := Sample.container_util)
                   (AD := Sample.scripted_adapter)
                   GA _ _ Sample.sample_ref _
                   Sample.operation_ref CreateSamples.service_no_home
                   (VBool false) (VInt 3600) Sample.done_with_detail
                   CreateSamples.service_no_home
                   (VMsg "Cluster" [("name", VStr "no-home")])
                   CreateSamples.service_no_home
                   (VStr "node pool default-pool is using a deprecated image")
                   (prepared_run_parts _ _ H0) _ _ eq_refl _ _ _ _)
            "HOME is not set" HP);
    vm_compute; reflexivity.
Defined.

End CreateCourseWitnesses.

(** ** Cluster creation: the flag tables *)

Section TableFacts.
Import Calliope ClustersCreate CreateEffects CreateRegistration.
Context {CF : ContainerFlags}.

(** *** The allowlist *)

Lemma add_each_allowlist entries p flag_defaults allowlist :
  add_each entries p flag_defaults (Some allowlist)
  = add_each (filter (λ entry, entry.1 ∈ allowlist) entries) p flag_defaults
      None.
Proof.
  revert p. induction entries as [| [flagname add] entries IH]; intros p.
  - done.
  - rewrite filter_cons. simpl. case_bool_decide as Hin.
    + rewrite decide_True by done. simpl.
      destruct (flag_defaults !! flagname);
        (destruct (add _ p) as [e | p1]; simpl; [done | apply IH]).
    + rewrite decide_False by done. simpl. apply IH.
Qed.

Lemma add_each_empty_allowlist entries p flag_defaults :
  add_each entries p flag_defaults (Some []) = ok p.
Proof.
  induction entries as [| [flagname add] entries IH]; [done |].
  cbn [add_each]. rewrite bool_decide_eq_false_2 by apply not_elem_of_nil.
  simpl. apply IH.
Qed.

Lemma add_each_unknown_name entries p flag_defaults name allowlist :
  name ∉ entries.*1 →
  add_each entries p flag_defaults (Some (name :: allowlist))
  = add_each entries p flag_defaults (Some allowlist).
Proof.
  revert p. induction entries as [| [flagname add] entries IH];
    intros p Hname; [done |].
  simpl in Hname. apply not_elem_of_cons in Hname as [Hne Hname].
  cbn [add_each].
  assert (Hsame : bool_decide (flagname ∈ name :: allowlist)
                  = bool_decide (flagname ∈ allowlist)).
  { apply bool_decide_ext. rewrite elem_of_cons.
    split; [intros [Heq | Hin]; [by destruct Hne | done] | by right]. }
  rewrite Hsame.
  destruct (bool_decide (flagname ∈ allowlist)); simpl.
  - destruct (flag_defaults !! flagname);
      (destruct (add _ p) as [e | p1]; simpl; [done | by apply IH]).
  - by apply IH.
Qed.

(** X20. With an allowlist, [AddFlags] does what it does without one on
    the table restricted to the listed names, in the order of the table;
    with the empty allowlist it adds nothing, and a name that is not in
    the table is ignored without complaint. *)
Theorem allowlist_restricts_the_table channel parser flag_defaults allowlist :
  AddFlags channel parser flag_defaults (Some allowlist)
  = add_each
      (filter (λ entry, entry.1 ∈ allowlist) (flags_to_add channel))
      parser flag_defaults None
  ∧ AddFlags channel parser flag_defaults (Some []) = ok parser
  ∧ (∀ name, name ∉ (flags_to_add channel).*1 →
       AddFlags channel parser flag_defaults (Some (name :: allowlist))
       = AddFlags channel parser flag_defaults (Some allowlist)).
Proof.
  unfold AddFlags. split_and!.
  - apply add_each_allowlist.
  - apply add_each_empty_allowlist.
  - intros name Hname. by apply add_each_unknown_name.
Qed.

(** *** The group of the zone flags *)

Lemma arguments_foldl_register c l p :
  arguments (foldl (λ p a, register c a p) p l) = arguments p ++ l.
Proof.
  revert p. induction l as [| a l IH]; intros p; simpl.
  - by rewrite app_nil_r.
  - rewrite IH. simpl. by rewrite <- app_assoc.
Qed.

Lemma alter_twice {A : Type} (f g : A → A) i (l : list A) :
  alter f i (alter g i l) = alter (λ x, f (g x)) i l.
Proof. revert i. induction l as [| x l IH]; intros [| i]; f_equal/=; auto. Qed.

Lemma groups_foldl_register i l p :
  mutex_groups (foldl (λ p a, register (MutexGroup i) a p) p l)
  = alter (λ g, g ++ (dest <$> l)) i (mutex_groups p).
Proof.
  revert p. induction l as [| a l IH]; intros p; simpl.
  - symmetry. apply list_alter_id. intros g. by rewrite app_nil_r.
  - rewrite IH. simpl. rewrite alter_twice.
    apply list_alter_ext; [| done]. intros g _.
    by rewrite <- app_assoc.
Qed.

(** X22. [_AddAdditionalZonesGroup] declares one new mutually exclusive
    group, after those the parser has, and leaves these as they are; the
    group holds [--additional-zones] followed by what
    [flags.AddNodeLocationsFlag] registers, and the same arguments are
    appended to those of the parser, in this order. *)
Theorem additional_zones_group_is_one_new_group p :
  mutex_groups (_AddAdditionalZonesGroup p)
  = mutex_groups p
    ++ ["additional_zones"
        :: (dest <$> registers "AddNodeLocationsFlag" [])]
  ∧ arguments (_AddAdditionalZonesGroup p)
    = arguments p
      ++ {| dest := "additional_zones"; default_value := VNone |}
         :: registers "AddNodeLocationsFlag" [].
Proof.
  unfold _AddAdditionalZonesGroup, add_mutually_exclusive_group,
    _AddAdditionalZonesFlag, add_argument, flags_on.
  split.
  - rewrite groups_foldl_register. simpl.
    rewrite alter_twice.
    replace (length (mutex_groups p)) with (length (mutex_groups p) + 0)%nat
      by lia.
    rewrite !alter_app_r. simpl. done.
  - rewrite arguments_foldl_register. simpl. by rewrite <- app_assoc.
Qed.


(** *** Defaults and the entries of the tables *)

Lemma flags_callable fn kw : callable (flags fn kw).
Proof. intros p. by eexists. Qed.

Lemma flags_on_appends c fn kw p :
  arguments p `prefix_of` arguments (flags_on c fn kw p).
Proof.
  unfold flags_on. rewrite arguments_foldl_register. by apply prefix_app_r.
Qed.

Lemma add_argument_appends c flag dflt p :
  arguments p `prefix_of` arguments (add_argument c flag dflt p).
Proof. simpl. by apply prefix_app_r. Qed.

Lemma flags_appends fn kw : appends (flags fn kw).
Proof. intros dflt p p' [= <-]. apply flags_on_appends. Qed.

Lemma pydef_rejects_default name f : rejects_default name (pydef name f).
Proof. by intros d p. Qed.

Lemma pydef_callable name f : callable (pydef name f).
Proof. intros p. by eexists. Qed.

Lemma pydef_appends name f :
  (∀ p, arguments p `prefix_of` arguments (f p)) → appends (pydef name f).
Proof. intros Hf [d |] p p' H; [discriminate | injection H as <-; auto]. Qed.

Lemma lambda_rejects_default add : rejects_default "<lambda>" (lambda add).
Proof. by intros d p. Qed.

Lemma lambda_callable add : callable add → callable (lambda add).
Proof. intros H p. apply H. Qed.

Lemma lambda_appends add : appends add → appends (lambda add).
Proof. intros H [d |] p p' Hp; [discriminate | by apply (H None)]. Qed.

Lemma AddPrivateClusterDeprecated_callable :
  callable AddPrivateClusterDeprecated.
Proof. intros p. by eexists. Qed.

Lemma AddPrivateClusterDeprecated_appends :
  appends AddPrivateClusterDeprecated.
Proof. intros dflt p p' [= <-]. apply flags_on_appends. Qed.

Lemma _Args_appends p : arguments p `prefix_of` arguments (_Args p).
Proof.
  unfold _Args.
  repeat (etrans; [| first [apply add_argument_appends
                           | apply flags_on_appends]]).
  done.
Qed.

Lemma _AddAdditionalZonesGroup_appends p :
  arguments p `prefix_of` arguments (_AddAdditionalZonesGroup p).
Proof.
  unfold _AddAdditionalZonesGroup, add_mutually_exclusive_group,
    _AddAdditionalZonesFlag, add_argument, flags_on.
  rewrite arguments_foldl_register. simpl. rewrite <- app_assoc.
  by apply prefix_app_r.
Qed.

Ltac function_appends :=
  intros ?;
  first [ apply flags_on_appends
        | apply add_argument_appends
        | apply _Args_appends
        | apply _AddAdditionalZonesGroup_appends ].

Ltac entry_appends :=
  lazymatch goal with
  | |- appends (flags _ _) => apply flags_appends
  | |- appends AddPrivateClusterDeprecated =>
      apply AddPrivateClusterDeprecated_appends
  | |- appends (AddPrivateIPv6Flag _) =>
      apply pydef_appends; function_appends
  | |- appends (AddAcceleratorFlag _ _ _) =>
      apply pydef_appends; function_appends
  | |- appends (partial _) => unfold partial; entry_appends
  | |- appends (lambda _) => apply lambda_appends; entry_appends
  | |- appends (pydef _ _) => apply pydef_appends; function_appends
  end.

Ltac entry_callable :=
  lazymatch goal with
  | |- callable (flags _ _) => apply flags_callable
  | |- callable AddPrivateClusterDeprecated =>
      apply AddPrivateClusterDeprecated_callable
  | |- callable (AddPrivateIPv6Flag _) => apply pydef_callable
  | |- callable (AddAcceleratorFlag _ _ _) => apply pydef_callable
  | |- callable (partial _) => unfold partial; entry_callable
  | |- callable (lambda _) => apply lambda_callable; entry_callable
  | |- callable (pydef _ _) => apply pydef_callable
  end.

Ltac table_appends :=
  repeat (apply Forall_cons_2; [cbn [snd]; entry_appends |]);
  apply Forall_nil_2.

Ltac table_callable :=
  repeat (apply Forall_cons_2; [cbn [snd]; entry_callable |]);
  apply Forall_nil_2.

Lemma flags_to_add_appends channel :
  Forall (λ entry, appends entry.2) (flags_to_add channel).
Proof.
  destruct channel; unfold flags_to_add.
  - unfold flags_to_add_GA. table_appends.
  - unfold flags_to_add_BETA. table_appends.
  - unfold flags_to_add_ALPHA. table_appends.
Qed.

Lemma flags_to_add_callable channel :
  Forall (λ entry, callable entry.2) (flags_to_add channel).
Proof.
  destruct channel; unfold flags_to_add.
  - unfold flags_to_add_GA. table_callable.
  - unfold flags_to_add_BETA. table_callable.
  - unfold flags_to_add_ALPHA. table_callable.
Qed.

(** One turn of the loop of [AddFlags] without an allowlist. *)
Lemma add_each_step flagname (add : Adder) entries p flag_defaults :
  add_each ((flagname, add) :: entries) p flag_defaults None
  = rbind (add (flag_defaults !! flagname) p)
      (λ p, add_each entries p flag_defaults None).
Proof. simpl. by destruct (flag_defaults !! flagname). Qed.

Lemma add_each_appends entries p flag_defaults p' :
  Forall (λ entry, appends entry.2) entries →
  add_each entries p flag_defaults None = ok p' →
  arguments p `prefix_of` arguments p'.
Proof.
  intros Hall. revert p.
  induction Hall as [| [flagname add] entries Hadd Hall IH]; intros p H.
  - by injection H as <-.
  - rewrite add_each_step in H. apply rbind_ok in H as (p1 & H1 & H).
    etrans; [exact (Hadd _ _ _ H1) | by apply IH].
Qed.

Lemma add_each_runs entries p flag_defaults :
  Forall (λ entry, ∀ p, ∃ p', entry.2 (flag_defaults !! entry.1) p = ok p')
    entries →
  ∃ p', add_each entries p flag_defaults None = ok p'.
Proof.
  intros Hall. revert p.
  induction Hall as [| [flagname add] entries Hadd Hall IH]; intros p.
  - by eexists.
  - rewrite add_each_step. destruct (Hadd p) as [p1 H1]. simpl in H1.
    rewrite H1. simpl. apply IH.
Qed.

Lemma add_each_holds entries p flag_defaults p' flagname (add : Adder)
    (registered : list Argument) :
  Forall (λ entry, appends entry.2) entries →
  add_each entries p flag_defaults None = ok p' →
  (flagname, add) ∈ entries →
  (∀ p p', add (flag_defaults !! flagname) p = ok p' →
           registered ⊆ arguments p') →
  registered ⊆ arguments p'.
Proof.
  intros Hall H Hin Hadd. revert p H.
  induction Hall as [| [flagname' add'] entries Happ Hall IH]; intros p H.
  - by apply elem_of_nil in Hin.
  - rewrite add_each_step in H. apply rbind_ok in H as (p1 & H1 & H).
    apply elem_of_cons in Hin as [[= <- <-] | Hin].
    + intros a Ha.
      destruct (add_each_appends _ _ _ _ Hall H) as [k ->].
      apply elem_of_app. left. exact (Hadd _ _ H1 a Ha).
    + by apply (IH Hin p1).
Qed.

Lemma base_flag_defaults_lookup flagname :
  base_flag_defaults !! flagname
  = if String.eqb flagname "num_nodes" then Some (VInt 3) else None.
Proof.
  unfold base_flag_defaults.
  destruct (String.eqb_spec flagname "num_nodes") as [-> | Hne].
  - by rewrite lookup_singleton_eq.
  - by rewrite lookup_singleton_ne.
Qed.

Lemma callable_at_base_default channel :
  Forall (λ entry, ∀ p,
            ∃ p', entry.2 (base_flag_defaults !! entry.1) p = ok p')
    (flags_to_add channel).
Proof.
  pose proof (flags_to_add_callable channel) as Hcallable.
  assert (Hnum : ∀ flagname add,
            (flagname, add) ∈ flags_to_add channel →
            flagname = "num_nodes" → add = flags "AddNumNodes" []).
  { intros flagname add Hin ->. revert Hin.
    destruct channel; unfold flags_to_add;
      [unfold flags_to_add_GA | unfold flags_to_add_BETA
      | unfold flags_to_add_ALPHA];
      intros Hin;
      repeat (apply elem_of_cons in Hin as [Heq | Hin];
              [first [discriminate Heq | by injection Heq] |]);
      by apply elem_of_nil in Hin. }
  rewrite Forall_forall in Hcallable. apply Forall_forall.
  intros [flagname add] Hin p. simpl. rewrite base_flag_defaults_lookup.
  destruct (String.eqb_spec flagname "num_nodes") as [Heq | Hne].
  - rewrite (Hnum _ _ Hin Heq). by eexists.
  - exact (Hcallable _ Hin p).
Qed.

Lemma num_nodes_entry channel :
  ("num_nodes", flags "AddNumNodes" []) ∈ flags_to_add channel.
Proof.
  destruct channel; unfold flags_to_add;
    [unfold flags_to_add_GA | unfold flags_to_add_BETA
    | unfold flags_to_add_ALPHA];
    repeat first [apply list_elem_of_here | apply list_elem_of_further].
Qed.

(** X18. On every track and with any flags module, [Args] returns: no
    entry of the table is handed a [default] that it cannot take.  The
    arguments the parser had are kept, in their order and before the new
    ones, and [flags.AddNumNodes] has been called with [default=3], the
    one default of [base_flag_defaults]. *)
Theorem create_flags_are_registered_on_every_track track p :
  ∃ p',
    Args track p = ok p'
    ∧ arguments p `prefix_of` arguments p'
    ∧ registers "AddNumNodes" [("default", VInt 3)] ⊆ arguments p'.
Proof.
  unfold Args, AddFlags.
  destruct (add_each_runs (flags_to_add track) p base_flag_defaults
              (callable_at_base_default track)) as [p' H].
  exists p'. split_and!; [done | |].
  - exact (add_each_appends _ _ _ _ (flags_to_add_appends track) H).
  - apply (add_each_holds _ _ _ _ "num_nodes" (flags "AddNumNodes" []) _
             (flags_to_add_appends track) H (num_nodes_entry track)).
    intros p0 p1. rewrite base_flag_defaults_lookup. simpl.
    intros [= <-]. unfold flags_on. rewrite arguments_foldl_register.
    intros a Ha. apply elem_of_app. by right.
Qed.

Lemma add_each_reaches entries p flag_defaults allowlist p' flagname
    (add : Adder) d :
  add_each entries p flag_defaults allowlist = ok p' →
  (flagname, add) ∈ entries → flag_defaults !! flagname = Some d →
  (∀ l, allowlist = Some l → flagname ∈ l) →
  ∃ p0 p1, add (Some d) p0 = ok p1.
Proof.
  intros H Hin Hd Hallowed. revert p H.
  induction entries as [| [flagname' add'] entries IH]; intros p H.
  - by apply elem_of_nil in Hin.
  - simpl in H. apply rbind_ok in H as (p1 & H1 & H).
    apply elem_of_cons in Hin as [[= <- <-] | Hin].
    + exists p, p1. rewrite Hd in H1.
      destruct allowlist as [l |]; [| done].
      by rewrite (bool_decide_eq_true_2 _ (Hallowed l eq_refl)) in H1.
    + by apply (IH Hin p1).
Qed.

Lemma without_default_entry channel flagname callee :
  (flagname, callee) ∈ without_default channel →
  ∃ add, (flagname, add) ∈ flags_to_add channel ∧ rejects_default callee add.
Proof.
  intros Hin.
  destruct channel; unfold without_default in Hin;
    repeat (apply elem_of_cons in Hin as [[= -> ->] | Hin]);
    try (by apply elem_of_nil in Hin);
    (eexists; split;
     [ unfold flags_to_add;
       first [unfold flags_to_add_GA | unfold flags_to_add_BETA
             | unfold flags_to_add_ALPHA];
       repeat first [apply list_elem_of_here | apply list_elem_of_further]
     | first [apply lambda_rejects_default | apply pydef_rejects_default] ]).
Qed.

(** X19. The entries that [create.py] writes as a [lambda], or as a
    function of the file without a [default] parameter, cannot be given
    a default: called with one, each raises the [TypeError] that names
    it, whatever the default and the parser.  So [AddFlags] returns only
    if [flag_defaults] names none of these keys, among those the
    allowlist lets through; and a default for [accelerator], whose entry
    is a lambda and the first of each table, makes [AddFlags] raise
    [TypeError] for [<lambda>] whatever else is asked. *)
Theorem flag_default_for_an_entry_without_the_parameter_is_a_TypeError
    channel :
  (∀ flagname callee,
     (flagname, callee) ∈ without_default channel →
     ∃ add, (flagname, add) ∈ flags_to_add channel
            ∧ ∀ d p,
                add (Some d) p
                = raise (TypeError
                           (callee
                            ++ "() got an unexpected keyword argument 'default'")))
  ∧ (∀ p flag_defaults allowlist p' flagname callee,
       AddFlags channel p flag_defaults allowlist = ok p' →
       (flagname, callee) ∈ without_default channel →
       (∀ l, allowlist = Some l → flagname ∈ l) →
       flag_defaults !! flagname = None)
  ∧ (∀ p flag_defaults d,
       flag_defaults !! "accelerator" = Some d →
       AddFlags channel p flag_defaults None
       = raise (TypeError
                  "<lambda>() got an unexpected keyword argument 'default'")).
Proof.
  split_and!.
  - intros flagname callee Hin.
    destruct (without_default_entry _ _ _ Hin) as (add & Hadd & Hrejects).
    exists add. split; [done |]. exact Hrejects.
  - intros p flag_defaults allowlist p' flagname callee H Hin Hallowed.
    destruct (without_default_entry _ _ _ Hin) as (add & Hadd & Hrejects).
    destruct (flag_defaults !! flagname) as [d |] eqn:Hd; [| done].
    destruct (add_each_reaches _ _ _ _ _ _ _ _ H Hadd Hd Hallowed)
      as (p0 & p1 & Hp).
    by rewrite Hrejects in Hp.
  - intros p flag_defaults d Hd. unfold AddFlags.
    destruct channel; unfold flags_to_add;
      [unfold flags_to_add_GA | unfold flags_to_add_BETA
      | unfold flags_to_add_ALPHA];
      rewrite add_each_step, Hd; reflexivity.
Qed.

End TableFacts.

(** ** Cluster creation: what the options hold *)

Section OptionContents.
Import Calliope ClustersCreate CreateEffects.
Context {S : Type} {CF : ContainerFlags} {CU : CommandUtil}.

Lemma assoc_here {A : Type} k (v : A) kw : assoc k ((k, v) :: kw) = Some v.
Proof. simpl. by rewrite String.eqb_refl. Qed.

Lemma assoc_further {A : Type} k k' (v : A) kw :
  k ≠ k' → assoc k ((k', v) :: kw) = assoc k kw.
Proof. intros Hne. simpl. by destruct (String.eqb_spec k k'). Qed.

Lemma list_to_map_assoc (kw : list (string * value)) k :
  (list_to_map kw : gmap string value) !! k = assoc k kw.
Proof.
  induction kw as [| [k' v] kw IH]; [done |]. simpl.
  destruct (String.eqb_spec k k') as [-> | Hne].
  - by rewrite lookup_insert_eq.
  - by rewrite lookup_insert_ne.
Qed.

(** An attribute of the option object is the keyword argument it was
    built from. *)
Lemma opt_CreateClusterOptions kw k :
  NoDup kw.*1 → opt (CreateClusterOptions kw) k = default VNone (assoc k kw).
Proof.
  intros Hkeys. unfold opt, CreateClusterOptions.
  rewrite (list_to_map_proper (M := gmap string) (reverse kw) kw).
  - by rewrite list_to_map_assoc.
  - rewrite fmap_reverse. by rewrite reverse_Permutation.
  - apply reverse_Permutation.
Qed.

(** Assigning other attributes leaves an attribute as it was. *)
Lemma opt_assign_other kw ops k :
  k ∉ kw.*1 → opt (assign kw ops) k = opt ops k.
Proof.
  revert ops. induction kw as [| [k' v] kw IH]; intros ops Hk; [done |].
  simpl in Hk. apply not_elem_of_cons in Hk as [Hne Hk].
  simpl. rewrite (IH _ Hk). unfold opt. simpl.
  by rewrite lookup_insert_ne.
Qed.

Lemma run_helper_ok_inv {A : Type} (h : Helper A) (w w' : World S) a :
  run_helper h w = (ok a, w') → ∃ msgs, h = ok (a, msgs).
Proof.
  destruct h as [e | [a' msgs]]; simpl; [discriminate |].
  unfold bind, log_warnings, ret. simpl. intros [= -> _]. by exists msgs.
Qed.

Lemma ret_ok_inv {A : Type} (x y : A) (w w' : World S) :
  ret x w = (ok y, w') → y = x ∧ w' = w.
Proof. by intros [= <- <-]. Qed.

Ltac open_binds H :=
  cbv zeta in H;
  repeat match type of H with
         | bind _ _ _ = (ok _, _) =>
             let a := fresh "a" in
             let w' := fresh "w" in
             let Ha := fresh "Ha" in
             apply bind_ok_inv in H as (a & w' & Ha & H)
         end.

Ltac distinct_keys := apply (bool_decide_unpack _); lazy; exact I.

Ltac keyword_of_option :=
  rewrite opt_CreateClusterOptions by distinct_keys;
  lazy [assoc String.eqb Ascii.eqb Bool.eqb andb];
  cbn [default from_option id].

(** What the options hold for the three logging flags, as built by
    [ParseCreateOptionsBase]. *)
Lemma ParseCreateOptionsBase_logging is_autopilot get_default location
    project_id (w w' : World S) options :
  ParseCreateOptionsBase is_autopilot get_default location project_id w
  = (ok options, w') →
  ∃ a msgs,
    MungeBasicAuthFlags (args w) = ok (a, msgs)
    ∧ ∀ name,
        name ∈ ["enable_stackdriver_kubernetes"; "enable_cloud_logging";
                "enable_cloud_monitoring"] →
        opt options name
        = if _IsSpecified a name then getattr a name VNone else VNone.
Proof.
  intros H. unfold ParseCreateOptionsBase in H. open_binds H.
  match goal with
  | Hg : get_args w = (ok ?a, _) |- _ => injection Hg as <- <-
  end.
  match goal with
  | Hm : run_helper (MungeBasicAuthFlags (args w)) _ = (ok ?a, _) |- _ =>
      apply run_helper_ok_inv in Hm as [msgs Hm]; exists a, msgs
  end.
  split; [done |].
  apply ret_ok_inv in H as [-> _].
  intros name Hname.
  repeat (apply elem_of_cons in Hname as [-> | Hname]);
    [| | | by apply elem_of_nil in Hname];
    keyword_of_option.
  - unfold _GetEnableStackdriver, _IsSpecified.
    match goal with
    | |- context [hasattr ?x ?n] =>
        destruct (hasattr x n), (is_specified x n)
    end; reflexivity.
  - done.
  - done.
Qed.

(** X21. The three logging options [enable_stackdriver_kubernetes],
    [enable_cloud_logging] and [enable_cloud_monitoring] reach the
    request only when their flag was given on the command line: on every
    track the option is the value of the flag if the namespace has the
    attribute and the flag was specified, and [None] otherwise, whatever
    default the flag has.  The namespace is the one that
    [MungeBasicAuthFlags] leaves. *)
Theorem logging_options_are_sent_only_when_specified track location
    project_id (w w' : World S) options :
  ParseCreateOptions track location project_id w = (ok options, w') →
  ∃ a msgs,
    MungeBasicAuthFlags (args w) = ok (a, msgs)
    ∧ ∀ name,
        name ∈ ["enable_stackdriver_kubernetes"; "enable_cloud_logging";
                "enable_cloud_monitoring"] →
        opt options name
        = if _IsSpecified a name then getattr a name VNone else VNone.
Proof.
  intros H. destruct track; simpl in H.
  - exact (ParseCreateOptionsBase_logging _ _ _ _ _ _ _ H).
  - unfold CreateBeta_ParseCreateOptions in H. cbv zeta in H.
    apply bind_ok_inv in H as (ops & w1 & Hbase & H).
    apply ParseCreateOptionsBase_logging in Hbase
      as (a & msgs & Hm & Hbase).
    exists a, msgs. split; [done |].
    open_binds H. apply ret_ok_inv in H as [-> _].
    intros name Hname. rewrite <- (Hbase name Hname).
    repeat (apply elem_of_cons in Hname as [-> | Hname]);
      [| | | by apply elem_of_nil in Hname];
      rewrite !opt_assign_other by distinct_keys; reflexivity.
  - unfold CreateAlpha_ParseCreateOptions in H. cbv zeta in H.
    apply bind_ok_inv in H as (ops & w1 & Hbase & H).
    apply ParseCreateOptionsBase_logging in Hbase
      as (a & msgs & Hm & Hbase).
    exists a, msgs. split; [done |].
    open_binds H. apply ret_ok_inv in H as [-> _].
    intros name Hname. rewrite <- (Hbase name Hname).
    repeat (apply elem_of_cons in Hname as [-> | Hname]);
      [| | | by apply elem_of_nil in Hname];
      rewrite !opt_assign_other by distinct_keys; reflexivity.
Qed.

End OptionContents.

Section OptionContentsWitnesses.
Import Calliope ClustersCreate CreateEffects.

Lemma returned_parts {W : Type} (r : result (gmap string value) * W) :
  CreateSamples.returns r = true → r = (ok (CreateSamples.returned r), r.2).
Proof.
  unfold CreateSamples.returns, CreateSamples.returned.
  destruct r as [[e | options] w]; simpl; [discriminate | done].
Qed.

(** X21 at [clusters create sample-cluster] on GA, with a flags module
    whose [--enable-cloud-logging] is on by default: the flag is not
    given, the namespace holds [True], and the option is [None]. *)
Lemma logging_options_are_sent_only_when_specified_witness :
  CreateSamples.returns
    (CreateSamples.parse_options GA Sample.create_sample Sample.service_ok)
  = true
  ∧ getattr
      (args (CreateSamples.parsed GA Sample.create_sample Sample.service_ok))
      "enable_cloud_logging" VNone
    = VBool true
  ∧ opt
      (CreateSamples.returned
         (CreateSamples.parse_options GA Sample.create_sample
            Sample.service_ok))
      "enable_cloud_logging"
    = VNone.
Proof.
  assert (H0 : CreateSamples.returns
                 (CreateSamples.parse_options GA Sample.create_sample
                    Sample.service_ok)
               = true) by (vm_compute; reflexivity).
  split; [exact H0 |]. split; [vm_compute; reflexivity |].
  destruct (logging_options_are_sent_only_when_specified
              (CF := CreateSamples.container_flags)
              (CU := Sample.command_util)
              GA "us-central1-a" "my-project" _ _ _ (returned_parts _ H0))
    as (a & msgs & Hm & Hopt).
  cbv beta iota delta [MungeBasicAuthFlags CreateSamples.container_flags]
    in Hm.
  injection Hm as <- <-.
  rewrite (Hopt "enable_cloud_logging" ltac:(in_list)).
  vm_compute. reflexivity.
Defined.

End OptionContentsWitnesses.
